(** * Memo Drive App: a shallow embedding of the two front-end variants

    The repository holds two variants of one browser page:
    - the relay variant ([Module Relay], the file posting to a GAS web hook),
    - the drive variant ([Module Drive], [app.js], Google Drive behind sign-in).

    JavaScript strings are sequences of UTF-16 code units, so that
    [String.prototype.trim] and [length] mean what they mean in the
    browser.  Device storage is a finite map from keys to strings.  Every
    event handler is a computation in a small state-and-exception monad
    over the page state; the outside world (clock, network, connectivity
    flag) is an oracle indexed by the number of interactions so far.

    What the model takes from the platform:
    - a handler is followed from its first statement to the end of its
      last continuation; no other handler runs while it awaits;
    - [localStorage.setItem] and [removeItem] succeed;
    - a disabled button receives no click;
    - [JSON.parse] reads back what [JSON.stringify] wrote ([JSONParse]). *)

From Stdlib Require Import ZArith NArith String Ascii List Lia Bool DecimalString.
From stdpp Require Import base option list gmap.

Local Open Scope N_scope.

(** ** JavaScript strings *)

Module JS.

(** A string value: its UTF-16 code units. *)
Abbreviation jsstring := (list N).

(** An ASCII literal of the source, as code units. *)
Definition lit (s : string) : jsstring :=
  map N_of_ascii (list_ascii_of_string s).

(** [WhiteSpace] and [LineTerminator] code points of ECMAScript, the set
    that [trim] strips (all of them are single code units). *)
Definition is_ws (c : N) : bool :=
  (c =? 0x9) || (c =? 0xA) || (c =? 0xB) || (c =? 0xC) || (c =? 0xD)
  || (c =? 0x20) || (c =? 0xA0) || (c =? 0x1680)
  || ((0x2000 <=? c) && (c <=? 0x200A))
  || (c =? 0x2028) || (c =? 0x2029) || (c =? 0x202F) || (c =? 0x205F)
  || (c =? 0x3000) || (c =? 0xFEFF).

Fixpoint trimStart (s : jsstring) : jsstring :=
  match s with
  | [] => []
  | c :: s' => if is_ws c then trimStart s' else s
  end.

Definition trimEnd (s : jsstring) : jsstring := rev (trimStart (rev s)).

(** [s.trim()] *)
Definition trim (s : jsstring) : jsstring := trimEnd (trimStart s).

(** Truthiness of a string: only the empty string is falsy. *)
Definition truthy (s : jsstring) : bool :=
  match s with [] => false | _ => true end.

(** [a || b] on strings. *)
Definition or_else (a b : jsstring) : jsstring := if truthy a then a else b.

(** Decimal digits of a [Decimal.uint], most significant first. *)
Fixpoint uint_units (d : Decimal.uint) : jsstring :=
  match d with
  | Decimal.Nil => []
  | Decimal.D0 d => 0x30 :: uint_units d
  | Decimal.D1 d => 0x31 :: uint_units d
  | Decimal.D2 d => 0x32 :: uint_units d
  | Decimal.D3 d => 0x33 :: uint_units d
  | Decimal.D4 d => 0x34 :: uint_units d
  | Decimal.D5 d => 0x35 :: uint_units d
  | Decimal.D6 d => 0x36 :: uint_units d
  | Decimal.D7 d => 0x37 :: uint_units d
  | Decimal.D8 d => 0x38 :: uint_units d
  | Decimal.D9 d => 0x39 :: uint_units d
  end.

(** [String(n)] for a non-negative integer. *)
Definition String_of_N (n : N) : jsstring := uint_units (N.to_uint n).

(** [String(z)] (also what a template literal does) for an integer. *)
Definition String_of_Z (z : Z) : jsstring :=
  match z with
  | Z0 => lit "0"
  | Zpos p => String_of_N (Npos p)
  | Zneg p => lit "-" ++ String_of_N (Npos p)
  end.

(** [s.padStart(target, pad)]: the pad string is repeated and truncated
    to fill; nothing happens when [s] is long enough or [pad] is empty. *)
Definition padStart (target : nat) (pad s : jsstring) : jsstring :=
  if (target <=? length s)%nat || negb (truthy pad) then s
  else
    let fill := (target - length s)%nat in
    take fill (concat (replicate fill pad)) ++ s.

(** [s.length > 0] *)
Definition nonempty (s : jsstring) : bool := (0 <? length s)%nat.

(** Substring test, used to state what a notice contains. *)
Fixpoint is_prefix (p s : jsstring) : bool :=
  match p, s with
  | [], _ => true
  | _ :: _, [] => false
  | a :: p', b :: s' => (a =? b) && is_prefix p' s'
  end.

(** [a === b] on strings. *)
Fixpoint units_eqb (a b : jsstring) : bool :=
  match a, b with
  | [], [] => true
  | x :: a', y :: b' => (x =? y) && units_eqb a' b'
  | _, _ => false
  end.

Fixpoint contains (s p : jsstring) : bool :=
  is_prefix p s ||
  match s with
  | [] => false
  | _ :: s' => contains s' p
  end.

End JS.

Import JS.

(** ** The clock

    One reading of [new Date()], seen through the getters the code uses:
    local calendar fields, and the UTC fields that [toISOString] prints. *)

Record Date := {
  getFullYear : Z;
  getMonth : N;          (* 0 .. 11 *)
  getDate : N;           (* 1 .. 31 *)
  getDay : N;            (* 0 = Sunday .. 6 *)
  getHours : N;
  getMinutes : N;
  getUTCFullYear : Z;
  getUTCMonth : N;
  getUTCDate : N;
  getUTCHours : N;
  getUTCMinutes : N;
  getUTCSeconds : N;
  getUTCMilliseconds : N
}.

Definition pad2 (n : N) : jsstring := padStart 2 (lit "0") (String_of_N n).
Definition pad3 (n : N) : jsstring := padStart 3 (lit "0") (String_of_N n).
Definition pad4 (n : N) : jsstring := padStart 4 (lit "0") (String_of_N n).
Definition pad6 (n : N) : jsstring := padStart 6 (lit "0") (String_of_N n).

(** [d.toISOString()]: [YYYY-MM-DDTHH:mm:ss.sssZ] in UTC, with the
    expanded signed six-digit year outside 0..9999. *)
Definition iso_year (y : Z) : jsstring :=
  if ((0 <=? y) && (y <=? 9999))%Z then pad4 (Z.to_N y)
  else if (y <? 0)%Z then lit "-" ++ pad6 (Z.to_N (- y))
  else lit "+" ++ pad6 (Z.to_N y).

Definition toISOString (d : Date) : jsstring :=
  iso_year (getUTCFullYear d) ++ lit "-" ++ pad2 (getUTCMonth d + 1) ++ lit "-"
  ++ pad2 (getUTCDate d) ++ lit "T" ++ pad2 (getUTCHours d) ++ lit ":"
  ++ pad2 (getUTCMinutes d) ++ lit ":" ++ pad2 (getUTCSeconds d) ++ lit "."
  ++ pad3 (getUTCMilliseconds d) ++ lit "Z".

(** [d.toLocaleTimeString('ja-JP', {hour: '2-digit', minute: '2-digit'})]:
    the ja-JP pattern is 24-hour [HH:mm]. *)
Definition toLocaleTimeString_ja (d : Date) : jsstring :=
  pad2 (getHours d) ++ lit ":" ++ pad2 (getMinutes d).

(** [d.toLocaleString('ja-JP', {year: 'numeric', month: '2-digit',
    day: '2-digit', hour: '2-digit', minute: '2-digit'})], for example
    [2026/02/20 22:54]. *)
Definition toLocaleString_ja (d : Date) : jsstring :=
  String_of_Z (getFullYear d) ++ lit "/" ++ pad2 (getMonth d + 1) ++ lit "/"
  ++ pad2 (getDate d) ++ lit " " ++ toLocaleTimeString_ja d.

(** Short weekday names of ja-JP: 日 月 火 水 木 金 土. *)
Definition weekday_ja (n : N) : jsstring :=
  match n with
  | 0 => [0x65E5] | 1 => [0x6708] | 2 => [0x706B] | 3 => [0x6C34]
  | 4 => [0x6728] | 5 => [0x91D1] | _ => [0x571F]
  end.

(** [d.toLocaleDateString('ja-JP', {year: 'numeric', month: 'long',
    day: 'numeric', weekday: 'short'})], for example 2026年2月20日(金). *)
Definition toLocaleDateString_ja (d : Date) : jsstring :=
  String_of_Z (getFullYear d) ++ [0x5E74] ++ String_of_N (getMonth d + 1)
  ++ [0x6708] ++ String_of_N (getDate d) ++ [0x65E5]
  ++ lit "(" ++ weekday_ja (getDay d) ++ lit ")".

(** A reading of the clock that a real calendar can produce. *)
Definition plausible_date (d : Date) : Prop :=
  (1000 <= getFullYear d <= 9999)%Z /\ getMonth d <= 11 /\
  1 <= getDate d <= 31 /\ getDay d <= 6 /\ getHours d <= 23 /\ getMinutes d <= 59 /\
  (1000 <= getUTCFullYear d <= 9999)%Z /\ getUTCMonth d <= 11 /\
  1 <= getUTCDate d <= 31 /\ getUTCHours d <= 23 /\ getUTCMinutes d <= 59 /\
  getUTCSeconds d <= 59 /\ getUTCMilliseconds d <= 999.

Definition date_2026_02_20 : Date :=
  {| getFullYear := 2026; getMonth := 1; getDate := 20; getDay := 5;
     getHours := 22; getMinutes := 54;
     getUTCFullYear := 2026; getUTCMonth := 1; getUTCDate := 20;
     getUTCHours := 13; getUTCMinutes := 54; getUTCSeconds := 7;
     getUTCMilliseconds := 42 |}.

(** ** Values that cross the page boundary *)

(** One queued note, as [saveToLocal] / [saveTextLocally] build it. *)
Record PendingMemo := mkMemo {
  text : jsstring;
  timestamp : jsstring
}.

(** A thrown or rejected value, seen through the three reads the catch
    blocks make: [err.result?.error?.message], [err.message] (both
    [None] when undefined) and the text [JSON.stringify(err)] gives when
    interpolated. *)
Record JsError := mkError {
  err_result_error_message : option jsstring;
  err_message : option jsstring;
  err_json : jsstring
}.

(** ** JSON text

    [JSON.stringify] is deterministic (ECMAScript, SerializeJSONProperty
    and QuoteJSONString) and is written out here for the values the code
    passes to it.  [JSON.parse] is the platform's: it is an operation of a
    class whose one law is that it reads back what [JSON.stringify] wrote. *)

Module JSON.

Definition hex_digit (d : N) : N :=
  if d <? 10 then 0x30 + d else 0x61 + (d - 10).

(** [\uXXXX] with lower-case hexadecimal digits. *)
Definition unicode_escape (c : N) : jsstring :=
  [0x5C; 0x75; hex_digit (c / 4096 mod 16); hex_digit (c / 256 mod 16);
   hex_digit (c / 16 mod 16); hex_digit (c mod 16)].

Definition is_high (c : N) : bool := (0xD800 <=? c) && (c <=? 0xDBFF).
Definition is_low (c : N) : bool := (0xDC00 <=? c) && (c <=? 0xDFFF).

(** A code unit that is not a surrogate. *)
Definition escape_unit (c : N) : jsstring :=
  if c =? 0x8 then [0x5C; 0x62]
  else if c =? 0x9 then [0x5C; 0x74]
  else if c =? 0xA then [0x5C; 0x6E]
  else if c =? 0xC then [0x5C; 0x66]
  else if c =? 0xD then [0x5C; 0x72]
  else if c =? 0x22 then [0x5C; 0x22]
  else if c =? 0x5C then [0x5C; 0x5C]
  else if c <? 0x20 then unicode_escape c
  else [c].

(** The characters between the quotes: a surrogate pair is copied, a lone
    surrogate is escaped. *)
Fixpoint quote_units (s : jsstring) : jsstring :=
  match s with
  | [] => []
  | c :: s' =>
      if is_high c then
        match s' with
        | d :: s'' =>
            if is_low d then c :: d :: quote_units s''
            else unicode_escape c ++ quote_units s'
        | [] => unicode_escape c
        end
      else if is_low c then unicode_escape c ++ quote_units s'
      else escape_unit c ++ quote_units s'
  end.

Definition dq : N := 0x22.

Definition QuoteJSONString (s : jsstring) : jsstring :=
  dq :: quote_units s ++ [dq].

Fixpoint join (sep : jsstring) (items : list jsstring) : jsstring :=
  match items with
  | [] => []
  | [x] => x
  | x :: rest => x ++ sep ++ join sep rest
  end.

Definition member (key value : jsstring) : jsstring :=
  QuoteJSONString key ++ lit ":" ++ value.

Definition object (members : list jsstring) : jsstring :=
  lit "{" ++ join (lit ",") members ++ lit "}".

Definition array (items : list jsstring) : jsstring :=
  lit "[" ++ join (lit ",") items ++ lit "]".

(** [JSON.stringify({text: .., timestamp: ..})] *)
Definition stringify_memo (m : PendingMemo) : jsstring :=
  object [member (lit "text") (QuoteJSONString (text m));
          member (lit "timestamp") (QuoteJSONString (timestamp m))].

(** [JSON.stringify(pending)] for the queue. *)
Definition stringify (q : list PendingMemo) : jsstring :=
  array (map stringify_memo q).

End JSON.

(** The platform's [JSON.parse], read at the type the code uses its
    result at; [None] is a throw, of the value [JSON_parse_error]. *)
Class JSONParse := {
  JSON_parse : jsstring -> option (list PendingMemo);
  JSON_parse_error : jsstring -> JsError;
  JSON_parse_stringify : forall q, JSON_parse (JSON.stringify q) = Some q
}.

(** ** Effects on the platform, in the order they are issued *)

(** What a timer runs when it fires. *)
Inductive Callback :=
| CbStatus (message kind : jsstring)
| CbInitGis.

Record FetchInit := mkInit {
  f_method : jsstring;
  f_mode : jsstring;
  f_content_type : jsstring;
  f_body : jsstring
}.

Inductive Effect :=
| ESetItem (key value : jsstring)
| ERemoveItem (key : jsstring)
| EAlert (message : jsstring)
| EConsole (level message : jsstring) (detail : option JsError)
| ESetTimeout (cb : Callback) (delay : N)
| EFetch (url : jsstring) (init : FetchInit)
| EFilesList (q fields spaces : jsstring)
| EFilesGet (fileId alt : jsstring)
| ERequest (path method uploadType contentType body : jsstring)
| ERecognitionStart
| ERecognitionStop
| EGapiLoad
| EGapiClientInit (apiKey discoveryDoc : jsstring)
| EInitTokenClient (client_id scope : jsstring)
| ERequestAccessToken (prompt : jsstring)
| EUnhandled (e : JsError).

(** An outbound network call. *)
Definition is_network (e : Effect) : bool :=
  match e with
  | EFetch _ _ | EFilesList _ _ _ | EFilesGet _ _ | ERequest _ _ _ _ _
  | EGapiLoad | EGapiClientInit _ _ | ERequestAccessToken _ => true
  | _ => false
  end.

(** ** The page *)

#[projections(primitive)] Record Page := mkPage {
  statusText : jsstring;        (* statusText.textContent *)
  statusDot : jsstring;         (* statusDot.className *)
  dateDisplay : jsstring;       (* dateDisplay.textContent *)
  memoText : jsstring;          (* memoText.value *)
  micListening : bool;          (* micBtn.classList has 'listening' *)
  micHidden : bool;             (* micBtn.style.display = 'none' *)
  saveDisabled : bool;          (* saveBtn.disabled *)
  localStorage : gmap jsstring jsstring;
  timers : list (Callback * N);
  trace : list Effect;
  tick : nat
}.

Definition set_status (t d : jsstring) (p : Page) : Page :=
  mkPage t d (dateDisplay p) (memoText p) (micListening p) (micHidden p)
    (saveDisabled p) (localStorage p) (timers p) (trace p) (tick p).
Definition set_dateDisplay (v : jsstring) (p : Page) : Page :=
  mkPage (statusText p) (statusDot p) v (memoText p) (micListening p) (micHidden p)
    (saveDisabled p) (localStorage p) (timers p) (trace p) (tick p).
Definition set_memoText (v : jsstring) (p : Page) : Page :=
  mkPage (statusText p) (statusDot p) (dateDisplay p) v (micListening p) (micHidden p)
    (saveDisabled p) (localStorage p) (timers p) (trace p) (tick p).
Definition set_micListening (v : bool) (p : Page) : Page :=
  mkPage (statusText p) (statusDot p) (dateDisplay p) (memoText p) v (micHidden p)
    (saveDisabled p) (localStorage p) (timers p) (trace p) (tick p).
Definition set_micHidden (v : bool) (p : Page) : Page :=
  mkPage (statusText p) (statusDot p) (dateDisplay p) (memoText p) (micListening p) v
    (saveDisabled p) (localStorage p) (timers p) (trace p) (tick p).
Definition set_saveDisabled (v : bool) (p : Page) : Page :=
  mkPage (statusText p) (statusDot p) (dateDisplay p) (memoText p) (micListening p)
    (micHidden p) v (localStorage p) (timers p) (trace p) (tick p).
Definition set_localStorage (v : gmap jsstring jsstring) (p : Page) : Page :=
  mkPage (statusText p) (statusDot p) (dateDisplay p) (memoText p) (micListening p)
    (micHidden p) (saveDisabled p) v (timers p) (trace p) (tick p).
Definition set_timers (v : list (Callback * N)) (p : Page) : Page :=
  mkPage (statusText p) (statusDot p) (dateDisplay p) (memoText p) (micListening p)
    (micHidden p) (saveDisabled p) (localStorage p) v (trace p) (tick p).
Definition emit (e : Effect) (p : Page) : Page :=
  mkPage (statusText p) (statusDot p) (dateDisplay p) (memoText p) (micListening p)
    (micHidden p) (saveDisabled p) (localStorage p) (timers p) (trace p ++ [e]) (tick p).
Definition next_tick (p : Page) : Page :=
  mkPage (statusText p) (statusDot p) (dateDisplay p) (memoText p) (micListening p)
    (micHidden p) (saveDisabled p) (localStorage p) (timers p) (trace p) (S (tick p)).

(** The variant's own state record, next to the page. *)
#[projections(primitive)] Record World (S : Type) := mkWorld {
  state : S;
  page : Page
}.
Arguments mkWorld {S} _ _.
Arguments state {S} _.
Arguments page {S} _.

(** ** The outside world

    Each field answers the [n]-th interaction of the session, where [n]
    is the page's [tick]: a reading of the clock, the connectivity flag,
    and the outcome of each kind of remote call ([None] and [inr] are
    success). *)

Record DriveFile := mkFile {
  file_id : jsstring;
  file_name : jsstring
}.

Record Env := mkEnv {
  clock : nat -> Date;
  navigator_onLine : nat -> bool;
  fetch_outcome : nat -> option JsError;
  files_list_outcome : nat -> JsError + list DriveFile;
  files_get_outcome : nat -> JsError + jsstring;
  request_outcome : nat -> option JsError;
  client_init_outcome : nat -> option JsError;
  getToken : nat -> bool;
  window_google : nat -> bool
}.

(** ** Handlers as computations

    A handler runs with the page in hand and either completes or throws.
    An [await] is a call whose outcome the oracle supplies; a handler is
    followed from its first statement to its last, continuations
    included, without another handler running in between. *)

Inductive Completion (A : Type) :=
| Normal (a : A)
| Throw (e : JsError).
Arguments Normal {A} _.
Arguments Throw {A} _.

Definition M (S A : Type) : Type := World S -> Completion A * World S.

Definition ret {S A} (a : A) : M S A := fun w => (Normal a, w).

Definition bind {S A B} (m : M S A) (k : A -> M S B) : M S B :=
  fun w =>
    match m w with
    | (Normal a, w') => k a w'
    | (Throw e, w') => (Throw e, w')
    end.

Definition throw {S A} (e : JsError) : M S A := fun w => (Throw e, w).

(** [try { m } catch (e) { h e }] *)
Definition try_catch {S A} (m : M S A) (h : JsError -> M S A) : M S A :=
  fun w =>
    match m w with
    | (Normal a, w') => (Normal a, w')
    | (Throw e, w') => h e w'
    end.

Declare Scope js_scope.
Delimit Scope js_scope with js.
Notation "x <- c1 ;; c2" := (bind c1 (fun x => c2))
  (at level 100, c1 at next level, right associativity) : js_scope.
Notation "c1 ;; c2" := (bind c1 (fun _ => c2))
  (at level 100, right associativity) : js_scope.
Local Open Scope js_scope.

Definition get_state {S} : M S S := fun w => (Normal (state w), w).
Definition put_state {S} (s : S) : M S unit :=
  fun w => (Normal tt, mkWorld s (page w)).
Definition get_page {S} : M S Page := fun w => (Normal (page w), w).
Definition modify_page {S} (f : Page -> Page) : M S unit :=
  fun w => (Normal tt, mkWorld (state w) (f (page w))).

(** [for (const x of l) { body x }] *)
Fixpoint for_of {S A} (l : list A) (body : A -> M S unit) : M S unit :=
  match l with
  | [] => ret tt
  | x :: l' => body x ;; for_of l' body
  end.

(** A call of an async function that nobody awaits: a rejection goes to
    the page's default error channel. *)
Definition detach {S} (m : M S unit) : M S unit :=
  try_catch m (fun e => modify_page (emit (EUnhandled e))).

(** A handler invoked by the browser. *)
Definition run {S} (m : M S unit) (w : World S) : World S := snd (detach m w).

Definition nl : jsstring := [0xA].
Definition pending_memos : jsstring := lit "pending_memos".

Section Platform.
Context {S : Type} (env : Env) {J : JSONParse}.

(** [new Date()] *)
Definition new_Date : M S Date :=
  fun w => (Normal (clock env (tick (page w))),
            mkWorld (state w) (next_tick (page w))).

(** [navigator.onLine] *)
Definition read_onLine : M S bool :=
  fun w => (Normal (navigator_onLine env (tick (page w))),
            mkWorld (state w) (next_tick (page w))).

Definition getItem (key : jsstring) : M S (option jsstring) :=
  p <- get_page ;; ret (localStorage p !! key).

Definition setItem (key value : jsstring) : M S unit :=
  modify_page (fun p => emit (ESetItem key value)
                          (set_localStorage (<[key := value]> (localStorage p)) p)).

Definition removeItem (key : jsstring) : M S unit :=
  modify_page (fun p => emit (ERemoveItem key)
                          (set_localStorage (delete key (localStorage p)) p)).

Definition alert (message : jsstring) : M S unit :=
  modify_page (emit (EAlert message)).

Definition console (level message : jsstring) (detail : option JsError) : M S unit :=
  modify_page (emit (EConsole level message detail)).

Definition setTimeout (cb : Callback) (delay : N) : M S unit :=
  modify_page (fun p => emit (ESetTimeout cb delay)
                          (set_timers (timers p ++ [(cb, delay)]) p)).

Definition parse (s : jsstring) : M S (list PendingMemo) :=
  match JSON_parse s with
  | Some q => ret q
  | None => throw (JSON_parse_error s)
  end.

(** [JSON.parse(localStorage.getItem('pending_memos') || '[]')]: a
    missing slot is [null] and an empty one is the empty string, both
    falsy. *)
Definition read_pending : M S (list PendingMemo) :=
  v <- getItem pending_memos ;;
  parse (or_else (default [] v) (lit "[]")).

(** The status label and dot, written by [updateStatus] /
    [updateAppStatusMessage]. *)
Definition updateStatus (message kind : jsstring) : M S unit :=
  modify_page (set_status message (lit "status-dot " ++ kind)).

(** The body of both [saveToLocal] and [saveTextLocally]. *)
Definition saveToLocal (t : jsstring) : M S unit :=
  pending <- read_pending ;;
  now <- new_Date ;;
  let pending := pending ++ [mkMemo t (toISOString now)] in
  setItem pending_memos (JSON.stringify pending).

(** [fetch(url, init)], awaited. *)
Definition fetch (url : jsstring) (init : FetchInit) : M S unit :=
  fun w =>
    let w' := mkWorld (state w) (next_tick (emit (EFetch url init) (page w))) in
    match fetch_outcome env (tick (page w)) with
    | None => (Normal tt, w')
    | Some e => (Throw e, w')
    end.

(** A timer fires: the callbacks that only touch the page. *)
Definition fire_status (cb : Callback) : M S unit :=
  match cb with
  | CbStatus message kind => updateStatus message kind
  | CbInitGis => ret tt
  end.

End Platform.

(** ** Speech recognition events *)

(** One [SpeechRecognitionResult]: its flag and the transcripts of its
    alternatives, of which the platform gives at least one. *)
Record SpeechRecognitionResult := mkResult {
  isFinal : bool;
  transcript0 : jsstring;        (* results[i][0].transcript *)
  other_alternatives : list jsstring
}.

Record SpeechRecognitionEvent := mkSpeechEvent {
  resultIndex : nat;
  results : list SpeechRecognitionResult
}.

(** The loop of both [onresult] handlers:
    [for (i = resultIndex; i < results.length; ++i)
       if (results[i].isFinal) acc += results[i][0].transcript]. *)
Definition final_transcript (ev : SpeechRecognitionEvent) : jsstring :=
  fold_left (fun acc r => if isFinal r then acc ++ transcript0 r else acc)
            (drop (resultIndex ev) (results ev)) [].

(** The rest of both [onresult] handlers. *)
Definition onresult {S} (ev : SpeechRecognitionEvent) : M S unit :=
  let recognizedText := final_transcript ev in
  if truthy recognizedText then
    p <- get_page ;;
    let separator := if nonempty (memoText p) then nl else [] in
    modify_page (set_memoText (memoText p ++ (separator ++ recognizedText))) ;;
    modify_page (set_saveDisabled false)
  else ret tt.

(** The [input] listener of both variants. *)
Definition oninput {S} : M S unit :=
  p <- get_page ;;
  modify_page (set_saveDisabled (Nat.eqb (length (trim (memoText p))) 0)).

(** ** The relay variant (notes posted to a GAS web application) *)

Module Relay.

(** [appState] *)
Record appState := mkState {
  isListening : bool;
  isOnline : bool
}.

(** [window.APP_CONFIG.GAS_URL], from [config.js]. *)
Definition GAS_URL : jsstring :=
  lit "https://script.google.com/macros/s/AKfycbwan-p0LTJGqEZPwOLItHSV3Iyj58AlHfx7uvkfV_TCFL_ESYiXSSNRbj3D1NAWTgRI/exec".

(** [音声を聞き取り中...] *)
Definition s_listening : jsstring :=
  [0x97F3; 0x58F0; 0x3092; 0x805E; 0x304D; 0x53D6; 0x308A; 0x4E2D; 0x2E; 0x2E; 0x2E].

(** [このブラウザは音声入力APIをサポートしていません。] *)
Definition s_warn_unsupported : jsstring :=
  [0x3053; 0x306E; 0x30D6; 0x30E9; 0x30A6; 0x30B6; 0x306F; 0x97F3; 0x58F0; 0x5165; 0x529B; 0x41; 0x50; 0x49; 0x3092; 0x30B5; 0x30DD; 0x30FC; 0x30C8; 0x3057; 0x3066; 0x3044; 0x307E; 0x305B; 0x3093; 0x3002].

(** [このブラウザは音声入力をサポートしていません。Chrome ブラウザを使用してください。] *)
Definition s_alert_unsupported : jsstring :=
  [0x3053; 0x306E; 0x30D6; 0x30E9; 0x30A6; 0x30B6; 0x306F; 0x97F3; 0x58F0; 0x5165; 0x529B; 0x3092; 0x30B5; 0x30DD; 0x30FC; 0x30C8; 0x3057; 0x3066; 0x3044; 0x307E; 0x305B; 0x3093; 0x3002; 0x43; 0x68; 0x72; 0x6F; 0x6D; 0x65; 0x20; 0x30D6; 0x30E9; 0x30A6; 0x30B6; 0x3092; 0x4F7F; 0x7528; 0x3057; 0x3066; 0x304F; 0x3060; 0x3055; 0x3044; 0x3002].

(** [保存中...] *)
Definition s_saving : jsstring :=
  [0x4FDD; 0x5B58; 0x4E2D; 0x2E; 0x2E; 0x2E].

(** [保存しました！] *)
Definition s_saved : jsstring :=
  [0x4FDD; 0x5B58; 0x3057; 0x307E; 0x3057; 0x305F; 0xFF01].

(** [スプレッドシートへの保存に失敗しました] *)
Definition s_save_failed_log : jsstring :=
  [0x30B9; 0x30D7; 0x30EC; 0x30C3; 0x30C9; 0x30B7; 0x30FC; 0x30C8; 0x3078; 0x306E; 0x4FDD; 0x5B58; 0x306B; 0x5931; 0x6557; 0x3057; 0x307E; 0x3057; 0x305F].

(** [端末内に仮保存しました] *)
Definition s_saved_locally : jsstring :=
  [0x7AEF; 0x672B; 0x5185; 0x306B; 0x4EEE; 0x4FDD; 0x5B58; 0x3057; 0x307E; 0x3057; 0x305F].

(** [保存に失敗しました（端末内に仮保存しました）: ] *)
Definition s_alert_prefix : jsstring :=
  [0x4FDD; 0x5B58; 0x306B; 0x5931; 0x6557; 0x3057; 0x307E; 0x3057; 0x305F; 0xFF08; 0x7AEF; 0x672B; 0x5185; 0x306B; 0x4EEE; 0x4FDD; 0x5B58; 0x3057; 0x307E; 0x3057; 0x305F; 0xFF09; 0x3A; 0x20].

(** [端末内に仮保存済（後で同期します）] *)
Definition s_kept_locally : jsstring :=
  [0x7AEF; 0x672B; 0x5185; 0x306B; 0x4EEE; 0x4FDD; 0x5B58; 0x6E08; 0xFF08; 0x5F8C; 0x3067; 0x540C; 0x671F; 0x3057; 0x307E; 0x3059; 0xFF09].

(** [未送信のメモが ] *)
Definition s_unsent_prefix : jsstring :=
  [0x672A; 0x9001; 0x4FE1; 0x306E; 0x30E1; 0x30E2; 0x304C; 0x20].

(** [ 件あります。接続時に送信されます。] *)
Definition s_unsent_suffix : jsstring :=
  [0x20; 0x4EF6; 0x3042; 0x308A; 0x307E; 0x3059; 0x3002; 0x63A5; 0x7D9A; 0x6642; 0x306B; 0x9001; 0x4FE1; 0x3055; 0x308C; 0x307E; 0x3059; 0x3002].

(** [同期中...] *)
Definition s_syncing : jsstring :=
  [0x540C; 0x671F; 0x4E2D; 0x2E; 0x2E; 0x2E].

(** [(オフライン時の仮保存) ] *)
Definition s_offline_marker : jsstring :=
  [0x28; 0x30AA; 0x30D5; 0x30E9; 0x30A4; 0x30F3; 0x6642; 0x306E; 0x4EEE; 0x4FDD; 0x5B58; 0x29; 0x20].

(** [同期完了！] *)
Definition s_synced : jsstring :=
  [0x540C; 0x671F; 0x5B8C; 0x4E86; 0xFF01].

(** [同期（一括送信）に失敗しました] *)
Definition s_sync_failed_log : jsstring :=
  [0x540C; 0x671F; 0xFF08; 0x4E00; 0x62EC; 0x9001; 0x4FE1; 0xFF09; 0x306B; 0x5931; 0x6557; 0x3057; 0x307E; 0x3057; 0x305F].

(** [同期失敗（後で再試行します）] *)
Definition s_sync_failed : jsstring :=
  [0x540C; 0x671F; 0x5931; 0x6557; 0xFF08; 0x5F8C; 0x3067; 0x518D; 0x8A66; 0x884C; 0x3057; 0x307E; 0x3059; 0xFF09].

Section Handlers.
Context (env : Env) {J : JSONParse}.

Abbreviation M := (M appState).

Definition set_isListening (b : bool) : M unit :=
  st <- get_state ;; put_state (mkState b (isOnline st)).
Definition set_isOnline (b : bool) : M unit :=
  st <- get_state ;; put_state (mkState (isListening st) b).

Definition updateAppStatusMessage (message dotType : jsstring) : M unit :=
  updateStatus message dotType.

Definition initializeDateDisplay : M unit :=
  today <- new_Date env ;;
  modify_page (set_dateDisplay (toLocaleDateString_ja today)).

Definition updateOnlineStatusDisplay : M unit :=
  onLine <- read_onLine env ;;
  if onLine : bool then updateAppStatusMessage (lit "ONLINE") (lit "online")
  else updateAppStatusMessage (lit "OFFLINE") (lit "offline").

Definition saveTextLocally (t : jsstring) : M unit := saveToLocal env t.

Definition checkOfflineUnsavedMemos : M unit :=
  pendingMemos <- read_pending ;;
  if (0 <? length pendingMemos)%nat then
    console (lit "log")
      (s_unsent_prefix ++ String_of_N (N.of_nat (length pendingMemos)) ++ s_unsent_suffix)
      None
  else ret tt.

(** [sendMemoToSheet(content)]: one opaque POST; only a transport fault
    is visible, as a throw. *)
Definition sendMemoToSheet (content : jsstring) : M unit :=
  let gasUrl := GAS_URL in
  now <- new_Date env ;;
  let timestamp := toLocaleString_ja now in
  fetch env gasUrl
    (mkInit (lit "POST") (lit "no-cors") (lit "application/json")
       (JSON.stringify_memo (mkMemo content timestamp))).

Definition handleSaveFailure (t : jsstring) (error : JsError) : M unit :=
  saveTextLocally t ;;
  let errorMessage := or_else (default [] (err_message error)) (err_json error) in
  alert (s_alert_prefix ++ errorMessage) ;;
  updateAppStatusMessage s_kept_locally (lit "offline").

Definition syncOfflineMemosToSheet : M unit :=
  st <- get_state ;;
  if negb (isOnline st) then ret tt else
  pendingMemos <- read_pending ;;
  if (length pendingMemos =? 0)%nat then ret tt else
  updateAppStatusMessage s_syncing (lit "syncing") ;;
  try_catch
    (for_of pendingMemos
       (fun memo => sendMemoToSheet (s_offline_marker ++ text memo)) ;;
     removeItem pending_memos ;;
     updateAppStatusMessage s_synced (lit "online") ;;
     setTimeout (CbStatus (lit "ONLINE") (lit "online")) 2000)
    (fun error =>
       console (lit "error") s_sync_failed_log (Some error) ;;
       updateAppStatusMessage s_sync_failed (lit "offline")).

(** Evaluation of the script: [appState] is initialised from the
    connectivity flag, and without a speech recogniser the microphone
    control is hidden behind one blocking notice. *)
Definition script (speechSupported : bool) : M unit :=
  onLine <- read_onLine env ;;
  put_state (mkState false onLine) ;;
  if speechSupported then ret tt
  else
    console (lit "warn") s_warn_unsupported None ;;
    modify_page (set_micHidden true) ;;
    alert s_alert_unsupported.

Definition onload : M unit :=
  initializeDateDisplay ;;
  updateOnlineStatusDisplay ;;
  checkOfflineUnsavedMemos ;;
  st <- get_state ;;
  if isOnline st then detach syncOfflineMemosToSheet else ret tt.

Definition onstart : M unit :=
  set_isListening true ;;
  modify_page (set_micListening true) ;;
  updateAppStatusMessage s_listening (lit "syncing").

Definition onend : M unit :=
  set_isListening false ;;
  modify_page (set_micListening false) ;;
  st <- get_state ;;
  if isOnline st then updateAppStatusMessage (lit "ONLINE") (lit "online")
  else updateAppStatusMessage (lit "OFFLINE") (lit "offline").

Definition micBtn_onclick : M unit :=
  st <- get_state ;;
  if isListening st then modify_page (emit ERecognitionStop)
  else modify_page (emit ERecognitionStart).

Definition saveBtn_onclick : M unit :=
  p <- get_page ;;
  let textToSave := trim (memoText p) in
  if negb (truthy textToSave) then ret tt else
  updateAppStatusMessage s_saving (lit "syncing") ;;
  modify_page (set_saveDisabled true) ;;
  st <- get_state ;;
  if isOnline st then
    try_catch
      (sendMemoToSheet textToSave ;;
       modify_page (set_memoText []) ;;
       updateAppStatusMessage s_saved (lit "online") ;;
       setTimeout (CbStatus (lit "ONLINE") (lit "online")) 2000)
      (fun error =>
         console (lit "error") s_save_failed_log (Some error) ;;
         handleSaveFailure textToSave error)
  else
    saveTextLocally textToSave ;;
    modify_page (set_memoText []) ;;
    updateAppStatusMessage s_saved_locally (lit "offline") ;;
    setTimeout (CbStatus (lit "OFFLINE") (lit "offline")) 2000.

Definition ononline : M unit :=
  set_isOnline true ;;
  updateAppStatusMessage (lit "ONLINE") (lit "online") ;;
  detach syncOfflineMemosToSheet.

Definition onoffline : M unit :=
  set_isOnline false ;;
  updateAppStatusMessage (lit "OFFLINE") (lit "offline").

(** What can happen to the page.  The user's typing replaces the editor
    content before the [input] listener runs; a disabled button receives
    no click. *)
Inductive Event :=
| Script (speechSupported : bool)
| PageLoad
| RecognitionStart
| RecognitionEnd
| RecognitionResult (ev : SpeechRecognitionEvent)
| MicClick
| Input (value : jsstring)
| SaveClick
| Online
| Offline
| TimerFired (i : nat).

Definition step (e : Event) (w : World appState) : World appState :=
  match e with
  | Script b => run (script b) w
  | PageLoad => run onload w
  | RecognitionStart => run onstart w
  | RecognitionEnd => run onend w
  | RecognitionResult ev => run (onresult ev) w
  | MicClick => run micBtn_onclick w
  | Input v => run (modify_page (set_memoText v) ;; oninput) w
  | SaveClick => if saveDisabled (page w) then w else run saveBtn_onclick w
  | Online => run ononline w
  | Offline => run onoffline w
  | TimerFired i =>
      match timers (page w) !! i with
      | Some (cb, _) =>
          run (modify_page (fun p => set_timers (delete i (timers p)) p) ;;
               fire_status cb) w
      | None => w
      end
  end.

End Handlers.

(** The two events whose handlers write [saveBtn.disabled = false]. *)
Definition writes_disabled (e : Event) : bool :=
  match e with
  | Input _ | RecognitionResult _ => true
  | _ => false
  end.

(** A session: events in the order they happen, under one oracle. *)
Definition steps (env : Env) {J : JSONParse} (es : list Event) (w : World appState)
  : World appState :=
  fold_left (fun w e => step env e w) es w.

(** The call [sendMemoToSheet(content)] issues when the clock reads [now]. *)
Definition post_of (content : jsstring) (now : Date) : Effect :=
  EFetch GAS_URL
    (mkInit (lit "POST") (lit "no-cors") (lit "application/json")
       (JSON.stringify_memo (mkMemo content (toLocaleString_ja now)))).

(** The loop of [syncOfflineMemosToSheet], on its own. *)
Definition replay (env : Env) (q : list PendingMemo) : M appState unit :=
  for_of q (fun memo => sendMemoToSheet env (s_offline_marker ++ text memo)).

(** The page at the moment the save handler turns to persistence: the
    status shows the saving message and the save control is disabled. *)
Definition saving (w : World appState) : World appState :=
  mkWorld (state w)
    (set_saveDisabled true
       (set_status s_saving (lit "status-dot " ++ lit "syncing") (page w))).

End Relay.

(** ** The drive variant ([app.js]: one Markdown document per day) *)

Module Drive.

(** [window.APP_CONFIG] of this variant; its values are deployment data. *)
Record Config := mkConfig {
  API_KEY : jsstring;
  DISCOVERY_DOC : jsstring;
  CLIENT_ID : jsstring;
  SCOPES : jsstring;
  FOLDER_ID : jsstring
}.

(** [STATE], and next to it the one element only this page has: whether
    [authContainer] holds the sign-in button.  [tokenClient] is [None]
    for [null], and otherwise tells whether a callback is installed. *)
Record STATE := mkState {
  isListening : bool;
  isOnline : bool;
  isAuthenticated : bool;
  tokenClient : option bool;
  gapiInited : bool;
  gisInited : bool;
  authButton : bool
}.

(** The argument of the token callback: [resp.error] ([[]] when absent)
    and the response itself as the value that [throw (resp)] throws. *)
Record TokenResponse := mkResp {
  resp_error : jsstring;
  resp_thrown : JsError
}.

(** A reference to [google] or a property read on [null] fails. *)
Definition js_type_error (message : string) : JsError :=
  mkError None (Some (lit message)) (lit "{}").

(** [このブラウザは音声入力をサポートしていません。Chromeを使用してください。] *)
Definition s_alert_unsupported : jsstring :=
  [0x3053; 0x306E; 0x30D6; 0x30E9; 0x30A6; 0x30B6; 0x306F; 0x97F3; 0x58F0; 0x5165; 0x529B; 0x3092; 0x30B5; 0x30DD; 0x30FC; 0x30C8; 0x3057; 0x3066; 0x3044; 0x307E; 0x305B; 0x3093; 0x3002; 0x43; 0x68; 0x72; 0x6F; 0x6D; 0x65; 0x3092; 0x4F7F; 0x7528; 0x3057; 0x3066; 0x304F; 0x3060; 0x3055; 0x3044; 0x3002].

(** [保存に失敗しました: ] *)
Definition s_alert_prefix : jsstring :=
  [0x4FDD; 0x5B58; 0x306B; 0x5931; 0x6557; 0x3057; 0x307E; 0x3057; 0x305F; 0x3A; 0x20].

Definition boundary_json : jsstring :=
  lit "--foo_bar_baz" ++ nl ++ lit "Content-Type: application/json; charset=UTF-8"
  ++ nl ++ nl.
Definition boundary_markdown : jsstring :=
  nl ++ lit "--foo_bar_baz" ++ nl ++ lit "Content-Type: text/markdown" ++ nl ++ nl.
Definition boundary_end : jsstring := nl ++ lit "--foo_bar_baz--".

(** [getFileName()] on a reading of the clock. *)
Definition fileName_of (now : Date) : jsstring :=
  let y := getFullYear now in
  let m := padStart 2 (lit "0") (String_of_N (getMonth now + 1)) in
  let d := padStart 2 (lit "0") (String_of_N (getDate now)) in
  String_of_Z y ++ lit "-" ++ m ++ lit "-" ++ d ++ lit ".md".

(** [newEntry], the template [\n## ${time}\n${content}\n]. *)
Definition newEntry_of (time content : jsstring) : jsstring :=
  nl ++ lit "## " ++ time ++ nl ++ content ++ nl.

(** [multipartRequestBody] *)
Definition multipart (metadata finalContent : jsstring) : jsstring :=
  boundary_json ++ metadata ++ boundary_markdown ++ finalContent ++ boundary_end.

(** [query] *)
Definition query_of (fileName folderId : jsstring) : jsstring :=
  lit "name = '" ++ fileName ++ lit "' and '" ++ folderId
  ++ lit "' in parents and trashed = false".

(** [JSON.stringify(updateMetadata)] *)
Definition updateMetadata_of (fileName : jsstring) : jsstring :=
  JSON.object [JSON.member (lit "name") (JSON.QuoteJSONString fileName);
               JSON.member (lit "mimeType") (JSON.QuoteJSONString (lit "text/markdown"))].

(** [JSON.stringify(createMetadata)] *)
Definition createMetadata_of (fileName folderId : jsstring) : jsstring :=
  JSON.object [JSON.member (lit "name") (JSON.QuoteJSONString fileName);
               JSON.member (lit "mimeType") (JSON.QuoteJSONString (lit "text/markdown"));
               JSON.member (lit "parents") (JSON.array [JSON.QuoteJSONString folderId])].

(** The three kinds of call [saveToDrive] makes. *)
Definition list_call (fileName folderId : jsstring) : Effect :=
  EFilesList (query_of fileName folderId) (lit "files(id, name)") (lit "drive").

Definition get_call (fileId : jsstring) : Effect := EFilesGet fileId (lit "media").

Definition update_call (fileName fileId finalContent : jsstring) : Effect :=
  ERequest (lit "/upload/drive/v3/files/" ++ fileId) (lit "PATCH") (lit "multipart")
    (lit "multipart/related; boundary=foo_bar_baz")
    (multipart (updateMetadata_of fileName) finalContent).

Definition create_call (fileName folderId finalContent : jsstring) : Effect :=
  ERequest (lit "/upload/drive/v3/files") (lit "POST") (lit "multipart")
    (lit "multipart/related; boundary=foo_bar_baz")
    (multipart (createMetadata_of fileName folderId) finalContent).

(** A call that creates a document. *)
Definition is_create (e : Effect) : bool :=
  match e with
  | ERequest _ method _ _ _ => units_eqb method (lit "POST")
  | _ => false
  end.

(** The body of the [forEach] in [syncPendingData]. *)
Definition combine_step (combinedText : jsstring) (item : PendingMemo) : jsstring :=
  combinedText ++ (nl ++ lit "(Synced from offline)" ++ nl ++ text item ++ nl).

Section Handlers.
Context (env : Env) {J : JSONParse} (cfg : Config).

Abbreviation M := (M STATE).

Definition modify_state (f : STATE -> STATE) : M unit :=
  st <- get_state ;; put_state (f st).

Definition with_isListening (b : bool) (s : STATE) : STATE :=
  mkState b (isOnline s) (isAuthenticated s) (tokenClient s) (gapiInited s)
    (gisInited s) (authButton s).
Definition with_isOnline (b : bool) (s : STATE) : STATE :=
  mkState (isListening s) b (isAuthenticated s) (tokenClient s) (gapiInited s)
    (gisInited s) (authButton s).
Definition with_isAuthenticated (b : bool) (s : STATE) : STATE :=
  mkState (isListening s) (isOnline s) b (tokenClient s) (gapiInited s)
    (gisInited s) (authButton s).
Definition with_tokenClient (c : option bool) (s : STATE) : STATE :=
  mkState (isListening s) (isOnline s) (isAuthenticated s) c (gapiInited s)
    (gisInited s) (authButton s).
Definition with_gapiInited (b : bool) (s : STATE) : STATE :=
  mkState (isListening s) (isOnline s) (isAuthenticated s) (tokenClient s) b
    (gisInited s) (authButton s).
Definition with_gisInited (b : bool) (s : STATE) : STATE :=
  mkState (isListening s) (isOnline s) (isAuthenticated s) (tokenClient s)
    (gapiInited s) b (authButton s).
Definition with_authButton (b : bool) (s : STATE) : STATE :=
  mkState (isListening s) (isOnline s) (isAuthenticated s) (tokenClient s)
    (gapiInited s) (gisInited s) b.

(** [gapi.client.getToken()], as "is there a token". *)
Definition gapi_getToken : M bool :=
  fun w => (Normal (getToken env (tick (page w))),
            mkWorld (state w) (next_tick (page w))).

Definition files_list (q fields spaces : jsstring) : M (list DriveFile) :=
  fun w =>
    let w' := mkWorld (state w)
                (next_tick (emit (EFilesList q fields spaces) (page w))) in
    match files_list_outcome env (tick (page w)) with
    | inr files => (Normal files, w')
    | inl e => (Throw e, w')
    end.

Definition files_get (fileId alt : jsstring) : M jsstring :=
  fun w =>
    let w' := mkWorld (state w) (next_tick (emit (EFilesGet fileId alt) (page w))) in
    match files_get_outcome env (tick (page w)) with
    | inr body => (Normal body, w')
    | inl e => (Throw e, w')
    end.

Definition gapi_request (path method uploadType contentType body : jsstring) : M unit :=
  fun w =>
    let w' := mkWorld (state w)
                (next_tick (emit (ERequest path method uploadType contentType body)
                              (page w))) in
    match request_outcome env (tick (page w)) with
    | None => (Normal tt, w')
    | Some e => (Throw e, w')
    end.

Definition initDateDisplay : M unit :=
  now <- new_Date env ;;
  modify_page (set_dateDisplay (toLocaleDateString_ja now)).

Definition checkOnlineStatus : M unit :=
  onLine <- read_onLine env ;;
  if onLine : bool then updateStatus (lit "ONLINE") (lit "online")
  else updateStatus (lit "OFFLINE") (lit "offline").

Definition loadOfflineData : M unit :=
  pending <- read_pending ;;
  if (0 <? length pending)%nat then
    console (lit "log")
      (String_of_N (N.of_nat (length pending)) ++ lit " unsaved memos found.") None
  else ret tt.

Definition getFileName : M jsstring :=
  now <- new_Date env ;; ret (fileName_of now).

Definition saveToDrive (content : jsstring) : M unit :=
  fileName <- getFileName ;;
  let folderId := FOLDER_ID cfg in
  let query := query_of fileName folderId in
  found <-
    try_catch
      (listResp <- files_list query (lit "files(id, name)") (lit "drive") ;;
       match listResp with
       | f :: _ =>
           fileResp <- files_get (file_id f) (lit "media") ;;
           ret (Some (file_id f), fileResp)
       | [] => ret (None, [])
       end)
      (fun err => console (lit "error") (lit "Search failed") (Some err) ;; throw err) ;;
  let fileId : option jsstring := fst found in
  let currentContent : jsstring := snd found in
  now <- new_Date env ;;
  let time := toLocaleTimeString_ja now in
  let newEntry := newEntry_of time content in
  let finalContent := trim (currentContent ++ newEntry) in
  if truthy (default [] fileId) then
    let updateMetadata := updateMetadata_of fileName in
    gapi_request (lit "/upload/drive/v3/files/" ++ default [] fileId) (lit "PATCH")
      (lit "multipart") (lit "multipart/related; boundary=foo_bar_baz")
      (multipart updateMetadata finalContent)
  else
    let createMetadata := createMetadata_of fileName folderId in
    gapi_request (lit "/upload/drive/v3/files") (lit "POST")
      (lit "multipart") (lit "multipart/related; boundary=foo_bar_baz")
      (multipart createMetadata finalContent).

Definition syncPendingData : M unit :=
  st <- get_state ;;
  if negb (isAuthenticated st) || negb (isOnline st) then ret tt else
  pending <- read_pending ;;
  if (length pending =? 0)%nat then ret tt else
  updateStatus (lit "Syncing...") (lit "syncing") ;;
  let combinedText := fold_left combine_step pending [] in
  try_catch
    (saveToDrive combinedText ;;
     removeItem pending_memos ;;
     updateStatus (lit "Synced!") (lit "online") ;;
     setTimeout (CbStatus (lit "ONLINE") (lit "online")) 2000)
    (fun err =>
       console (lit "error") (lit "Sync failed") (Some err) ;;
       updateStatus (lit "Sync Failed") (lit "offline")).

Definition renderAuthButton : M unit :=
  token <- gapi_getToken ;;
  if token : bool then
    modify_state (with_isAuthenticated true) ;;
    updateStatus (lit "ONLINE (AUTHED)") (lit "online")
  else modify_state (with_authButton true).

Definition maybeEnableAuth : M unit :=
  st <- get_state ;;
  if gapiInited st && gisInited st then renderAuthButton else ret tt.

Definition initGapi : M unit :=
  (fun w =>
     let w' := mkWorld (state w)
                 (next_tick (emit (EGapiClientInit (API_KEY cfg) (DISCOVERY_DOC cfg))
                               (page w))) in
     match client_init_outcome env (tick (page w)) with
     | None => (Normal tt, w')
     | Some e => (Throw e, w')
     end) ;;
  modify_state (with_gapiInited true) ;;
  maybeEnableAuth.

(** The body of [initGis] where [google] is defined. *)
Definition initGis_body : M unit :=
  modify_page (emit (EInitTokenClient (CLIENT_ID cfg) (SCOPES cfg))) ;;
  modify_state (with_tokenClient (Some false)) ;;
  modify_state (with_gisInited true) ;;
  maybeEnableAuth.

(** [initGis] called on its own (by the timer): [google] is looked up
    when the call runs, and a reference to an undefined global throws. *)
Definition initGis : M unit :=
  present <- (fun w => (Normal (window_google env (tick (page w))),
                        mkWorld (state w) (next_tick (page w)))) ;;
  if present : bool then initGis_body
  else throw (js_type_error "google is not defined").

Definition handleAuthClick : M unit :=
  st <- get_state ;;
  match tokenClient st with
  | None => throw (js_type_error "Cannot set properties of null")
  | Some _ =>
      modify_state (with_tokenClient (Some true)) ;;
      token <- gapi_getToken ;;
      if token : bool then modify_page (emit (ERequestAccessToken []))
      else modify_page (emit (ERequestAccessToken (lit "consent")))
  end.

(** The callback installed by [handleAuthClick]. *)
Definition token_callback (resp : TokenResponse) : M unit :=
  if truthy (resp_error resp) then throw (resp_thrown resp) else
  modify_state (with_isAuthenticated true) ;;
  modify_state (with_authButton false) ;;
  updateStatus (lit "ONLINE (AUTHED)") (lit "online") ;;
  syncPendingData.

Definition onstart : M unit :=
  modify_state (with_isListening true) ;;
  modify_page (set_micListening true) ;;
  updateStatus (lit "Listening...") (lit "syncing").

Definition onend : M unit :=
  modify_state (with_isListening false) ;;
  modify_page (set_micListening false) ;;
  st <- get_state ;;
  if isOnline st then updateStatus (lit "ONLINE") (lit "online")
  else updateStatus (lit "OFFLINE") (lit "offline").

Definition micBtn_onclick : M unit :=
  st <- get_state ;;
  if isListening st then modify_page (emit ERecognitionStop)
  else modify_page (emit ERecognitionStart).

(** [err.result?.error?.message || err.message || JSON.stringify(err)] *)
Definition errMsg_of (err : JsError) : jsstring :=
  or_else (or_else (default [] (err_result_error_message err))
                   (default [] (err_message err)))
          (err_json err).

Definition saveBtn_onclick : M unit :=
  p <- get_page ;;
  let t := trim (memoText p) in
  if negb (truthy t) then ret tt else
  updateStatus (lit "Saving...") (lit "syncing") ;;
  modify_page (set_saveDisabled true) ;;
  st <- get_state ;;
  if isOnline st && isAuthenticated st then
    try_catch
      (saveToDrive t ;;
       modify_page (set_memoText []) ;;
       updateStatus (lit "Saved!") (lit "online") ;;
       setTimeout (CbStatus (lit "ONLINE") (lit "online")) 2000)
      (fun err =>
         console (lit "error") (lit "Save failed") (Some err) ;;
         saveToLocal env t ;;
         let errMsg := errMsg_of err in
         alert (s_alert_prefix ++ errMsg) ;;
         updateStatus (lit "Saved Locally (Sync later)") (lit "offline"))
  else
    saveToLocal env t ;;
    modify_page (set_memoText []) ;;
    updateStatus (lit "Saved Locally") (lit "offline") ;;
    setTimeout (CbStatus (lit "OFFLINE") (lit "offline")) 2000.

Definition ononline : M unit :=
  modify_state (with_isOnline true) ;;
  updateStatus (lit "ONLINE") (lit "online") ;;
  detach syncPendingData.

Definition onoffline : M unit :=
  modify_state (with_isOnline false) ;;
  updateStatus (lit "OFFLINE") (lit "offline").

(** Evaluation of the script, top to bottom.  [window.google] is read
    once: where the test finds it, the call of [initGis] that follows in
    the same turn finds it too. *)
Definition script (speechSupported : bool) : M unit :=
  onLine <- read_onLine env ;;
  put_state (mkState false onLine false None false false false) ;;
  present <- (fun w => (Normal (window_google env (tick (page w))),
                        mkWorld (state w) (next_tick (page w)))) ;;
  (if present : bool then initGis_body else setTimeout CbInitGis 1000) ;;
  if speechSupported then ret tt
  else
    console (lit "log") (lit "Web Speech API not supported") None ;;
    modify_page (set_micHidden true) ;;
    alert s_alert_unsupported.

Definition onload : M unit :=
  initDateDisplay ;;
  checkOnlineStatus ;;
  loadOfflineData ;;
  modify_page (emit EGapiLoad).

Definition fire (cb : Callback) : M unit :=
  match cb with
  | CbStatus message kind => updateStatus message kind
  | CbInitGis => initGis
  end.

(** What can happen to the page; the sign-in button can only be clicked
    while it is shown, the token callback only runs once installed, and a
    disabled save button receives no click. *)
Inductive Event :=
| Script (speechSupported : bool)
| PageLoad
| GapiLoaded
| AuthClick
| TokenCallback (resp : TokenResponse)
| RecognitionStart
| RecognitionEnd
| RecognitionResult (ev : SpeechRecognitionEvent)
| MicClick
| Input (value : jsstring)
| SaveClick
| Online
| Offline
| TimerFired (i : nat).

Definition step (e : Event) (w : World STATE) : World STATE :=
  match e with
  | Script b => run (script b) w
  | PageLoad => run onload w
  | GapiLoaded => run initGapi w
  | AuthClick => if authButton (state w) then run handleAuthClick w else w
  | TokenCallback resp =>
      match tokenClient (state w) with
      | Some true => run (token_callback resp) w
      | _ => w
      end
  | RecognitionStart => run onstart w
  | RecognitionEnd => run onend w
  | RecognitionResult ev => run (onresult ev) w
  | MicClick => run micBtn_onclick w
  | Input v => run (modify_page (set_memoText v) ;; oninput) w
  | SaveClick => if saveDisabled (page w) then w else run saveBtn_onclick w
  | Online => run ononline w
  | Offline => run onoffline w
  | TimerFired i =>
      match timers (page w) !! i with
      | Some (cb, _) =>
          run (modify_page (fun p => set_timers (delete i (timers p)) p) ;; fire cb) w
      | None => w
      end
  end.

End Handlers.

(** The two events whose handlers write [saveBtn.disabled = false]. *)
Definition writes_disabled (e : Event) : bool :=
  match e with
  | Input _ | RecognitionResult _ => true
  | _ => false
  end.

(** A session: events in the order they happen, under one oracle. *)
Definition steps (env : Env) {J : JSONParse} (cfg : Config) (es : list Event)
  (w : World STATE) : World STATE :=
  fold_left (fun w e => step env cfg e w) es w.

(** The page at the moment the save handler turns to persistence. *)
Definition saving (w : World STATE) : World STATE :=
  mkWorld (state w)
    (set_saveDisabled true
       (set_status (lit "Saving...") (lit "status-dot " ++ lit "syncing") (page w))).

(** The page at the moment the sync turns to the adapter. *)
Definition syncing (w : World STATE) : World STATE :=
  mkWorld (state w)
    (set_status (lit "Syncing...") (lit "status-dot " ++ lit "syncing") (page w)).

(** One queued note inside the combined text. *)
Definition synced_note (item : PendingMemo) : jsstring :=
  nl ++ lit "(Synced from offline)" ++ nl ++ text item ++ nl.

End Drive.

(** ** A reader for the texts [JSON.stringify] writes for the queue

    It accepts the compact form only, which is all the page ever stores,
    and is the instance of [JSONParse] on which the handlers are run on
    concrete pages. *)

Module Reader.

Definition unhex (c : N) : option N :=
  if (0x30 <=? c) && (c <=? 0x39) then Some (c - 0x30)
  else if (0x61 <=? c) && (c <=? 0x66) then Some (c - 0x61 + 10)
  else if (0x41 <=? c) && (c <=? 0x46) then Some (c - 0x41 + 10)
  else None.

(** The character after a backslash, other than [u]. *)
Definition unescape (e : N) : option N :=
  if e =? 0x62 then Some 0x8
  else if e =? 0x74 then Some 0x9
  else if e =? 0x6E then Some 0xA
  else if e =? 0x66 then Some 0xC
  else if e =? 0x72 then Some 0xD
  else if e =? 0x22 then Some 0x22
  else if e =? 0x5C then Some 0x5C
  else if e =? 0x2F then Some 0x2F
  else None.

(** After the opening quote: the decoded string and what follows the
    closing quote. *)
Fixpoint read_units (s : jsstring) : option (jsstring * jsstring) :=
  match s with
  | [] => None
  | c :: r =>
      if c =? 0x22 then Some ([], r)
      else if c =? 0x5C then
        match r with
        | [] => None
        | e :: r1 =>
            if e =? 0x75 then
              match r1 with
              | h3 :: h2 :: h1 :: h0 :: r2 =>
                  match unhex h3, unhex h2, unhex h1, unhex h0, read_units r2 with
                  | Some a, Some b, Some c', Some d, Some (u, rest) =>
                      Some ((4096 * a + 256 * b + 16 * c' + d) :: u, rest)
                  | _, _, _, _, _ => None
                  end
              | _ => None
              end
            else
              match unescape e, read_units r1 with
              | Some x, Some (u, rest) => Some (x :: u, rest)
              | _, _ => None
              end
        end
      else if c <? 0x20 then None
      else
        match read_units r with
        | Some (u, rest) => Some (c :: u, rest)
        | None => None
        end
  end.

Definition read_string (s : jsstring) : option (jsstring * jsstring) :=
  match s with
  | c :: r => if c =? 0x22 then read_units r else None
  | [] => None
  end.

Definition expect (p s : jsstring) : option jsstring :=
  if is_prefix p s then Some (drop (length p) s) else None.

Definition read_memo (s : jsstring) : option (PendingMemo * jsstring) :=
  s1 ← expect (lit "{" ++ JSON.QuoteJSONString (lit "text") ++ lit ":") s;
  '(t, s2) ← read_string s1;
  s3 ← expect (lit "," ++ JSON.QuoteJSONString (lit "timestamp") ++ lit ":") s2;
  '(ts, s4) ← read_string s3;
  s5 ← expect (lit "}") s4;
  Some (mkMemo t ts, s5).

Fixpoint read_items (fuel : nat) (s : jsstring) : option (list PendingMemo * jsstring) :=
  match fuel with
  | O => None
  | Datatypes.S fuel' =>
      '(m, s1) ← read_memo s;
      match s1 with
      | c :: s2 =>
          if c =? 0x2C then
            '(q, s3) ← read_items fuel' s2; Some (m :: q, s3)
          else if c =? 0x5D then Some ([m], s2)
          else None
      | [] => None
      end
  end.

Definition read_queue (s : jsstring) : option (list PendingMemo) :=
  match s with
  | c :: r =>
      if c =? 0x5B then
        match r with
        | [d] => if d =? 0x5D then Some [] else None
        | _ =>
            match read_items (length r) r with
            | Some (q, []) => Some q
            | _ => None
            end
        end
      else None
  | [] => None
  end.

(** One more decoded unit in front of a result of [read_units]. *)
Definition push (c : N) (r : option (jsstring * jsstring))
  : option (jsstring * jsstring) :=
  match r with
  | Some (u, rest) => Some (c :: u, rest)
  | None => None
  end.

Definition syntax_error (s : jsstring) : JsError :=
  mkError None (Some (lit "Unexpected token in JSON")) (lit "{}").

End Reader.

(** ** The state of the queue slot *)

(** What [JSON.parse(localStorage.getItem('pending_memos') || '[]')]
    evaluates to on a page, when it does not throw. *)
Definition stored_queue {J : JSONParse} (p : Page) : option (list PendingMemo) :=
  JSON_parse (or_else (default [] (localStorage p !! pending_memos)) (lit "[]")).

(** The slot holds something [JSON.parse] reads as a queue. *)
Definition readable {J : JSONParse} {S} (w : World S) : Prop :=
  is_Some (stored_queue (page w)).

(** The outbound calls a trace holds. *)
Definition network_calls (t : list Effect) : list Effect :=
  filter (fun e => is_network e = true) t.

(** ** Formats, written out

    The decimal fields of a date as the digits they must be, to state
    what [toISOString] and [getFileName] produce. *)

Definition digit (n : N) : N := 0x30 + n.
Definition digits2 (n : N) : jsstring := [digit (n / 10); digit (n mod 10)].
Definition digits3 (n : N) : jsstring :=
  [digit (n / 100); digit (n / 10 mod 10); digit (n mod 10)].
Definition digits4 (n : N) : jsstring :=
  [digit (n / 1000); digit (n / 100 mod 10); digit (n / 10 mod 10); digit (n mod 10)].

Definition is_digit (c : N) : bool := (0x30 <=? c) && (c <=? 0x39).

(** [YYYY-MM-DDTHH:mm:ss.sssZ]: the shape of an ISO-8601 instant. *)
Definition iso8601_shape (s : jsstring) : bool :=
  match s with
  | [y3; y2; y1; y0; d1; m1; m0; d2; a1; a0; t; h1; h0; c1; n1; n0; c2; s1; s0;
     dot; f2; f1; f0; z] =>
      forallb is_digit [y3; y2; y1; y0; m1; m0; a1; a0; h1; h0; n1; n0; s1; s0; f2; f1; f0]
      && (d1 =? 0x2D) && (d2 =? 0x2D) && (t =? 0x54) && (c1 =? 0x3A) && (c2 =? 0x3A)
      && (dot =? 0x2E) && (z =? 0x5A)
  | _ => false
  end.

(** [YYYY-MM-DD.md] *)
Definition day_file_shape (s : jsstring) : bool :=
  match s with
  | [y3; y2; y1; y0; d1; m1; m0; d2; a1; a0; dot; m; d] =>
      forallb is_digit [y3; y2; y1; y0; m1; m0; a1; a0]
      && (d1 =? 0x2D) && (d2 =? 0x2D) && (dot =? 0x2E) && (m =? 0x6D) && (d =? 0x64)
  | _ => false
  end.

(** ** Invariants of a computation *)

(** [m] keeps [P]: from a world in [P] it ends, normally or not, in [P]. *)
Definition keeps {S A} (P : World S -> Prop) (m : M S A) : Prop :=
  forall w, P w -> P (snd (m w)).

(** Everything of the page but its trace and its interaction count. *)
Definition same_but_log {S} (w0 w : World S) : Prop :=
  state w = state w0 /\
  page w = mkPage (statusText (page w0)) (statusDot (page w0)) (dateDisplay (page w0))
             (memoText (page w0)) (micListening (page w0)) (micHidden (page w0))
             (saveDisabled (page w0)) (localStorage (page w0)) (timers (page w0))
             (trace (page w)) (tick (page w)).

(** ** Sample sessions

    Concrete oracles and pages on which the handlers are evaluated. *)

Module Sample.

(** What [fetch] rejects with when the network is unreachable. *)
Definition refused : JsError :=
  mkError None (Some (lit "Failed to fetch")) (lit "{}").

(** A rejection of the Drive client: a response with an error body. *)
Definition forbidden : JsError :=
  mkError (Some (lit "The user does not have sufficient permissions"))
    None (lit "{...}").

Definition todays_file : DriveFile := mkFile (lit "1AbC") (lit "2026-02-20.md").

(** Every call succeeds; the folder has no document of the day. *)
Definition calm : Env :=
  mkEnv (fun _ => date_2026_02_20) (fun _ => true) (fun _ => None)
    (fun _ => inr []) (fun _ => inr []) (fun _ => None) (fun _ => None)
    (fun _ => true) (fun _ => true).

(** Every call succeeds; the document of the day exists. *)
Definition found : Env :=
  mkEnv (fun _ => date_2026_02_20) (fun _ => true) (fun _ => None)
    (fun _ => inr [todays_file]) (fun _ => inr (lit "## 09:00" ++ nl ++ lit "first"))
    (fun _ => None) (fun _ => None) (fun _ => true) (fun _ => true).

(** Every remote call fails. *)
Definition down : Env :=
  mkEnv (fun _ => date_2026_02_20) (fun _ => true) (fun _ => Some refused)
    (fun _ => inl forbidden) (fun _ => inl forbidden) (fun _ => Some forbidden)
    (fun _ => Some forbidden) (fun _ => true) (fun _ => true).

Definition cfg : Drive.Config :=
  Drive.mkConfig (lit "key") (lit "https://example.test/discovery")
    (lit "client") (lit "https://www.googleapis.com/auth/drive.file") (lit "folder").

Definition milk : PendingMemo := mkMemo (lit "milk") (lit "2026-02-19T23:00:00.000Z").
Definition eggs : PendingMemo := mkMemo (lit "eggs") (lit "2026-02-19T23:05:00.000Z").

(** A page whose editor holds [value], with the given queue slot. *)
Definition page_with (value : jsstring) (slot : option jsstring) : Page :=
  mkPage (lit "ONLINE") (lit "status-dot online") [] value false false false
    (match slot with
     | Some v => {[ pending_memos := v ]}
     | None => ∅
     end) [] [] 0.

Definition empty_slot : option jsstring := None.
Definition two_queued : option jsstring := Some (JSON.stringify [milk; eggs]).

Definition relay (online : bool) (value : jsstring) (slot : option jsstring)
  : World Relay.appState :=
  mkWorld (Relay.mkState false online) (page_with value slot).

Definition drive (online authed : bool) (value : jsstring) (slot : option jsstring)
  : World Drive.STATE :=
  mkWorld (Drive.mkState false online authed (Some true) true true false)
    (page_with value slot).

(** An interim and a final hypothesis of the same utterance. *)
Definition utterance : SpeechRecognitionEvent :=
  mkSpeechEvent 0 [mkResult false (lit "buy mi") []; mkResult true (lit "buy milk") []].

Definition interim_only : SpeechRecognitionEvent :=
  mkSpeechEvent 1 [mkResult true (lit "old") []; mkResult false (lit "buy mi") []].

End Sample.

(** ** Further notions used by the properties *)

(** A text made of white space only, the empty text included. *)
Definition all_ws (s : jsstring) : bool := forallb is_ws s.

(** A page after the calls [l] were logged over [n] interactions, with
    nothing else changed. *)
Definition logged (l : list Effect) (n : nat) (p : Page) : Page :=
  mkPage (statusText p) (statusDot p) (dateDisplay p) (memoText p) (micListening p)
    (micHidden p) (saveDisabled p) (localStorage p) (timers p) (trace p ++ l)
    (n + tick p).

(** The calls the loop of [syncOfflineMemosToSheet] issues for the queue
    [q] when it starts at interaction [t]: one POST per note, each after a
    reading of the clock. *)
Fixpoint replay_posts (env : Env) (t : nat) (q : list PendingMemo) : list Effect :=
  match q with
  | [] => []
  | memo :: q' =>
      Relay.post_of (Relay.s_offline_marker ++ text memo) (clock env t)
      :: replay_posts env (2 + t) q'
  end.

Module Outage.

(** The network drops exactly the call at interaction 3. *)
Definition flaky : Env :=
  mkEnv (fun _ => date_2026_02_20) (fun _ => true)
    (fun n => if (n =? 3)%nat then Some Sample.refused else None)
    (fun _ => inr []) (fun _ => inr []) (fun _ => None) (fun _ => None)
    (fun _ => true) (fun _ => true).

(** Every call succeeds, but no token is held yet. *)
Definition signed_out : Env :=
  mkEnv (fun _ => date_2026_02_20) (fun _ => true) (fun _ => None)
    (fun _ => inr []) (fun _ => inr []) (fun _ => None) (fun _ => None)
    (fun _ => false) (fun _ => true).

(** The identity library never arrives. *)
Definition no_identity : Env :=
  mkEnv (fun _ => date_2026_02_20) (fun _ => true) (fun _ => None)
    (fun _ => inr []) (fun _ => inr []) (fun _ => None) (fun _ => None)
    (fun _ => false) (fun _ => false).

End Outage.

(** A queued note whose text has something other than white space in it
    and no white space around it. *)
Definition tidy (m : PendingMemo) : bool :=
  negb (all_ws (text m)) && units_eqb (trim (text m)) (text m).

(** The stored values are those of [ls], but for the queue slot, which may
    have been removed. *)
Definition kept_or_removed {S : Type} (ls : gmap jsstring jsstring) (w : World S)
  : Prop :=
  localStorage (page w) = ls \/ localStorage (page w) = delete pending_memos ls.

(** The events whose handlers run the sync. *)
Definition relay_syncs (e : Relay.Event) : bool :=
  match e with
  | Relay.PageLoad | Relay.Online => true
  | _ => false
  end.

Definition drive_syncs (e : Drive.Event) : bool :=
  match e with
  | Drive.Online | Drive.TokenCallback _ => true
  | _ => false
  end.

(** The slot reads as a queue of tidy notes. *)
Definition tidy_queue {J : JSONParse} {S : Type} (w : World S) : Prop :=
  exists q, stored_queue (page w) = Some q /\ forallb tidy q = true.

(** ** Signing in (drive variant) *)

(** Both client libraries have been initialised. *)
Definition auth_ready (s : Drive.STATE) : bool :=
  Drive.gapiInited s && Drive.gisInited s.

(** Something of the sign-in has happened: the button is shown, the token
    callback is installed, or the user counts as authenticated. *)
Definition auth_started (s : Drive.STATE) : bool :=
  Drive.authButton s || Drive.isAuthenticated s
  || match Drive.tokenClient s with Some true => true | _ => false end.

Definition auth_gated (w : World Drive.STATE) : Prop :=
  auth_started (state w) = true -> auth_ready (state w) = true.

(** A call that uploads a document. *)
Definition is_upload (e : Effect) : bool :=
  match e with
  | ERequest _ _ _ _ _ => true
  | _ => false
  end.

(** A call to the Drive files API. *)
Definition is_drive_call (e : Effect) : bool :=
  match e with
  | EFilesList _ _ _ | EFilesGet _ _ | ERequest _ _ _ _ _ => true
  | _ => false
  end.

Definition drive_calls (t : list Effect) : list Effect :=
  filter (fun e => is_drive_call e = true) t.

(** ** Remote calls and connectivity *)

(** The variant's state and the outbound calls made so far. *)
Definition relay_quiet (s : Relay.appState) (c : list Effect)
  (w : World Relay.appState) : Prop :=
  state w = s /\ network_calls (trace (page w)) = c.

Definition drive_quiet (s : Drive.STATE) (c : list Effect)
  (w : World Drive.STATE) : Prop :=
  state w = s /\ drive_calls (trace (page w)) = c.

(** ** An unreadable queue slot *)

(** The text [JSON.parse] is given when the slot is read. *)
Definition slot_text (p : Page) : jsstring :=
  or_else (default [] (localStorage p !! pending_memos)) (lit "[]").

(** The status label and dot of a connectivity flag. *)
Definition connectivity_label (onLine : bool) : jsstring :=
  if onLine then lit "ONLINE" else lit "OFFLINE".
Definition connectivity_dot (onLine : bool) : jsstring :=
  lit "status-dot " ++ (if onLine then lit "online" else lit "offline").

(** ** The microphone control *)

(** The [listening] class of the control says what the flag says. *)
Definition relay_mic_in_step (w : World Relay.appState) : Prop :=
  micListening (page w) = Relay.isListening (state w).

Definition drive_mic_in_step (w : World Drive.STATE) : Prop :=
  micListening (page w) = Drive.isListening (state w).

(** Once the identity library is initialised there is a token client. *)
Definition client_present (w : World Drive.STATE) : Prop :=
  Drive.gisInited (state w) = true -> Drive.tokenClient (state w) <> None.

(** ** Start-up *)

(** What the peek at the queue writes to the console. *)
Definition relay_peek_log (q : list PendingMemo) : list Effect :=
  if (0 <? length q)%nat then
    [EConsole (lit "log")
       (Relay.s_unsent_prefix ++ String_of_N (N.of_nat (length q))
        ++ Relay.s_unsent_suffix) None]
  else [].

Definition drive_peek_log (q : list PendingMemo) : list Effect :=
  if (0 <? length q)%nat then
    [EConsole (lit "log")
       (String_of_N (N.of_nat (length q)) ++ lit " unsaved memos found.") None]
  else [].

(** The page once the load handler has shown the date and the
    connectivity status and has logged [log]. *)
Definition loaded (env : Env) (log : list Effect) (p : Page) : Page :=
  mkPage (connectivity_label (navigator_onLine env (1 + tick p)))
    (connectivity_dot (navigator_onLine env (1 + tick p)))
    (toLocaleDateString_ja (clock env (tick p)))
    (memoText p) (micListening p) (micHidden p) (saveDisabled p) (localStorage p)
    (timers p) (trace p ++ log) (2 + tick p).

(** ** The entry as the specification words it

    "A blank line, a heading containing the current time, a blank line,
    the note text, and a trailing blank line", each line ended by a line
    feed.  [Drive.newEntry_of] is the entry the code builds. *)
Definition blank_line : jsstring := nl.

Definition entry_as_worded (time content : jsstring) : jsstring :=
  blank_line ++ (lit "## " ++ time ++ nl) ++ blank_line ++ (content ++ nl)
  ++ blank_line.

(** An empty line inside a text: two line feeds in a row. *)
Definition has_blank_line (s : jsstring) : bool := contains s (nl ++ nl).

(** * Properties *)

(** ** The reader reads back what [JSON.stringify] writes *)

Section ReaderFacts.
Import JSON Reader.

Lemma unhex_hex_digit d : d < 16 -> unhex (hex_digit d) = Some d.
Proof.
  intros H.
  assert (d = 0 \/ d = 1 \/ d = 2 \/ d = 3 \/ d = 4 \/ d = 5 \/ d = 6 \/ d = 7 \/
          d = 8 \/ d = 9 \/ d = 10 \/ d = 11 \/ d = 12 \/ d = 13 \/ d = 14 \/ d = 15)
    as Hd by lia.
  repeat (destruct Hd as [-> | Hd]; [reflexivity |]). subst. reflexivity.
Qed.

Lemma hex4_value c :
  c < 65536 ->
  4096 * (c / 4096 mod 16) + 256 * (c / 256 mod 16) + 16 * (c / 16 mod 16) + c mod 16 = c.
Proof.
  intros H.
  replace (c / 4096) with (c / 16 / 16 / 16) by (rewrite !N.Div0.div_div; reflexivity).
  replace (c / 256) with (c / 16 / 16) by (rewrite !N.Div0.div_div; reflexivity).
  pose proof (N.div_mod c 16 ltac:(discriminate)) as E0.
  pose proof (N.div_mod (c / 16) 16 ltac:(discriminate)) as E1.
  pose proof (N.div_mod (c / 16 / 16) 16 ltac:(discriminate)) as E2.
  pose proof (N.div_mod (c / 16 / 16 / 16) 16 ltac:(discriminate)) as E3.
  pose proof (N.mod_lt c 16 ltac:(discriminate)) as B0.
  pose proof (N.mod_lt (c / 16) 16 ltac:(discriminate)) as B1.
  pose proof (N.mod_lt (c / 16 / 16) 16 ltac:(discriminate)) as B2.
  pose proof (N.mod_lt (c / 16 / 16 / 16) 16 ltac:(discriminate)) as B3.
  generalize dependent (c mod 16). generalize dependent (c / 16 mod 16).
  generalize dependent (c / 16 / 16 mod 16).
  generalize dependent (c / 16 / 16 / 16 mod 16).
  generalize dependent (c / 16 / 16 / 16 / 16).
  generalize dependent (c / 16 / 16 / 16).
  generalize dependent (c / 16 / 16). generalize dependent (c / 16).
  intros. lia.
Qed.

Lemma read_units_plain c s :
  c <> 0x22 -> c <> 0x5C -> 0x20 <= c ->
  read_units (c :: s) = push c (read_units s).
Proof.
  intros H1 H2 H3. cbn [read_units].
  rewrite (proj2 (N.eqb_neq _ _) H1), (proj2 (N.eqb_neq _ _) H2),
    (proj2 (N.ltb_ge _ _) H3).
  reflexivity.
Qed.

Lemma read_units_unicode c s :
  c < 65536 -> read_units (unicode_escape c ++ s) = push c (read_units s).
Proof.
  intros H. unfold unicode_escape. cbn [app read_units].
  change (0x5C =? 0x22) with false. change (0x5C =? 0x5C) with true.
  change (0x75 =? 0x75) with true. cbn iota.
  rewrite !unhex_hex_digit by (apply N.mod_lt; discriminate).
  rewrite (hex4_value c H). reflexivity.
Qed.

Lemma read_units_escape_unit c s :
  is_high c = false -> is_low c = false ->
  read_units (escape_unit c ++ s) = push c (read_units s).
Proof.
  intros Hh Hl. unfold escape_unit.
  repeat match goal with
  | |- context [if ?c =? ?k then _ else _] =>
      destruct (N.eqb_spec c k) as [-> | ?]; [reflexivity |]
  end.
  destruct (N.ltb_spec c 0x20).
  - apply read_units_unicode. lia.
  - apply read_units_plain; assumption.
Qed.

Lemma read_units_quote_units n : forall s rest,
  (length s <= n)%nat ->
  read_units (quote_units s ++ dq :: rest) = Some (s, rest).
Proof.
  induction n as [| n IH]; intros s rest Hn.
  - destruct s; [reflexivity | simpl in Hn; lia].
  - destruct s as [| c s']; [reflexivity |].
    simpl in Hn. cbn [quote_units].
    destruct (is_high c) eqn:Hh.
    + unfold is_high in Hh. apply andb_true_iff in Hh as [Hh1 Hh2].
      apply N.leb_le in Hh1, Hh2.
      destruct s' as [| d s''].
      * rewrite read_units_unicode by lia. reflexivity.
      * destruct (is_low d) eqn:Hl.
        -- unfold is_low in Hl. apply andb_true_iff in Hl as [Hl1 Hl2].
           apply N.leb_le in Hl1, Hl2.
           cbn [app]. rewrite read_units_plain by lia.
           rewrite read_units_plain by lia.
           simpl in Hn. rewrite IH by lia. reflexivity.
        -- rewrite <- app_assoc, read_units_unicode by lia.
           rewrite IH by lia. reflexivity.
    + destruct (is_low c) eqn:Hl.
      * rewrite <- app_assoc, read_units_unicode.
        -- rewrite IH by lia. reflexivity.
        -- unfold is_low in Hl. apply andb_true_iff in Hl as [_ Hl2].
           apply N.leb_le in Hl2. lia.
      * rewrite <- app_assoc, read_units_escape_unit by assumption.
        rewrite IH by lia. reflexivity.
Qed.

Lemma read_string_quote s rest :
  read_string (QuoteJSONString s ++ rest) = Some (s, rest).
Proof.
  unfold QuoteJSONString, read_string. cbn [app].
  change (dq =? 0x22) with true. cbn iota.
  rewrite <- app_assoc. apply (read_units_quote_units (length s)). lia.
Qed.

Lemma is_prefix_app p s : is_prefix p (p ++ s) = true.
Proof.
  induction p as [| a p IH]; [reflexivity |].
  cbn [app is_prefix]. rewrite N.eqb_refl. exact IH.
Qed.

Lemma expect_app p s : expect p (p ++ s) = Some s.
Proof. unfold expect. rewrite is_prefix_app, drop_app_length. reflexivity. Qed.

Lemma stringify_memo_shape m rest :
  stringify_memo m ++ rest =
  (lit "{" ++ QuoteJSONString (lit "text") ++ lit ":") ++ QuoteJSONString (text m)
  ++ (lit "," ++ QuoteJSONString (lit "timestamp") ++ lit ":")
  ++ QuoteJSONString (timestamp m) ++ lit "}" ++ rest.
Proof.
  unfold stringify_memo, object, member. cbn [join].
  repeat rewrite <- app_assoc. reflexivity.
Qed.

Lemma read_memo_stringify m rest :
  read_memo (stringify_memo m ++ rest) = Some (m, rest).
Proof.
  rewrite stringify_memo_shape. unfold read_memo.
  rewrite expect_app. cbn [mbind option_bind].
  rewrite read_string_quote. cbn [mbind option_bind].
  rewrite expect_app. cbn [mbind option_bind].
  rewrite read_string_quote. cbn [mbind option_bind].
  rewrite expect_app. destruct m; reflexivity.
Qed.

Lemma stringify_memo_cons m :
  exists tl, stringify_memo m = 0x7B :: 0x22 :: tl.
Proof.
  pose proof (stringify_memo_shape m []) as E. rewrite app_nil_r in E.
  rewrite E. eexists. reflexivity.
Qed.

Lemma join_cons2 sep x y l :
  join sep (x :: y :: l) = x ++ sep ++ join sep (y :: l).
Proof. reflexivity. Qed.

Lemma join_memos_length (q : list PendingMemo) :
  (length q <= length (join (lit ",") (map stringify_memo q)))%nat.
Proof.
  induction q as [| m q IH]; [simpl; lia |].
  destruct (stringify_memo_cons m) as [tl E].
  destruct q as [| m' q'].
  - cbn [map join]. rewrite E. simpl. lia.
  - cbn [map] in *. rewrite join_cons2, E, !length_app. simpl in *. lia.
Qed.

Lemma read_items_join (q : list PendingMemo) : forall fuel rest,
  q <> [] -> (length q <= fuel)%nat ->
  read_items fuel (join (lit ",") (map stringify_memo q) ++ lit "]" ++ rest)
  = Some (q, rest).
Proof.
  induction q as [| m q IH]; intros fuel rest Hne Hfuel; [congruence |].
  destruct fuel as [| fuel]; [simpl in Hfuel; lia |].
  destruct q as [| m' q'].
  - cbn [map join read_items]. rewrite read_memo_stringify. reflexivity.
  - cbn [map] in *. rewrite join_cons2. cbn [read_items].
    rewrite <- !app_assoc, read_memo_stringify. cbn [mbind option_bind].
    match goal with
    | |- context [lit "," ++ ?X] => change (lit "," ++ X) with (0x2C :: X)
    end.
    change (0x2C =? 0x2C) with true. cbn iota.
    rewrite (IH fuel rest); [reflexivity | discriminate | simpl in *; lia].
Qed.

Lemma read_queue_stringify q : read_queue (stringify q) = Some q.
Proof.
  unfold stringify, array. destruct q as [| m q]; [reflexivity |].
  change (lit "[") with [0x5B]. cbn [app read_queue].
  change (0x5B =? 0x5B) with true. cbn iota.
  set (body := join (lit ",") (map stringify_memo (m :: q))).
  assert (exists a b tl, body ++ lit "]" = a :: b :: tl) as (a & b & tl & E).
  { subst body. destruct (stringify_memo_cons m) as [tl E].
    cbn [map]. destruct q; cbn [map]; [cbn [join] | rewrite join_cons2];
      rewrite E; eexists _, _, _; reflexivity. }
  assert (read_items (length (body ++ lit "]")) (body ++ lit "]") = Some (m :: q, []))
    as R.
  { rewrite <- (app_nil_r (body ++ lit "]")) at 2. rewrite <- app_assoc.
    apply read_items_join; [discriminate |].
    rewrite length_app. pose proof (join_memos_length (m :: q)). subst body.
    simpl in *. lia. }
  rewrite E in *. rewrite R. reflexivity.
Qed.

End ReaderFacts.

(** The reader is a [JSON.parse]. *)
#[export] Instance reader_parse : JSONParse := {|
  JSON_parse := Reader.read_queue;
  JSON_parse_error := Reader.syntax_error;
  JSON_parse_stringify := read_queue_stringify
|}.

(** ** Running computations *)

Arguments trim : simpl never.
Arguments lit : simpl never.
Arguments toISOString : simpl never.
Arguments toLocaleTimeString_ja : simpl never.
Arguments toLocaleString_ja : simpl never.
Arguments toLocaleDateString_ja : simpl never.
Arguments JSON.stringify : simpl never.
Arguments JSON.stringify_memo : simpl never.
Arguments JSON.object : simpl never.
Arguments JSON.QuoteJSONString : simpl never.
Arguments String_of_N : simpl never.
Arguments String_of_Z : simpl never.
Arguments padStart : simpl never.
Arguments saveToLocal : simpl never.
Arguments read_pending : simpl never.
Arguments Relay.sendMemoToSheet : simpl never.
Arguments Relay.replay : simpl never.
Arguments Drive.saveToDrive : simpl never.
Arguments Drive.fileName_of : simpl never.
Arguments Drive.newEntry_of : simpl never.

Section Keeps.
Context {S : Type} (P : World S -> Prop).

Lemma keeps_ret {A} (a : A) : keeps P (ret a).
Proof. intros w H. exact H. Qed.

Lemma keeps_throw {A} e : keeps P (@throw S A e).
Proof. intros w H. exact H. Qed.

Lemma keeps_bind {A B} (m : M S A) (k : A -> M S B) :
  keeps P m -> (forall a, keeps P (k a)) -> keeps P (bind m k).
Proof.
  intros Hm Hk w H. unfold bind. specialize (Hm w H).
  destruct (m w) as [[a | e] w']; cbn in *; [apply Hk |]; assumption.
Qed.

Lemma keeps_try_catch {A} (m : M S A) (h : JsError -> M S A) :
  keeps P m -> (forall e, keeps P (h e)) -> keeps P (try_catch m h).
Proof.
  intros Hm Hh w H. unfold try_catch. specialize (Hm w H).
  destruct (m w) as [[a | e] w']; cbn in *; [| apply Hh]; assumption.
Qed.

Lemma keeps_for_of {A} (l : list A) (body : A -> M S unit) :
  (forall x, keeps P (body x)) -> keeps P (for_of l body).
Proof.
  intros Hb. induction l as [| x l IH]; cbn [for_of].
  - apply keeps_ret.
  - apply keeps_bind; [apply Hb | intros _; exact IH].
Qed.

Lemma keeps_modify_page (f : Page -> Page) :
  (forall w, P w -> P (mkWorld (state w) (f (page w)))) -> keeps P (modify_page f).
Proof. intros Hf w H. apply Hf, H. Qed.

Lemma keeps_get_state : keeps P get_state.
Proof. intros w H. exact H. Qed.

Lemma keeps_get_page : keeps P get_page.
Proof. intros w H. exact H. Qed.

Lemma keeps_run (m : M S unit) w :
  keeps P m -> (forall e, keeps P (modify_page (emit (EUnhandled e)))) ->
  P w -> P (run m w).
Proof. intros Hm He H. apply (keeps_try_catch m _ Hm He w H). Qed.

End Keeps.

(** Structural steps first; a primitive is then opened and evaluated. *)
Ltac keeps_structure :=
  repeat first
    [ apply keeps_ret
    | apply keeps_throw
    | apply keeps_get_state
    | apply keeps_get_page
    | apply keeps_bind; [| intros ?]
    | apply keeps_try_catch; [| intros ?]
    | apply keeps_for_of; intros ?
    | match goal with
      | |- keeps _ (if ?b then _ else _) => destruct b
      | |- keeps _ (match ?x with _ => _ end) => destruct x
      end ].

(** Opening the monad: what is left is a page expression, or a [match] on
    the outcome of a call that has a lemma of its own. *)
Ltac exec :=
  unfold run, detach, try_catch, bind, ret, throw, get_state, put_state, get_page,
    modify_page, alert, console, setTimeout, updateStatus, setItem, removeItem;
  cbn.

Section RunFacts.
Context {S : Type} (env : Env) {J : JSONParse}.

Lemma read_pending_run (w : World S) q :
  stored_queue (page w) = Some q -> read_pending w = (Normal q, w).
Proof.
  unfold stored_queue, read_pending, getItem, parse, bind, get_page, ret.
  intros ->. reflexivity.
Qed.

(** Storing a queue and reading the slot again. *)
Lemma stored_queue_insert (ls : gmap jsstring jsstring) q p :
  localStorage p = <[pending_memos := JSON.stringify q]> ls ->
  stored_queue p = Some q.
Proof.
  intros E. unfold stored_queue. rewrite E, lookup_insert_eq.
  exact (JSON_parse_stringify q).
Qed.

(** A removed slot reads as the empty queue. *)
Lemma stored_queue_delete (ls : gmap jsstring jsstring) p :
  localStorage p = delete pending_memos ls -> stored_queue p = Some [].
Proof.
  intros E. unfold stored_queue. rewrite E, lookup_delete_eq.
  exact (JSON_parse_stringify []).
Qed.

Lemma saveToLocal_run (w : World S) t q :
  stored_queue (page w) = Some q ->
  let v := JSON.stringify (q ++ [mkMemo t (toISOString (clock env (tick (page w))))]) in
  saveToLocal env t w =
  (Normal tt,
   mkWorld (state w)
     (emit (ESetItem pending_memos v)
        (set_localStorage (<[pending_memos := v]> (localStorage (page w)))
           (next_tick (page w))))).
Proof.
  intros Hq v. unfold saveToLocal, bind at 1.
  rewrite (read_pending_run w q Hq). reflexivity.
Qed.

End RunFacts.

Lemma contains_nil s : contains s [] = true.
Proof. destruct s; reflexivity. Qed.

Lemma is_prefix_refl s : is_prefix s s = true.
Proof. induction s as [| a s IH]; [reflexivity |]. cbn. rewrite N.eqb_refl. exact IH. Qed.

Lemma contains_suffix a b : contains (a ++ b) b = true.
Proof.
  induction a as [| x a IH]; cbn [app].
  - destruct b; cbn; [reflexivity |]. rewrite N.eqb_refl, is_prefix_refl. reflexivity.
  - cbn [contains]. rewrite IH. apply orb_true_r.
Qed.

(** ** The relay variant *)

Module RelayFacts.
Import Relay.

Section Facts.
Context (env : Env) {J : JSONParse}.

Lemma sendMemoToSheet_run content (w : World appState) :
  sendMemoToSheet env content w =
  (match fetch_outcome env (Datatypes.S (tick (page w))) with
   | None => Normal tt
   | Some e => Throw e
   end,
   mkWorld (state w)
     (next_tick (emit (post_of content (clock env (tick (page w))))
                   (next_tick (page w))))).
Proof.
  unfold sendMemoToSheet, bind, new_Date, fetch. cbn.
  destruct (fetch_outcome env (Datatypes.S (tick (page w)))); reflexivity.
Qed.

Lemma sendMemoToSheet_frame content (w0 : World appState) :
  keeps (same_but_log w0) (sendMemoToSheet env content).
Proof.
  intros w [Hs Hp]. rewrite sendMemoToSheet_run. split; cbn; [exact Hs |].
  rewrite Hp. reflexivity.
Qed.

Lemma replay_frame q (w0 : World appState) : keeps (same_but_log w0) (replay env q).
Proof. apply keeps_for_of. intros memo. apply sendMemoToSheet_frame. Qed.

(** Every submission succeeds: the loop completes. *)
Lemma replay_ok q : forall (w : World appState),
  (forall i, (i < length q)%nat ->
     fetch_outcome env (Datatypes.S (tick (page w) + 2 * i)) = None) ->
  fst (replay env q w) = Normal tt /\
  tick (page (snd (replay env q w))) = (tick (page w) + 2 * length q)%nat.
Proof.
  induction q as [| m q IH]; intros w H.
  - unfold replay. cbn. split; [reflexivity | lia].
  - unfold replay. cbn [for_of]. unfold bind. rewrite sendMemoToSheet_run.
    pose proof (H 0%nat ltac:(cbn; lia)) as H0.
    rewrite Nat.mul_0_r, Nat.add_0_r in H0. rewrite H0.
    match goal with |- context [for_of q ?b ?w1] => destruct (IH w1) as [E1 E2] end.
    { intros i Hi. cbn [page tick next_tick emit].
      specialize (H (Datatypes.S i) ltac:(cbn; lia)).
      replace (Datatypes.S (Datatypes.S (tick (page w))) + 2 * i)%nat
        with (tick (page w) + 2 * Datatypes.S i)%nat by lia.
      exact H. }
    unfold replay in E1, E2. split; [exact E1 |].
    rewrite E2. cbn [page tick next_tick emit length]. lia.
Qed.

(** Some submission faults: the loop throws. *)
Lemma replay_fault q : forall (w : World appState) i,
  (i < length q)%nat ->
  fetch_outcome env (Datatypes.S (tick (page w) + 2 * i)) <> None ->
  exists e, fst (replay env q w) = Throw e.
Proof.
  induction q as [| m q IH]; intros w i Hi H; [cbn in Hi; lia |].
  unfold replay. cbn [for_of]. unfold bind. rewrite sendMemoToSheet_run.
  destruct (fetch_outcome env (Datatypes.S (tick (page w)))) as [e |] eqn:E0.
  - exists e. reflexivity.
  - destruct i as [| i].
    + rewrite Nat.mul_0_r, Nat.add_0_r in H. congruence.
    + match goal with |- context [for_of q ?b ?w1] =>
        destruct (IH w1 i) as [e He] end.
      * cbn in Hi. lia.
      * cbn [page tick next_tick emit].
        replace (Datatypes.S (Datatypes.S (tick (page w))) + 2 * i)%nat
          with (tick (page w) + 2 * Datatypes.S i)%nat by lia.
        exact H.
      * exists e. exact He.
Qed.

(** The notice of [handleSaveFailure]. *)
Lemma relay_notice_has_message err m :
  err_message err = Some m ->
  contains (s_alert_prefix ++ or_else (default [] (err_message err)) (err_json err)) m
  = true.
Proof.
  intros ->. cbn [default]. unfold or_else. destruct m as [| c m].
  - apply contains_nil.
  - cbn [truthy]. apply contains_suffix.
Qed.

Lemma relay_failed_save (w : World appState) q err :
  isOnline (state w) = true ->
  truthy (trim (memoText (page w))) = true ->
  stored_queue (page w) = Some q ->
  fetch_outcome env (Datatypes.S (tick (page w))) = Some err ->
  let t := trim (memoText (page w)) in
  let w' := run (saveBtn_onclick env) w in
  let memo := mkMemo t (toISOString (clock env (Datatypes.S (Datatypes.S (tick (page w)))))) in
  let notice := s_alert_prefix ++ or_else (default [] (err_message err)) (err_json err) in
  stored_queue (page w') = Some (q ++ [memo]) /\
  localStorage (page w')
    = <[pending_memos := JSON.stringify (q ++ [memo])]> (localStorage (page w)) /\
  memoText (page w') = memoText (page w) /\
  saveDisabled (page w') = true /\
  trace (page w')
    = trace (page w)
      ++ [post_of t (clock env (tick (page w)));
          EConsole (lit "error") s_save_failed_log (Some err);
          ESetItem pending_memos (JSON.stringify (q ++ [memo]));
          EAlert notice].
Proof.
  intros Hon Ht Hq Hf t w' memo notice.
  eassert (w' = _) as E.
  { subst w'. unfold run, detach, try_catch at 1, saveBtn_onclick.
    unfold bind at 1, get_page at 1. rewrite Ht. cbn [negb].
    unfold bind at 1, updateAppStatusMessage, updateStatus, modify_page at 1.
    unfold bind at 1, modify_page at 1.
    unfold bind at 1, get_state at 1. cbn [state]. rewrite Hon.
    unfold try_catch at 1. unfold bind at 1.
    rewrite sendMemoToSheet_run. cbn [page tick set_saveDisabled set_status].
    rewrite Hf.
    unfold bind at 1, console at 1, modify_page at 1.
    unfold handleSaveFailure, saveTextLocally. unfold bind at 1.
    erewrite saveToLocal_run by (cbn; exact Hq).
    cbn. reflexivity. }
  rewrite E. cbn. fold t memo notice.
  repeat split.
  - eapply stored_queue_insert. cbn. reflexivity.
  - rewrite <- !app_assoc. reflexivity.
Qed.

Lemma relay_sync_noop (w : World appState) :
  isOnline (state w) = false \/ stored_queue (page w) = Some [] ->
  syncOfflineMemosToSheet env w = (Normal tt, w).
Proof.
  intros H. unfold syncOfflineMemosToSheet, bind at 1, get_state.
  destruct (isOnline (state w)) eqn:E; cbn [negb].
  - destruct H as [H | H]; [discriminate |].
    unfold bind at 1. rewrite (read_pending_run w [] H). reflexivity.
  - reflexivity.
Qed.

Lemma relay_offline_save (w : World appState) q :
  isOnline (state w) = false ->
  truthy (trim (memoText (page w))) = true ->
  stored_queue (page w) = Some q ->
  let t := trim (memoText (page w)) in
  let w' := run (saveBtn_onclick env) w in
  let memo := mkMemo t (toISOString (clock env (tick (page w)))) in
  stored_queue (page w') = Some (q ++ [memo]) /\
  localStorage (page w')
    = <[pending_memos := JSON.stringify (q ++ [memo])]> (localStorage (page w)) /\
  memoText (page w') = [] /\
  trace (page w')
    = trace (page w)
      ++ [ESetItem pending_memos (JSON.stringify (q ++ [memo]));
          ESetTimeout (CbStatus (lit "OFFLINE") (lit "offline")) 2000].
Proof.
  intros Hoff Ht Hq t w' memo.
  eassert (w' = _) as E.
  { subst w'. unfold run, detach, try_catch at 1, saveBtn_onclick.
    unfold bind at 1, get_page at 1. rewrite Ht. cbn [negb].
    unfold bind at 1, updateAppStatusMessage, updateStatus, modify_page at 1.
    unfold bind at 1, modify_page at 1.
    unfold bind at 1, get_state at 1. cbn [state]. rewrite Hoff.
    unfold saveTextLocally. unfold bind at 1.
    erewrite saveToLocal_run by (cbn; exact Hq).
    cbn. reflexivity. }
  rewrite E. cbn. fold t memo.
  repeat split.
  - eapply stored_queue_insert. cbn. reflexivity.
  - rewrite <- !app_assoc. reflexivity.
Qed.

Lemma relay_sync_outcome (w : World appState) q :
  isOnline (state w) = true ->
  stored_queue (page w) = Some q ->
  q <> [] ->
  let w1 := mkWorld (state w)
              (set_status s_syncing (lit "status-dot " ++ lit "syncing") (page w)) in
  let w' := run (syncOfflineMemosToSheet env) w in
  match fst (replay env q w1) with
  | Normal _ => localStorage (page w') = delete pending_memos (localStorage (page w))
  | Throw _ => localStorage (page w') = localStorage (page w)
  end.
Proof.
  intros Hon Hq Hne w1 w'.
  pose proof (replay_frame q w1 w1 (conj eq_refl eq_refl)) as [Fs Fp].
  eassert (w' = _) as E.
  { subst w'. unfold run, detach, try_catch at 1, syncOfflineMemosToSheet.
    unfold bind at 1, get_state at 1. rewrite Hon. cbn [negb].
    unfold bind at 1. rewrite (read_pending_run w q Hq).
    destruct q as [| m q']; [congruence |]. cbn [length Nat.eqb].
    unfold bind at 1, updateAppStatusMessage, updateStatus, modify_page at 1.
    fold w1. unfold try_catch at 1, bind at 1.
    change (for_of (m :: q') _) with (replay env (m :: q')).
    reflexivity. }
  rewrite E.
  destruct (replay env q w1) as [[[] | e] [s2 p2]];
    cbn [fst snd page state] in *; cbn; rewrite Fp; reflexivity.
Qed.

Lemma relay_sync_clears_or_keeps (w : World appState) q :
  isOnline (state w) = true ->
  stored_queue (page w) = Some q ->
  q <> [] ->
  let w' := run (syncOfflineMemosToSheet env) w in
  ((forall i, (i < length q)%nat ->
      fetch_outcome env (Datatypes.S (tick (page w) + 2 * i)) = None) ->
   localStorage (page w') !! pending_memos = None /\
   localStorage (page w') = delete pending_memos (localStorage (page w))) /\
  (forall i, (i < length q)%nat ->
     fetch_outcome env (Datatypes.S (tick (page w) + 2 * i)) <> None ->
     localStorage (page w') = localStorage (page w)).
Proof.
  intros Hon Hq Hne w'.
  pose proof (relay_sync_outcome w q Hon Hq Hne) as H. cbv zeta in H. fold w' in H.
  split.
  - intros Hok.
    match type of H with context [replay env q ?w1] =>
      destruct (replay_ok q w1) as [E _]; [exact Hok |] end.
    rewrite E in H. rewrite H. split; [apply lookup_delete_eq | reflexivity].
  - intros i Hi Hfault.
    match type of H with context [replay env q ?w1] =>
      destruct (replay_fault q w1 i Hi) as [e E]; [exact Hfault |] end.
    rewrite E in H. exact H.
Qed.

(** No handler but the two that write [saveBtn.disabled = false] can
    enable the save control. *)
Lemma relay_disabled_is_kept (w : World appState) e :
  saveDisabled (page w) = true ->
  saveDisabled (page (step env e w)) = false ->
  (exists v, e = Input v) \/ (exists ev, e = RecognitionResult ev).
Proof.
  intros Hd Hen.
  destruct e; try (left; eexists; reflexivity); try (right; eexists; reflexivity);
    exfalso; revert Hen; cbn [step];
    try rewrite Hd;
    try (destruct (timers (page w) !! i) as [[cb ?] |]);
    try (rewrite Hd; discriminate);
    match goal with
    | |- saveDisabled (page (run ?m w)) = false -> False =>
        enough (saveDisabled (page (run m w)) = true) as -> by discriminate;
        apply (keeps_run (fun w => saveDisabled (page w) = true)); [| | exact Hd]
    end;
    try (intros ? ? ?; assumption).
  all: unfold script, onload, onstart, onend, micBtn_onclick, ononline, onoffline,
         fire_status, detach, syncOfflineMemosToSheet, initializeDateDisplay,
         updateOnlineStatusDisplay, checkOfflineUnsavedMemos, set_isListening,
         set_isOnline, updateAppStatusMessage, sendMemoToSheet, read_pending,
         getItem, parse, console, alert, setTimeout, removeItem, updateStatus.
  all: keeps_structure.
  all: intros ? ?; unfold fetch; cbn; try destruct (fetch_outcome _ _); assumption.
Qed.

End Facts.
End RelayFacts.

(** ** The drive variant *)

Module DriveFacts.
Import Drive.

Section Facts.
Context (env : Env) {J : JSONParse} (cfg : Config).

Ltac log_leaf :=
  let s := fresh "s" in
  let p := fresh "p" in
  let Hs := fresh "Hs" in
  let Hp := fresh "Hp" in
  intros [s p] [Hs Hp]; destruct p; cbn in Hs, Hp |- *;
  repeat match goal with
  | |- context [match ?x with _ => _ end] => destruct x
  end;
  (split; [assumption | unfold next_tick, emit; cbn; congruence]).

Lemma saveToDrive_frame content (w0 : World STATE) :
  keeps (same_but_log w0) (saveToDrive env cfg content).
Proof.
  unfold saveToDrive, getFileName, console.
  keeps_structure; cbv zeta; keeps_structure.
  all: unfold new_Date, files_list, files_get, gapi_request, modify_page.
  all: log_leaf.
Qed.

(** The document of the day exists: list, download, update. *)
Lemma saveToDrive_existing content (w : World STATE) f fs body :
  files_list_outcome env (1 + tick (page w)) = inr (f :: fs) ->
  files_get_outcome env (2 + tick (page w)) = inr body ->
  truthy (file_id f) = true ->
  let name := fileName_of (clock env (tick (page w))) in
  let time := toLocaleTimeString_ja (clock env (3 + tick (page w))) in
  let final := trim (body ++ newEntry_of time content) in
  fst (saveToDrive env cfg content w)
    = match request_outcome env (4 + tick (page w)) with
      | None => Normal tt
      | Some e => Throw e
      end /\
  trace (page (snd (saveToDrive env cfg content w)))
    = trace (page w)
      ++ [list_call name (FOLDER_ID cfg); get_call (file_id f);
          update_call name (file_id f) final].
Proof.
  intros Hl Hg Hid name time final. cbn [Nat.add] in *.
  unfold saveToDrive, getFileName, bind, try_catch, new_Date, files_list, files_get,
    gapi_request, ret.
  cbn -[fileName_of newEntry_of]. rewrite Hl. cbn -[fileName_of newEntry_of].
  rewrite Hg. cbn -[fileName_of newEntry_of]. rewrite Hid.
  fold name time. fold final.
  destruct (request_outcome env _); cbn;
    (split; [reflexivity | rewrite <- !app_assoc; reflexivity]).
Qed.

(** The document exists but its download fails: no upload at all. *)
Lemma saveToDrive_download_fails content (w : World STATE) f fs e :
  files_list_outcome env (1 + tick (page w)) = inr (f :: fs) ->
  files_get_outcome env (2 + tick (page w)) = inl e ->
  let name := fileName_of (clock env (tick (page w))) in
  fst (saveToDrive env cfg content w) = Throw e /\
  trace (page (snd (saveToDrive env cfg content w)))
    = trace (page w)
      ++ [list_call name (FOLDER_ID cfg); get_call (file_id f);
          EConsole (lit "error") (lit "Search failed") (Some e)].
Proof.
  intros Hl Hg name. cbn [Nat.add] in *.
  unfold saveToDrive, getFileName, bind, try_catch, new_Date, files_list, files_get,
    gapi_request, ret, console, throw, modify_page.
  cbn -[fileName_of newEntry_of]. rewrite Hl. cbn -[fileName_of newEntry_of].
  rewrite Hg. cbn -[fileName_of newEntry_of]. fold name.
  split; [reflexivity | rewrite <- !app_assoc; reflexivity].
Qed.

(** No document yet: list, create. *)
Lemma saveToDrive_fresh content (w : World STATE) :
  files_list_outcome env (1 + tick (page w)) = inr [] ->
  let name := fileName_of (clock env (tick (page w))) in
  let time := toLocaleTimeString_ja (clock env (2 + tick (page w))) in
  let final := trim ([] ++ newEntry_of time content) in
  fst (saveToDrive env cfg content w)
    = match request_outcome env (3 + tick (page w)) with
      | None => Normal tt
      | Some e => Throw e
      end /\
  trace (page (snd (saveToDrive env cfg content w)))
    = trace (page w)
      ++ [list_call name (FOLDER_ID cfg); create_call name (FOLDER_ID cfg) final].
Proof.
  intros Hl name time final. cbn [Nat.add] in *.
  unfold saveToDrive, getFileName, bind, try_catch, new_Date, files_list, files_get,
    gapi_request, ret.
  cbn -[fileName_of newEntry_of]. rewrite Hl. cbn -[fileName_of newEntry_of].
  fold name time. fold final.
  destruct (request_outcome env _); cbn;
    (split; [reflexivity | rewrite <- !app_assoc; reflexivity]).
Qed.

(** The notice of the failure branch carries the message the handler
    selects: the API's own message when the failure has one, else the
    exception's. *)
Lemma drive_notice_has_message err :
  (forall m, err_result_error_message err = Some m ->
     contains (s_alert_prefix ++ errMsg_of err) m = true) /\
  (forall m, truthy (default [] (err_result_error_message err)) = false ->
     err_message err = Some m ->
     contains (s_alert_prefix ++ errMsg_of err) m = true).
Proof.
  unfold errMsg_of, or_else. split.
  - intros m ->. cbn [default]. destruct m as [| c m]; [apply contains_nil |].
    cbn [truthy]. apply contains_suffix.
  - intros m -> ->. cbn [default]. destruct m as [| c m]; [apply contains_nil |].
    cbn [truthy]. apply contains_suffix.
Qed.

Lemma drive_failed_save (w w2 : World STATE) q err :
  isOnline (state w) = true ->
  isAuthenticated (state w) = true ->
  truthy (trim (memoText (page w))) = true ->
  stored_queue (page w) = Some q ->
  let t := trim (memoText (page w)) in
  saveToDrive env cfg t (saving w) = (Throw err, w2) ->
  let w' := run (saveBtn_onclick env cfg) w in
  let memo := mkMemo t (toISOString (clock env (tick (page w2)))) in
  let notice := s_alert_prefix ++ errMsg_of err in
  stored_queue (page w') = Some (q ++ [memo]) /\
  localStorage (page w')
    = <[pending_memos := JSON.stringify (q ++ [memo])]> (localStorage (page w)) /\
  memoText (page w') = memoText (page w) /\
  saveDisabled (page w') = true /\
  trace (page w')
    = trace (page w2)
      ++ [EConsole (lit "error") (lit "Save failed") (Some err);
          ESetItem pending_memos (JSON.stringify (q ++ [memo]));
          EAlert notice].
Proof.
  intros Hon Hau Ht Hq t Hfail w' memo notice.
  pose proof (saveToDrive_frame t (saving w) (saving w) (conj eq_refl eq_refl))
    as [Fs Fp].
  rewrite Hfail in Fs, Fp. cbn in Fs, Fp.
  unfold saving in Hfail. cbn in Hfail.
  eassert (w' = _) as E.
  { subst w'. unfold saveBtn_onclick. exec.
    rewrite Ht. cbn. rewrite Hon, Hau. cbn. fold t. rewrite Hfail. cbn.
    erewrite saveToLocal_run by (cbn; rewrite Fp; exact Hq).
    cbn. reflexivity. }
  rewrite E. cbn. rewrite Fp. cbn. fold t memo notice.
  repeat split.
  - eapply stored_queue_insert. cbn. reflexivity.
  - rewrite <- !app_assoc. reflexivity.
Qed.

Lemma drive_sync_noop (w : World STATE) :
  isOnline (state w) = false \/ isAuthenticated (state w) = false
  \/ stored_queue (page w) = Some [] ->
  syncPendingData env cfg w = (Normal tt, w).
Proof.
  intros H. unfold syncPendingData, bind at 1, get_state.
  destruct (isAuthenticated (state w)) eqn:Ea, (isOnline (state w)) eqn:Eo;
    cbn [negb orb]; try reflexivity.
  destruct H as [H | [H | H]]; try discriminate.
  unfold bind at 1. rewrite (read_pending_run w [] H). reflexivity.
Qed.

Lemma drive_offline_save (w : World STATE) q :
  isOnline (state w) && isAuthenticated (state w) = false ->
  truthy (trim (memoText (page w))) = true ->
  stored_queue (page w) = Some q ->
  let t := trim (memoText (page w)) in
  let w' := run (saveBtn_onclick env cfg) w in
  let memo := mkMemo t (toISOString (clock env (tick (page w)))) in
  stored_queue (page w') = Some (q ++ [memo]) /\
  localStorage (page w')
    = <[pending_memos := JSON.stringify (q ++ [memo])]> (localStorage (page w)) /\
  memoText (page w') = [] /\
  trace (page w')
    = trace (page w)
      ++ [ESetItem pending_memos (JSON.stringify (q ++ [memo]));
          ESetTimeout (CbStatus (lit "OFFLINE") (lit "offline")) 2000].
Proof.
  intros Hoff Ht Hq t w' memo.
  eassert (w' = _) as E.
  { subst w'. unfold run, detach, try_catch at 1, saveBtn_onclick.
    unfold bind at 1, get_page at 1. rewrite Ht. cbn [negb].
    unfold bind at 1, updateStatus, modify_page at 1.
    unfold bind at 1, modify_page at 1.
    unfold bind at 1, get_state at 1. cbn [state]. rewrite Hoff.
    unfold bind at 1.
    erewrite saveToLocal_run by (cbn; exact Hq).
    cbn. reflexivity. }
  rewrite E. cbn. fold t memo.
  repeat split.
  - eapply stored_queue_insert. cbn. reflexivity.
  - rewrite <- !app_assoc. reflexivity.
Qed.

(** The [forEach] builds the wrapped notes in queue order. *)
Lemma combinedText_fold q : forall acc,
  fold_left combine_step q acc = acc ++ concat (map synced_note q).
Proof.
  induction q as [| item q IH]; intros acc; cbn [fold_left map concat].
  - rewrite app_nil_r. reflexivity.
  - rewrite IH. unfold combine_step, synced_note. rewrite <- app_assoc. reflexivity.
Qed.

(** A viable sync over a non-empty queue is one adapter call on the
    combined text, then the clearing or the failure status. *)
Lemma drive_sync_submits (w : World STATE) q :
  isOnline (state w) = true ->
  isAuthenticated (state w) = true ->
  stored_queue (page w) = Some q ->
  q <> [] ->
  syncPendingData env cfg w
  = try_catch
      (saveToDrive env cfg (concat (map synced_note q)) ;;
       removeItem pending_memos ;;
       updateStatus (lit "Synced!") (lit "online") ;;
       setTimeout (CbStatus (lit "ONLINE") (lit "online")) 2000)
      (fun err =>
         console (lit "error") (lit "Sync failed") (Some err) ;;
         updateStatus (lit "Sync Failed") (lit "offline"))
      (syncing w).
Proof.
  intros Hon Hau Hq Hne.
  unfold syncPendingData. unfold bind at 1, get_state at 1.
  rewrite Hon, Hau. cbn [negb orb].
  unfold bind at 1. rewrite (read_pending_run w q Hq).
  destruct q as [| m q']; [congruence |]. cbn [length Nat.eqb].
  unfold bind at 1, updateStatus at 1, modify_page at 1. fold (syncing w).
  rewrite combinedText_fold. reflexivity.
Qed.

Lemma drive_sync_outcome (w : World STATE) q :
  isOnline (state w) = true ->
  isAuthenticated (state w) = true ->
  stored_queue (page w) = Some q ->
  q <> [] ->
  let w' := run (syncPendingData env cfg) w in
  match fst (saveToDrive env cfg (concat (map synced_note q)) (syncing w)) with
  | Normal _ =>
      localStorage (page w') !! pending_memos = None /\
      localStorage (page w') = delete pending_memos (localStorage (page w))
  | Throw _ => localStorage (page w') = localStorage (page w)
  end.
Proof.
  intros Hon Hau Hq Hne w'.
  pose proof (saveToDrive_frame (concat (map synced_note q)) (syncing w) (syncing w)
                (conj eq_refl eq_refl)) as [Fs Fp].
  eassert (w' = _) as E.
  { subst w'. unfold run, detach, try_catch at 1.
    rewrite (drive_sync_submits w q Hon Hau Hq Hne). reflexivity. }
  rewrite E. clear E. unfold syncing in *. exec. cbn in Fs, Fp.
  destruct (saveToDrive env cfg _ _) as [[[] | e] [s2 p2]]; cbn in *; rewrite Fp; cbn.
  - split; [apply lookup_delete_eq | reflexivity].
  - reflexivity.
Qed.

(** What a successful sync leaves in the trace when the folder has no
    document of the day: the listing, one create carrying the combined
    text under its time heading, the removal of the slot, the status timer. *)
Lemma drive_sync_trace_fresh (w : World STATE) q :
  isOnline (state w) = true ->
  isAuthenticated (state w) = true ->
  stored_queue (page w) = Some q ->
  q <> [] ->
  files_list_outcome env (1 + tick (page w)) = inr [] ->
  request_outcome env (3 + tick (page w)) = None ->
  let name := fileName_of (clock env (tick (page w))) in
  let time := toLocaleTimeString_ja (clock env (2 + tick (page w))) in
  let combined := concat (map synced_note q) in
  trace (page (run (syncPendingData env cfg) w))
  = trace (page w)
    ++ [list_call name (FOLDER_ID cfg);
        create_call name (FOLDER_ID cfg) (trim ([] ++ newEntry_of time combined));
        ERemoveItem pending_memos;
        ESetTimeout (CbStatus (lit "ONLINE") (lit "online")) 2000].
Proof.
  intros Hon Hau Hq Hne Hl Hr name time combined.
  destruct (saveToDrive_fresh combined (syncing w) Hl) as [Ef Et].
  change (tick (page (syncing w))) with (tick (page w)) in Ef, Et.
  change (trace (page (syncing w))) with (trace (page w)) in Et.
  rewrite Hr in Ef. fold name time in Et.
  unfold run, detach. unfold try_catch at 1.
  rewrite (drive_sync_submits w q Hon Hau Hq Hne). fold combined.
  unfold try_catch at 1, bind at 1.
  destruct (saveToDrive env cfg combined (syncing w)) as [[[] | e] w2];
    cbn [fst snd] in Ef, Et; [| discriminate].
  exec. rewrite Et. rewrite <- !app_assoc. reflexivity.
Qed.

(** The same when the document of the day exists: listing, download, one
    update carrying the old content and then the combined text. *)
Lemma drive_sync_trace_existing (w : World STATE) q f fs existing :
  isOnline (state w) = true ->
  isAuthenticated (state w) = true ->
  stored_queue (page w) = Some q ->
  q <> [] ->
  files_list_outcome env (1 + tick (page w)) = inr (f :: fs) ->
  files_get_outcome env (2 + tick (page w)) = inr existing ->
  truthy (file_id f) = true ->
  request_outcome env (4 + tick (page w)) = None ->
  let name := fileName_of (clock env (tick (page w))) in
  let time := toLocaleTimeString_ja (clock env (3 + tick (page w))) in
  let combined := concat (map synced_note q) in
  trace (page (run (syncPendingData env cfg) w))
  = trace (page w)
    ++ [list_call name (FOLDER_ID cfg); get_call (file_id f);
        update_call name (file_id f) (trim (existing ++ newEntry_of time combined));
        ERemoveItem pending_memos;
        ESetTimeout (CbStatus (lit "ONLINE") (lit "online")) 2000].
Proof.
  intros Hon Hau Hq Hne Hl Hg Hid Hr name time combined.
  destruct (saveToDrive_existing combined (syncing w) f fs existing
              Hl Hg Hid) as [Ef Et].
  change (tick (page (syncing w))) with (tick (page w)) in Ef, Et.
  change (trace (page (syncing w))) with (trace (page w)) in Et.
  rewrite Hr in Ef. fold name time in Et.
  unfold run, detach. unfold try_catch at 1.
  rewrite (drive_sync_submits w q Hon Hau Hq Hne). fold combined.
  unfold try_catch at 1, bind at 1.
  destruct (saveToDrive env cfg combined (syncing w)) as [[[] | e] w2];
    cbn [fst snd] in Ef, Et; [| discriminate].
  exec. rewrite Et. rewrite <- !app_assoc. reflexivity.
Qed.
(** No handler but the two that write [saveBtn.disabled = false] can
    enable the save control. *)
Lemma drive_disabled_is_kept (w : World STATE) e :
  saveDisabled (page w) = true ->
  saveDisabled (page (step env cfg e w)) = false ->
  (exists v, e = Input v) \/ (exists ev, e = RecognitionResult ev).
Proof.
  intros Hd Hen.
  destruct e; try (left; eexists; reflexivity); try (right; eexists; reflexivity);
    exfalso; revert Hen; cbn [step];
    try rewrite Hd;
    try (destruct (authButton (state w)));
    try (destruct (tokenClient (state w)) as [[|] |]);
    try (destruct (timers (page w) !! i) as [[cb ?] |]);
    try (rewrite Hd; discriminate);
    match goal with
    | |- saveDisabled (page (run ?m w)) = false -> False =>
        enough (saveDisabled (page (run m w)) = true) as -> by discriminate;
        apply (keeps_run (fun w => saveDisabled (page w) = true)); [| | exact Hd]
    end;
    try (intros ? ? ?; assumption).
  all: unfold script, onload, onstart, onend, micBtn_onclick, ononline, onoffline,
         fire, detach, token_callback, handleAuthClick, initGapi, initGis,
         initGis_body,
         maybeEnableAuth, renderAuthButton, syncPendingData, saveToDrive,
         getFileName, initDateDisplay, checkOnlineStatus, loadOfflineData,
         modify_state, read_pending, getItem, parse, console, alert, setTimeout,
         removeItem, updateStatus.
  all: keeps_structure; cbv zeta; keeps_structure.
  all: unfold new_Date, read_onLine, files_list, files_get, gapi_request,
         gapi_getToken, modify_page, put_state.
  all: intros ? ?; cbn;
       repeat match goal with
       | |- context [match ?x with _ => _ end] => destruct x
       end; assumption.
Qed.

End Facts.
End DriveFacts.

(** ** Formats of the clock readings *)

Section Formats.

Lemma below_forallb (f : N -> bool) (k : N) :
  forallb f (map N.of_nat (seq 0 (N.to_nat k))) = true ->
  forall n, n < k -> f n = true.
Proof.
  intros H n Hn. rewrite forallb_forall in H. apply H.
  apply in_map_iff. exists (N.to_nat n). split; [apply N2Nat.id |].
  apply in_seq. lia.
Qed.

Lemma units_eqb_eq a : forall b, units_eqb a b = true -> a = b.
Proof.
  induction a as [| x a IH]; intros [| y b] H; cbn in H; try discriminate.
  - reflexivity.
  - apply andb_true_iff in H as [Hx Hr]. apply N.eqb_eq in Hx.
    rewrite Hx, (IH b Hr). reflexivity.
Qed.

Lemma pad2_digits n : n < 100 -> pad2 n = digits2 n.
Proof.
  intros H. apply units_eqb_eq.
  apply (below_forallb (fun n => units_eqb (pad2 n) (digits2 n)) 100);
    [vm_compute; reflexivity | exact H].
Qed.

Lemma pad3_digits n : n < 1000 -> pad3 n = digits3 n.
Proof.
  intros H. apply units_eqb_eq.
  apply (below_forallb (fun n => units_eqb (pad3 n) (digits3 n)) 1000);
    [vm_compute; reflexivity | exact H].
Qed.

Lemma pad4_digits n : n < 10000 -> pad4 n = digits4 n.
Proof.
  intros H. apply units_eqb_eq.
  apply (below_forallb (fun n => units_eqb (pad4 n) (digits4 n)) 10000);
    [vm_compute; reflexivity | exact H].
Qed.

(** From 1000 on a year needs no padding. *)
Lemma year_digits y :
  (1000 <= y <= 9999)%Z -> String_of_Z y = digits4 (Z.to_N y).
Proof.
  intros H.
  assert (String_of_Z y = String_of_N (Z.to_N y)) as ->.
  { destruct y; cbn; try reflexivity; lia. }
  assert (1000 <= Z.to_N y < 10000) as Hn by lia.
  generalize dependent (Z.to_N y). clear. intros n Hn.
  pose proof (below_forallb
                (fun n => (n <? 1000) || units_eqb (String_of_N n) (digits4 n)) 10000
                ltac:(vm_compute; reflexivity) n ltac:(lia)) as D.
  cbv beta in D. apply orb_true_iff in D as [D | D].
  - apply N.ltb_lt in D. lia.
  - apply units_eqb_eq, D.
Qed.

Lemma is_digit_digit k : k < 10 -> is_digit (digit k) = true.
Proof.
  intros H. unfold is_digit, digit. apply andb_true_iff.
  split; apply N.leb_le; lia.
Qed.

Lemma digits2_ok n : n < 100 -> forallb is_digit (digits2 n) = true.
Proof.
  intros H. unfold digits2. cbn [forallb].
  rewrite !is_digit_digit; [reflexivity | |].
  - apply N.mod_lt. discriminate.
  - apply N.Div0.div_lt_upper_bound. lia.
Qed.

Lemma digits3_ok n : n < 1000 -> forallb is_digit (digits3 n) = true.
Proof.
  intros H. unfold digits3. cbn [forallb].
  rewrite !is_digit_digit; [reflexivity | | |].
  - apply N.mod_lt. discriminate.
  - apply N.mod_lt. discriminate.
  - apply N.Div0.div_lt_upper_bound. lia.
Qed.

Lemma digits4_ok n : n < 10000 -> forallb is_digit (digits4 n) = true.
Proof.
  intros H. unfold digits4. cbn [forallb].
  rewrite !is_digit_digit; [reflexivity | | | |].
  - apply N.mod_lt. discriminate.
  - apply N.mod_lt. discriminate.
  - apply N.mod_lt. discriminate.
  - apply N.Div0.div_lt_upper_bound. lia.
Qed.

Lemma toLocaleTimeString_format d :
  getHours d <= 23 -> getMinutes d <= 59 ->
  toLocaleTimeString_ja d = digits2 (getHours d) ++ lit ":" ++ digits2 (getMinutes d).
Proof.
  intros Hh Hm. unfold toLocaleTimeString_ja.
  rewrite !pad2_digits by lia. reflexivity.
Qed.

Lemma toISOString_format d :
  plausible_date d ->
  toISOString d
  = digits4 (Z.to_N (getUTCFullYear d)) ++ lit "-" ++ digits2 (getUTCMonth d + 1)
    ++ lit "-" ++ digits2 (getUTCDate d) ++ lit "T" ++ digits2 (getUTCHours d)
    ++ lit ":" ++ digits2 (getUTCMinutes d) ++ lit ":" ++ digits2 (getUTCSeconds d)
    ++ lit "." ++ digits3 (getUTCMilliseconds d) ++ lit "Z".
Proof.
  intros (_ & _ & _ & _ & _ & _ & Hy & Hmo & Hd & Hh & Hmi & Hs & Hms).
  unfold toISOString, iso_year.
  assert ((0 <=? getUTCFullYear d)%Z && (getUTCFullYear d <=? 9999)%Z = true) as ->.
  { apply andb_true_iff. split; apply Z.leb_le; lia. }
  rewrite pad4_digits by lia. rewrite !pad2_digits by lia.
  rewrite pad3_digits by lia. reflexivity.
Qed.

Lemma toISOString_shape d :
  plausible_date d -> iso8601_shape (toISOString d) = true.
Proof.
  intros H. rewrite (toISOString_format d H).
  destruct H as (_ & _ & _ & _ & _ & _ & Hy & Hmo & Hd & Hh & Hmi & Hs & Hms).
  pose proof (digits4_ok (Z.to_N (getUTCFullYear d)) ltac:(lia)) as D4.
  pose proof (digits2_ok (getUTCMonth d + 1) ltac:(lia)) as D1.
  pose proof (digits2_ok (getUTCDate d) ltac:(lia)) as D2.
  pose proof (digits2_ok (getUTCHours d) ltac:(lia)) as D3.
  pose proof (digits2_ok (getUTCMinutes d) ltac:(lia)) as D5.
  pose proof (digits2_ok (getUTCSeconds d) ltac:(lia)) as D6.
  pose proof (digits3_ok (getUTCMilliseconds d) ltac:(lia)) as D7.
  unfold digits4, digits3, digits2 in *.
  cbn [forallb] in D4, D1, D2, D3, D5, D6, D7.
  repeat match goal with
  | H : _ && _ = true |- _ => apply andb_true_iff in H; destruct H
  end.
  change (lit "-") with [0x2D]. change (lit "T") with [0x54].
  change (lit ":") with [0x3A]. change (lit ".") with [0x2E].
  change (lit "Z") with [0x5A].
  cbn [app iso8601_shape forallb].
  repeat match goal with
  | H : is_digit _ = true |- _ => rewrite H; clear H
  end.
  reflexivity.
Qed.

Lemma fileName_format d :
  plausible_date d ->
  Drive.fileName_of d
  = digits4 (Z.to_N (getFullYear d)) ++ lit "-" ++ digits2 (getMonth d + 1)
    ++ lit "-" ++ digits2 (getDate d) ++ lit ".md".
Proof.
  intros (Hy & Hmo & Hd & _).
  unfold Drive.fileName_of. cbv zeta.
  rewrite year_digits by lia.
  fold (pad2 (getMonth d + 1)). fold (pad2 (getDate d)).
  rewrite !pad2_digits by lia. reflexivity.
Qed.

Lemma fileName_shape d :
  plausible_date d -> day_file_shape (Drive.fileName_of d) = true.
Proof.
  intros H. rewrite (fileName_format d H).
  destruct H as (Hy & Hmo & Hd & _).
  pose proof (digits4_ok (Z.to_N (getFullYear d)) ltac:(lia)) as D4.
  pose proof (digits2_ok (getMonth d + 1) ltac:(lia)) as D1.
  pose proof (digits2_ok (getDate d) ltac:(lia)) as D2.
  unfold digits4, digits2 in *.
  cbn [forallb] in D4, D1, D2.
  repeat match goal with
  | H : _ && _ = true |- _ => apply andb_true_iff in H; destruct H
  end.
  change (lit "-") with [0x2D]. change (lit ".md") with [0x2E; 0x6D; 0x64].
  cbn [app day_file_shape forallb].
  repeat match goal with
  | H : is_digit _ = true |- _ => rewrite H; clear H
  end.
  reflexivity.
Qed.

Lemma fileName_same_day d1 d2 :
  getFullYear d1 = getFullYear d2 -> getMonth d1 = getMonth d2 ->
  getDate d1 = getDate d2 ->
  Drive.fileName_of d1 = Drive.fileName_of d2.
Proof. intros Hy Hm Hd. unfold Drive.fileName_of. rewrite Hy, Hm, Hd. reflexivity. Qed.

End Formats.

(** ** The queue slot stays readable

    Every write to [pending_memos] is a [JSON.stringify] of a queue and the
    only other change is its removal, so a slot that [JSON.parse] reads at
    the start of a session is read by it at every later point. *)

Section Readable.
Context (env : Env) {J : JSONParse}.

Lemma readable_storage {S} (w : World S) (p : Page) :
  localStorage p = localStorage (page w) ->
  readable w -> readable (mkWorld (state w) p).
Proof. unfold readable, stored_queue. cbn. intros ->. trivial. Qed.

Ltac readable_leaf :=
  let w := fresh "w" in
  let H := fresh "H" in
  intros w H; cbn;
  repeat match goal with
  | |- context [match ?x with _ => _ end] => destruct x
  end;
  first
    [ exact H
    | apply (readable_storage w); [reflexivity | exact H]
    | eexists; eapply stored_queue_insert; cbn; reflexivity
    | eexists; eapply stored_queue_delete; cbn; reflexivity ].

Lemma relay_queue_stays_readable (w : World Relay.appState) e :
  readable w -> readable (Relay.step env e w).
Proof.
  intros H. destruct e; cbn [Relay.step];
    try (destruct (saveDisabled (page w)));
    try (destruct (timers (page w) !! i) as [[cb ?] |]);
    try exact H;
    (apply (keeps_run readable);
       [| intros ?; unfold modify_page; readable_leaf | exact H]).
  all: unfold Relay.script, Relay.onload, Relay.onstart, Relay.onend,
         Relay.micBtn_onclick, Relay.ononline, Relay.onoffline, Relay.saveBtn_onclick,
         Relay.handleSaveFailure, Relay.saveTextLocally, saveToLocal, onresult, oninput,
         fire_status, detach, Relay.syncOfflineMemosToSheet,
         Relay.initializeDateDisplay, Relay.updateOnlineStatusDisplay,
         Relay.checkOfflineUnsavedMemos, Relay.set_isListening, Relay.set_isOnline,
         Relay.updateAppStatusMessage, Relay.sendMemoToSheet, read_pending,
         getItem, parse, console, alert, setTimeout, removeItem, setItem, updateStatus.
  all: keeps_structure; cbv zeta; keeps_structure.
  all: unfold new_Date, read_onLine, fetch, modify_page, put_state.
  all: readable_leaf.
Qed.

Lemma drive_queue_stays_readable cfg (w : World Drive.STATE) e :
  readable w -> readable (Drive.step env cfg e w).
Proof.
  intros H. destruct e; cbn [Drive.step];
    try (destruct (saveDisabled (page w)));
    try (destruct (Drive.authButton (state w)));
    try (destruct (Drive.tokenClient (state w)) as [[|] |]);
    try (destruct (timers (page w) !! i) as [[cb ?] |]);
    try exact H;
    (apply (keeps_run readable);
       [| intros ?; unfold modify_page; readable_leaf | exact H]).
  all: unfold Drive.script, Drive.onload, Drive.onstart, Drive.onend,
         Drive.micBtn_onclick, Drive.ononline, Drive.onoffline, Drive.saveBtn_onclick,
         saveToLocal, onresult, oninput, Drive.fire, detach, Drive.token_callback,
         Drive.handleAuthClick, Drive.initGapi, Drive.initGis, Drive.initGis_body,
    Drive.maybeEnableAuth,
         Drive.renderAuthButton, Drive.syncPendingData, Drive.saveToDrive,
         Drive.getFileName, Drive.initDateDisplay, Drive.checkOnlineStatus,
         Drive.loadOfflineData, Drive.modify_state, read_pending, getItem, parse,
         console, alert, setTimeout, removeItem, setItem, updateStatus.
  all: keeps_structure; cbv zeta; keeps_structure.
  all: unfold new_Date, read_onLine, Drive.files_list, Drive.files_get,
         Drive.gapi_request, Drive.gapi_getToken, modify_page, put_state.
  all: readable_leaf.
Qed.

Lemma relay_session_readable es : forall w : World Relay.appState,
  readable w -> readable (Relay.steps env es w).
Proof.
  induction es as [| e es IH]; intros w H; [exact H |].
  unfold Relay.steps. cbn [fold_left]. apply IH, relay_queue_stays_readable, H.
Qed.

Lemma drive_session_readable cfg es : forall w : World Drive.STATE,
  readable w -> readable (Drive.steps env cfg es w).
Proof.
  induction es as [| e es IH]; intros w H; [exact H |].
  unfold Drive.steps. cbn [fold_left]. apply IH, drive_queue_stays_readable, H.
Qed.

End Readable.

(** * The claims *)

(** C1.  An online save whose remote call fails: the trimmed text is
    written to the queue slot ([pending_memos]) before the blocking notice
    is shown, the slot then reads back as the old queue with the note
    appended, the editor keeps its content, and the notice carries the
    failure's message.  Relay variant: the POST of the save throws [err].
    Drive variant: [saveToDrive] throws [err], at whichever of its calls. *)
Theorem failed_save_keeps_input :
  (forall (env : Env) (J : JSONParse) (w : World Relay.appState) q err,
     Relay.isOnline (state w) = true ->
     truthy (trim (memoText (page w))) = true ->
     stored_queue (page w) = Some q ->
     fetch_outcome env (1 + tick (page w)) = Some err ->
     let t := trim (memoText (page w)) in
     let w' := run (Relay.saveBtn_onclick env) w in
     let memo := mkMemo t (toISOString (clock env (2 + tick (page w)))) in
     let notice :=
       Relay.s_alert_prefix ++ or_else (default [] (err_message err)) (err_json err) in
     stored_queue (page w') = Some (q ++ [memo]) /\
     memoText (page w') = memoText (page w) /\
     trace (page w')
       = trace (page w)
         ++ [Relay.post_of t (clock env (tick (page w)));
             EConsole (lit "error") Relay.s_save_failed_log (Some err);
             ESetItem pending_memos (JSON.stringify (q ++ [memo]));
             EAlert notice] /\
     (forall m, err_message err = Some m -> contains notice m = true))
  /\
  (forall (env : Env) (J : JSONParse) (cfg : Drive.Config)
          (w w2 : World Drive.STATE) q err,
     Drive.isOnline (state w) = true ->
     Drive.isAuthenticated (state w) = true ->
     truthy (trim (memoText (page w))) = true ->
     stored_queue (page w) = Some q ->
     let t := trim (memoText (page w)) in
     Drive.saveToDrive env cfg t (Drive.saving w) = (Throw err, w2) ->
     let w' := run (Drive.saveBtn_onclick env cfg) w in
     let memo := mkMemo t (toISOString (clock env (tick (page w2)))) in
     let notice := Drive.s_alert_prefix ++ Drive.errMsg_of err in
     stored_queue (page w') = Some (q ++ [memo]) /\
     memoText (page w') = memoText (page w) /\
     trace (page w')
       = trace (page w2)
         ++ [EConsole (lit "error") (lit "Save failed") (Some err);
             ESetItem pending_memos (JSON.stringify (q ++ [memo]));
             EAlert notice] /\
     (forall m, err_result_error_message err = Some m -> contains notice m = true) /\
     (forall m, truthy (default [] (err_result_error_message err)) = false ->
        err_message err = Some m -> contains notice m = true)).
Proof.
  split.
  - intros env J w q err Hon Ht Hq Hf t w' memo notice.
    destruct (RelayFacts.relay_failed_save env w q err Hon Ht Hq Hf)
      as (H1 & _ & H3 & _ & H5).
    repeat split; try assumption.
    intros m Hm. apply RelayFacts.relay_notice_has_message, Hm.
  - intros env J cfg w w2 q err Hon Hau Ht Hq t Hfail w' memo notice.
    destruct (DriveFacts.drive_failed_save env cfg w w2 q err Hon Hau Ht Hq Hfail)
      as (H1 & _ & H3 & _ & H5).
    destruct (DriveFacts.drive_notice_has_message err) as [N1 N2].
    repeat split; try assumption.
Qed.

Lemma failed_save_keeps_input_witness :
  (let w' := run (Relay.saveBtn_onclick Sample.down)
               (Sample.relay true (lit " bread ") Sample.two_queued) in
   memoText (page w') = lit " bread " /\
   stored_queue (page w')
   = Some [Sample.milk; Sample.eggs;
           mkMemo (lit "bread") (lit "2026-02-20T13:54:07.042Z")])
  /\
  (let w' := run (Drive.saveBtn_onclick Sample.down Sample.cfg)
               (Sample.drive true true (lit " bread ") Sample.two_queued) in
   memoText (page w') = lit " bread " /\
   stored_queue (page w')
   = Some [Sample.milk; Sample.eggs;
           mkMemo (lit "bread") (lit "2026-02-20T13:54:07.042Z")]).
Proof.
  split.
  - destruct (proj1 failed_save_keeps_input Sample.down reader_parse
                (Sample.relay true (lit " bread ") Sample.two_queued)
                [Sample.milk; Sample.eggs] Sample.refused
                eq_refl eq_refl eq_refl eq_refl) as (H1 & H2 & _).
    cbv zeta. rewrite H1. split; [exact H2 | reflexivity].
  - destruct (proj2 failed_save_keeps_input Sample.down reader_parse Sample.cfg
                (Sample.drive true true (lit " bread ") Sample.two_queued)
                (snd (Drive.saveToDrive Sample.down Sample.cfg (lit "bread")
                        (Drive.saving
                           (Sample.drive true true (lit " bread ") Sample.two_queued))))
                [Sample.milk; Sample.eggs] Sample.forbidden
                eq_refl eq_refl eq_refl eq_refl eq_refl) as (H1 & H2 & _).
    cbv zeta. rewrite H1. split; [exact H2 | reflexivity].
Defined.

(** C2.  Sync is all-or-nothing on the queue slot.  On a viable run over a
    non-empty queue: when every submission succeeds the key
    [pending_memos] is removed (a lookup finds nothing, the slot is not an
    empty list), and when a submission faults device storage is exactly
    what it was.  Relay variant: the note of index [i] is posted at
    interaction [1 + (tick + 2 i)], after its clock reading.  Drive variant:
    the one submission is the call of [saveToDrive] on the combined text. *)
Theorem sync_all_or_nothing :
  (forall (env : Env) (J : JSONParse) (w : World Relay.appState) q,
     Relay.isOnline (state w) = true ->
     stored_queue (page w) = Some q ->
     q <> [] ->
     let w' := run (Relay.syncOfflineMemosToSheet env) w in
     ((forall i, (i < length q)%nat ->
         fetch_outcome env (1 + (tick (page w) + 2 * i)) = None) ->
      localStorage (page w') !! pending_memos = None /\
      localStorage (page w') = delete pending_memos (localStorage (page w))) /\
     (forall i, (i < length q)%nat ->
        fetch_outcome env (1 + (tick (page w) + 2 * i)) <> None ->
        localStorage (page w') = localStorage (page w)))
  /\
  (forall (env : Env) (J : JSONParse) (cfg : Drive.Config) (w : World Drive.STATE) q,
     Drive.isOnline (state w) = true ->
     Drive.isAuthenticated (state w) = true ->
     stored_queue (page w) = Some q ->
     q <> [] ->
     let w' := run (Drive.syncPendingData env cfg) w in
     let submission :=
       fst (Drive.saveToDrive env cfg (concat (map Drive.synced_note q))
              (Drive.syncing w)) in
     (submission = Normal tt ->
      localStorage (page w') !! pending_memos = None /\
      localStorage (page w') = delete pending_memos (localStorage (page w))) /\
     (forall e, submission = Throw e ->
        localStorage (page w') = localStorage (page w))).
Proof.
  split.
  - intros env J w q Hon Hq Hne.
    exact (RelayFacts.relay_sync_clears_or_keeps env w q Hon Hq Hne).
  - intros env J cfg w q Hon Hau Hq Hne w' submission.
    pose proof (DriveFacts.drive_sync_outcome env cfg w q Hon Hau Hq Hne) as H.
    cbv zeta in H. fold w' submission in H.
    split.
    + intros E. rewrite E in H. exact H.
    + intros e E. rewrite E in H. exact H.
Qed.

Lemma sync_all_or_nothing_witness :
  (localStorage
     (page (run (Relay.syncOfflineMemosToSheet Sample.calm)
              (Sample.relay true [] Sample.two_queued))) !! pending_memos = None /\
   localStorage
     (page (run (Relay.syncOfflineMemosToSheet Sample.down)
              (Sample.relay true [] Sample.two_queued))) !! pending_memos
   = Sample.two_queued)
  /\
  (localStorage
     (page (run (Drive.syncPendingData Sample.calm Sample.cfg)
              (Sample.drive true true [] Sample.two_queued))) !! pending_memos = None /\
   localStorage
     (page (run (Drive.syncPendingData Sample.down Sample.cfg)
              (Sample.drive true true [] Sample.two_queued))) !! pending_memos
   = Sample.two_queued).
Proof.
  assert ([Sample.milk; Sample.eggs] <> []) as Hne by discriminate.
  split; split.
  - apply (proj1 sync_all_or_nothing Sample.calm reader_parse
             (Sample.relay true [] Sample.two_queued) [Sample.milk; Sample.eggs]
             eq_refl eq_refl Hne).
    intros i _. reflexivity.
  - rewrite (proj2 (proj1 sync_all_or_nothing Sample.down reader_parse
                      (Sample.relay true [] Sample.two_queued)
                      [Sample.milk; Sample.eggs] eq_refl eq_refl Hne) 0%nat).
    + reflexivity.
    + cbn. lia.
    + discriminate.
  - apply (proj2 sync_all_or_nothing Sample.calm reader_parse Sample.cfg
             (Sample.drive true true [] Sample.two_queued) [Sample.milk; Sample.eggs]
             eq_refl eq_refl eq_refl Hne).
    reflexivity.
  - rewrite (proj2 (proj2 sync_all_or_nothing Sample.down reader_parse Sample.cfg
                      (Sample.drive true true [] Sample.two_queued)
                      [Sample.milk; Sample.eggs] eq_refl eq_refl eq_refl Hne)
               Sample.forbidden).
    + reflexivity.
    + reflexivity.
Defined.

(** C3.  The entry a drive save appends is a line feed, the heading
    [## HH:MM] (two-digit hour and minute of the clock), a line feed, the
    note text and a line feed; the body uploaded is the existing content of
    the day's document (or the empty string when there is none) followed
    by that entry, the whole trimmed.  This is the claim with its three
    blank lines replaced by what the template has, single line feeds; as
    worded it does not hold ([drive_entry_has_no_blank_line]). *)
Theorem drive_entry_and_body :
  forall (env : Env) (cfg : Drive.Config) (w : World Drive.STATE) (content : jsstring),
    (forall f fs existing,
       files_list_outcome env (1 + tick (page w)) = inr (f :: fs) ->
       files_get_outcome env (2 + tick (page w)) = inr existing ->
       truthy (file_id f) = true ->
       let now := clock env (3 + tick (page w)) in
       getHours now <= 23 -> getMinutes now <= 59 ->
       let name := Drive.fileName_of (clock env (tick (page w))) in
       let heading := lit "## " ++ digits2 (getHours now) ++ lit ":"
                      ++ digits2 (getMinutes now) in
       let entry := nl ++ heading ++ nl ++ content ++ nl in
       trace (page (snd (Drive.saveToDrive env cfg content w)))
       = trace (page w)
         ++ [Drive.list_call name (Drive.FOLDER_ID cfg); Drive.get_call (file_id f);
             Drive.update_call name (file_id f) (trim (existing ++ entry))])
    /\
    (files_list_outcome env (1 + tick (page w)) = inr [] ->
     let now := clock env (2 + tick (page w)) in
     getHours now <= 23 -> getMinutes now <= 59 ->
     let name := Drive.fileName_of (clock env (tick (page w))) in
     let heading := lit "## " ++ digits2 (getHours now) ++ lit ":"
                    ++ digits2 (getMinutes now) in
     let entry := nl ++ heading ++ nl ++ content ++ nl in
     trace (page (snd (Drive.saveToDrive env cfg content w)))
     = trace (page w)
       ++ [Drive.list_call name (Drive.FOLDER_ID cfg);
           Drive.create_call name (Drive.FOLDER_ID cfg) (trim ([] ++ entry))]).
Proof.
  intros env cfg w content. split.
  - intros f fs existing Hl Hg Hid now Hh Hm name heading entry.
    destruct (DriveFacts.saveToDrive_existing env cfg content w f fs existing Hl Hg Hid)
      as [_ E].
    rewrite E. fold now. rewrite (toLocaleTimeString_format now Hh Hm).
    unfold Drive.newEntry_of. subst entry heading.
    rewrite <- !app_assoc. reflexivity.
  - intros Hl now Hh Hm name heading entry.
    destruct (DriveFacts.saveToDrive_fresh env cfg content w Hl) as [_ E].
    rewrite E. fold now. rewrite (toLocaleTimeString_format now Hh Hm).
    unfold Drive.newEntry_of. subst entry heading.
    rewrite <- !app_assoc. reflexivity.
Qed.

Lemma drive_entry_and_body_witness :
  (exists name id,
     last (trace (page (snd (Drive.saveToDrive Sample.found Sample.cfg (lit "second ")
                               (Sample.drive true true [] Sample.empty_slot)))))
     = Some (Drive.update_call name id
               (lit "## 09:00" ++ nl ++ lit "first" ++ nl ++ lit "## 22:54" ++ nl
                ++ lit "second")))
  /\
  (exists name folder,
     last (trace (page (snd (Drive.saveToDrive Sample.calm Sample.cfg (lit "second ")
                               (Sample.drive true true [] Sample.empty_slot)))))
     = Some (Drive.create_call name folder (lit "## 22:54" ++ nl ++ lit "second"))).
Proof.
  split.
  - eexists _, _.
    rewrite (proj1 (drive_entry_and_body Sample.found Sample.cfg
                      (Sample.drive true true [] Sample.empty_slot) (lit "second "))
               Sample.todays_file [] (lit "## 09:00" ++ nl ++ lit "first")
               eq_refl eq_refl eq_refl).
    + reflexivity.
    + vm_compute. discriminate.
    + vm_compute. discriminate.
  - eexists _, _.
    rewrite (proj2 (drive_entry_and_body Sample.calm Sample.cfg
                      (Sample.drive true true [] Sample.empty_slot) (lit "second "))
               eq_refl).
    + reflexivity.
    + vm_compute. discriminate.
    + vm_compute. discriminate.
Defined.

(** C3, the counterexample to the wording.  At 22:54 the note [second] is
    saved into a document that holds [## 09:00], [first].  The entry the
    code appends differs from the entry as worded: it has no blank line
    between the heading and the text, and its last line is the text, not a
    blank line.  The body uploaded has no blank line anywhere, where the
    worded entry would leave one after the new heading. *)
Lemma drive_entry_has_no_blank_line :
  let existing := lit "## 09:00" ++ nl ++ lit "first" in
  let code_entry := Drive.newEntry_of (lit "22:54") (lit "second") in
  let worded_entry := entry_as_worded (lit "22:54") (lit "second") in
  units_eqb code_entry worded_entry = false /\
  has_blank_line code_entry = false /\
  has_blank_line worded_entry = true /\
  last (trace (page (snd (Drive.saveToDrive Sample.found Sample.cfg (lit "second")
                            (Sample.drive true true [] Sample.empty_slot)))))
  = Some (Drive.update_call (lit "2026-02-20.md") (lit "1AbC")
            (trim (existing ++ code_entry))) /\
  has_blank_line (trim (existing ++ code_entry)) = false /\
  has_blank_line (trim (existing ++ worded_entry)) = true.
Proof. vm_compute. repeat split; reflexivity. Qed.

(** C4.  A sync on a path that is not viable (offline; in the drive
    variant also not signed in), or on an empty queue, does nothing at
    all: it returns normally and the world (status, storage, timers,
    trace of calls) is the one it started from. *)
Theorem sync_noop_when_not_viable_or_empty :
  (forall (env : Env) (J : JSONParse) (w : World Relay.appState),
     Relay.isOnline (state w) = false \/ stored_queue (page w) = Some [] ->
     Relay.syncOfflineMemosToSheet env w = (Normal tt, w) /\
     run (Relay.syncOfflineMemosToSheet env) w = w)
  /\
  (forall (env : Env) (J : JSONParse) (cfg : Drive.Config) (w : World Drive.STATE),
     Drive.isOnline (state w) = false \/ Drive.isAuthenticated (state w) = false
     \/ stored_queue (page w) = Some [] ->
     Drive.syncPendingData env cfg w = (Normal tt, w) /\
     run (Drive.syncPendingData env cfg) w = w).
Proof.
  split.
  - intros env J w H.
    pose proof (RelayFacts.relay_sync_noop env w H) as E.
    split; [exact E |]. unfold run, detach, try_catch. rewrite E. reflexivity.
  - intros env J cfg w H.
    pose proof (DriveFacts.drive_sync_noop env cfg w H) as E.
    split; [exact E |]. unfold run, detach, try_catch. rewrite E. reflexivity.
Qed.

Lemma sync_noop_when_not_viable_or_empty_witness :
  (run (Relay.syncOfflineMemosToSheet Sample.calm)
     (Sample.relay false [] Sample.two_queued)
   = Sample.relay false [] Sample.two_queued /\
   run (Relay.syncOfflineMemosToSheet Sample.calm)
     (Sample.relay true [] Sample.empty_slot)
   = Sample.relay true [] Sample.empty_slot)
  /\
  (run (Drive.syncPendingData Sample.calm Sample.cfg)
     (Sample.drive true false [] Sample.two_queued)
   = Sample.drive true false [] Sample.two_queued /\
   run (Drive.syncPendingData Sample.calm Sample.cfg)
     (Sample.drive true true [] Sample.empty_slot)
   = Sample.drive true true [] Sample.empty_slot).
Proof.
  split; split.
  - apply (proj1 sync_noop_when_not_viable_or_empty Sample.calm reader_parse).
    left. reflexivity.
  - apply (proj1 sync_noop_when_not_viable_or_empty Sample.calm reader_parse).
    right. reflexivity.
  - apply (proj2 sync_noop_when_not_viable_or_empty Sample.calm reader_parse).
    right. left. reflexivity.
  - apply (proj2 sync_noop_when_not_viable_or_empty Sample.calm reader_parse).
    right. right. reflexivity.
Defined.

Lemma network_calls_app t es :
  network_calls es = [] -> network_calls (t ++ es) = network_calls t.
Proof.
  intros H. unfold network_calls in *. rewrite filter_app, H. apply app_nil_r.
Qed.

(** C5.  A save of non-blank text while the remote path is not viable
    (offline; in the drive variant also online but not signed in): the
    queue slot then reads back as the old queue followed by exactly one
    note, whose text is the trimmed editor content and whose timestamp is
    the clock's ISO-8601 instant; the editor is empty; the trace of the
    handler holds the storage write and the status timer and no outbound
    call. *)
Theorem offline_save_enqueues :
  (forall (env : Env) (J : JSONParse) (w : World Relay.appState) q,
     Relay.isOnline (state w) = false ->
     truthy (trim (memoText (page w))) = true ->
     stored_queue (page w) = Some q ->
     plausible_date (clock env (tick (page w))) ->
     let w' := run (Relay.saveBtn_onclick env) w in
     let memo := mkMemo (trim (memoText (page w)))
                   (toISOString (clock env (tick (page w)))) in
     stored_queue (page w') = Some (q ++ [memo]) /\
     iso8601_shape (timestamp memo) = true /\
     memoText (page w') = [] /\
     trace (page w')
       = trace (page w)
         ++ [ESetItem pending_memos (JSON.stringify (q ++ [memo]));
             ESetTimeout (CbStatus (lit "OFFLINE") (lit "offline")) 2000] /\
     network_calls (trace (page w')) = network_calls (trace (page w)))
  /\
  (forall (env : Env) (J : JSONParse) (cfg : Drive.Config) (w : World Drive.STATE) q,
     Drive.isOnline (state w) = false \/ Drive.isAuthenticated (state w) = false ->
     truthy (trim (memoText (page w))) = true ->
     stored_queue (page w) = Some q ->
     plausible_date (clock env (tick (page w))) ->
     let w' := run (Drive.saveBtn_onclick env cfg) w in
     let memo := mkMemo (trim (memoText (page w)))
                   (toISOString (clock env (tick (page w)))) in
     stored_queue (page w') = Some (q ++ [memo]) /\
     iso8601_shape (timestamp memo) = true /\
     memoText (page w') = [] /\
     trace (page w')
       = trace (page w)
         ++ [ESetItem pending_memos (JSON.stringify (q ++ [memo]));
             ESetTimeout (CbStatus (lit "OFFLINE") (lit "offline")) 2000] /\
     network_calls (trace (page w')) = network_calls (trace (page w))).
Proof.
  split.
  - intros env J w q Hoff Ht Hq Hd w' memo.
    destruct (RelayFacts.relay_offline_save env w q Hoff Ht Hq) as (H1 & _ & H3 & H4).
    repeat split; try assumption.
    + apply toISOString_shape, Hd.
    + fold w' memo in H4. rewrite H4. apply network_calls_app. reflexivity.
  - intros env J cfg w q Hoff Ht Hq Hd w' memo.
    assert (Drive.isOnline (state w) && Drive.isAuthenticated (state w) = false) as Hv.
    { destruct Hoff as [-> | ->]; [reflexivity | apply andb_false_r]. }
    destruct (DriveFacts.drive_offline_save env cfg w q Hv Ht Hq) as (H1 & _ & H3 & H4).
    repeat split; try assumption.
    + apply toISOString_shape, Hd.
    + fold w' memo in H4. rewrite H4. apply network_calls_app. reflexivity.
Qed.

Lemma plausible_2026_02_20 : plausible_date date_2026_02_20.
Proof. unfold plausible_date. cbn. lia. Qed.

Lemma offline_save_enqueues_witness :
  (let w' := run (Relay.saveBtn_onclick Sample.calm)
               (Sample.relay false (lit " bread ") Sample.two_queued) in
   stored_queue (page w')
   = Some [Sample.milk; Sample.eggs;
           mkMemo (lit "bread") (lit "2026-02-20T13:54:07.042Z")] /\
   memoText (page w') = [] /\ network_calls (trace (page w')) = [])
  /\
  (let w' := run (Drive.saveBtn_onclick Sample.calm Sample.cfg)
               (Sample.drive true false (lit " bread ") Sample.two_queued) in
   stored_queue (page w')
   = Some [Sample.milk; Sample.eggs;
           mkMemo (lit "bread") (lit "2026-02-20T13:54:07.042Z")] /\
   memoText (page w') = [] /\ network_calls (trace (page w')) = []).
Proof.
  split.
  - destruct (proj1 offline_save_enqueues Sample.calm reader_parse
                (Sample.relay false (lit " bread ") Sample.two_queued)
                [Sample.milk; Sample.eggs] eq_refl eq_refl eq_refl
                plausible_2026_02_20) as (H1 & _ & H3 & _ & H5).
    cbv zeta. rewrite H1, H3, H5. repeat split; reflexivity.
  - destruct (proj2 offline_save_enqueues Sample.calm reader_parse Sample.cfg
                (Sample.drive true false (lit " bread ") Sample.two_queued)
                [Sample.milk; Sample.eggs] (or_intror eq_refl) eq_refl eq_refl
                plausible_2026_02_20) as (H1 & _ & H3 & _ & H5).
    cbv zeta. rewrite H1, H3, H5. repeat split; reflexivity.
Defined.

(** C6.  The destination name of a drive save is [YYYY-MM-DD.md] for the
    local calendar date of the clock, month and day as two zero-padded
    digits (2026-02-20 gives [2026-02-20.md]); two readings of the same
    calendar date give the same name; and when the listing returns a
    document (with a non-empty id) the save downloads it and issues one
    PATCH to that document's upload path; whether or not the download
    succeeds, none of its calls is a create. *)
Theorem drive_file_name_and_update :
  (forall d, plausible_date d ->
     Drive.fileName_of d
     = digits4 (Z.to_N (getFullYear d)) ++ lit "-" ++ digits2 (getMonth d + 1)
       ++ lit "-" ++ digits2 (getDate d) ++ lit ".md" /\
     day_file_shape (Drive.fileName_of d) = true)
  /\ Drive.fileName_of date_2026_02_20 = lit "2026-02-20.md"
  /\ (forall d1 d2,
        getFullYear d1 = getFullYear d2 -> getMonth d1 = getMonth d2 ->
        getDate d1 = getDate d2 ->
        Drive.fileName_of d1 = Drive.fileName_of d2)
  /\ (forall (env : Env) (cfg : Drive.Config) (w : World Drive.STATE) content
             f fs existing,
        files_list_outcome env (1 + tick (page w)) = inr (f :: fs) ->
        files_get_outcome env (2 + tick (page w)) = inr existing ->
        truthy (file_id f) = true ->
        let name := Drive.fileName_of (clock env (tick (page w))) in
        exists final,
          trace (page (snd (Drive.saveToDrive env cfg content w)))
          = trace (page w)
            ++ [Drive.list_call name (Drive.FOLDER_ID cfg);
                Drive.get_call (file_id f);
                ERequest (lit "/upload/drive/v3/files/" ++ file_id f) (lit "PATCH")
                  (lit "multipart") (lit "multipart/related; boundary=foo_bar_baz")
                  (Drive.multipart (Drive.updateMetadata_of name) final)])
  /\ (forall (env : Env) (cfg : Drive.Config) (w : World Drive.STATE) content f fs,
        files_list_outcome env (1 + tick (page w)) = inr (f :: fs) ->
        truthy (file_id f) = true ->
        exists calls,
          trace (page (snd (Drive.saveToDrive env cfg content w)))
          = trace (page w) ++ calls /\
          existsb Drive.is_create calls = false).
Proof.
  split; [| split; [| split; [| split]]].
  - intros d Hd. split; [apply fileName_format | apply fileName_shape]; exact Hd.
  - reflexivity.
  - apply fileName_same_day.
  - intros env cfg w content f fs existing Hl Hg Hid name.
    destruct (DriveFacts.saveToDrive_existing env cfg content w f fs existing Hl Hg Hid)
      as [_ E].
    eexists. rewrite E. reflexivity.
  - intros env cfg w content f fs Hl Hid.
    destruct (files_get_outcome env (2 + tick (page w))) as [e | existing] eqn:Hg.
    + destruct (DriveFacts.saveToDrive_download_fails env cfg content w f fs e Hl Hg)
        as [_ E].
      eexists. split; [exact E | reflexivity].
    + destruct (DriveFacts.saveToDrive_existing env cfg content w f fs existing
                  Hl Hg Hid) as [_ E].
      eexists. split; [exact E | reflexivity].
Qed.

Lemma drive_file_name_and_update_witness :
  day_file_shape (Drive.fileName_of date_2026_02_20) = true /\
  exists final,
    trace (page (snd (Drive.saveToDrive Sample.found Sample.cfg (lit "second")
                        (Sample.drive true true [] Sample.empty_slot))))
    = [Drive.list_call (lit "2026-02-20.md") (lit "folder");
       Drive.get_call (lit "1AbC");
       ERequest (lit "/upload/drive/v3/files/1AbC") (lit "PATCH")
         (lit "multipart") (lit "multipart/related; boundary=foo_bar_baz")
         (Drive.multipart (Drive.updateMetadata_of (lit "2026-02-20.md")) final)].
Proof.
  split.
  - apply (proj1 drive_file_name_and_update date_2026_02_20 plausible_2026_02_20).
  - destruct (proj1 (proj2 (proj2 (proj2 drive_file_name_and_update))) Sample.found
                Sample.cfg
                (Sample.drive true true [] Sample.empty_slot) (lit "second")
                Sample.todays_file [] (lit "## 09:00" ++ nl ++ lit "first")
                eq_refl eq_refl eq_refl) as [final E].
    exists final. exact E.
Defined.

(** The loop of [onresult] keeps the final transcripts, in order. *)
Lemma final_transcript_fold l : forall acc,
  fold_left (fun acc r => if isFinal r then acc ++ transcript0 r else acc) l acc
  = acc ++ concat (map transcript0 (List.filter isFinal l)).
Proof.
  induction l as [| r l IH]; intros acc; cbn [fold_left List.filter].
  - cbn. rewrite app_nil_r. reflexivity.
  - rewrite IH. destruct (isFinal r); cbn [map concat].
    + rewrite <- app_assoc. reflexivity.
    + reflexivity.
Qed.

Lemma onresult_appends {S} (w : World S) ev :
  truthy (final_transcript ev) = true ->
  run (onresult ev) w
  = mkWorld (state w)
      (set_saveDisabled false
         (set_memoText
            (memoText (page w)
             ++ (if nonempty (memoText (page w)) then nl else []) ++ final_transcript ev)
            (page w))).
Proof.
  intros H. unfold onresult. rewrite H. exec. reflexivity.
Qed.

(** C7.  A batch of recognition results: the text taken from it is the
    concatenation, in order, of the first transcripts of the results from
    [resultIndex] on that are final.  When that text is not empty the
    editor becomes its old content, then a line feed exactly when the old
    content was not empty, then the text once; the save control is
    enabled; nothing else on the page changes. *)
Theorem dictation_appends_final :
  forall ev : SpeechRecognitionEvent,
    final_transcript ev
    = concat (map transcript0
                (List.filter isFinal (drop (resultIndex ev) (results ev))))
    /\
    (truthy (final_transcript ev) = true ->
     (forall (env : Env) (J : JSONParse) (w : World Relay.appState),
        let w' := Relay.step env (Relay.RecognitionResult ev) w in
        (memoText (page w) = [] -> memoText (page w') = final_transcript ev) /\
        (memoText (page w) <> [] ->
         memoText (page w') = memoText (page w) ++ nl ++ final_transcript ev) /\
        saveDisabled (page w') = false /\
        w' = mkWorld (state w)
               (set_saveDisabled false (set_memoText (memoText (page w')) (page w))))
     /\
     (forall (env : Env) (J : JSONParse) (cfg : Drive.Config) (w : World Drive.STATE),
        let w' := Drive.step env cfg (Drive.RecognitionResult ev) w in
        (memoText (page w) = [] -> memoText (page w') = final_transcript ev) /\
        (memoText (page w) <> [] ->
         memoText (page w') = memoText (page w) ++ nl ++ final_transcript ev) /\
        saveDisabled (page w') = false /\
        w' = mkWorld (state w)
               (set_saveDisabled false (set_memoText (memoText (page w')) (page w))))).
Proof.
  intros ev. split.
  - unfold final_transcript. apply (final_transcript_fold _ []).
  - intros H. split.
    + intros env J w w'. subst w'. cbn [Relay.step].
      rewrite (onresult_appends w ev H). cbn.
      repeat split.
      * intros ->. reflexivity.
      * intros Hne. destruct (memoText (page w)); [congruence | reflexivity].
    + intros env J cfg w w'. subst w'. cbn [Drive.step].
      rewrite (onresult_appends w ev H). cbn.
      repeat split.
      * intros ->. reflexivity.
      * intros Hne. destruct (memoText (page w)); [congruence | reflexivity].
Qed.

Lemma dictation_appends_final_witness :
  memoText (page (Relay.step Sample.calm (Relay.RecognitionResult Sample.utterance)
                    (Sample.relay true (lit "note") Sample.empty_slot)))
  = lit "note" ++ nl ++ lit "buy milk"
  /\
  memoText (page (Drive.step Sample.calm Sample.cfg
                    (Drive.RecognitionResult Sample.utterance)
                    (Sample.drive true true [] Sample.empty_slot)))
  = lit "buy milk".
Proof.
  split.
  - apply (proj1 (proj2 (dictation_appends_final Sample.utterance) eq_refl)
             Sample.calm reader_parse (Sample.relay true (lit "note") Sample.empty_slot)).
    discriminate.
  - apply (proj2 (proj2 (dictation_appends_final Sample.utterance) eq_refl)
             Sample.calm reader_parse Sample.cfg
             (Sample.drive true true [] Sample.empty_slot)).
    reflexivity.
Defined.

Lemma relay_steps_keep_disabled env {J : JSONParse} es :
  forall w : World Relay.appState,
    saveDisabled (page w) = true ->
    forallb (fun e => negb (Relay.writes_disabled e)) es = true ->
    saveDisabled (page (Relay.steps env es w)) = true.
Proof.
  induction es as [| e es IH]; intros w Hd Hes; [exact Hd |].
  cbn [forallb] in Hes. apply andb_true_iff in Hes as [He Hes].
  unfold Relay.steps. cbn [fold_left]. apply IH; [| exact Hes].
  destruct (saveDisabled (page (Relay.step env e w))) eqn:E; [reflexivity |].
  destruct (RelayFacts.relay_disabled_is_kept env w e Hd E) as [[v ->] | [ev ->]];
    discriminate.
Qed.

Lemma drive_steps_keep_disabled env {J : JSONParse} cfg es :
  forall w : World Drive.STATE,
    saveDisabled (page w) = true ->
    forallb (fun e => negb (Drive.writes_disabled e)) es = true ->
    saveDisabled (page (Drive.steps env cfg es w)) = true.
Proof.
  induction es as [| e es IH]; intros w Hd Hes; [exact Hd |].
  cbn [forallb] in Hes. apply andb_true_iff in Hes as [He Hes].
  unfold Drive.steps. cbn [fold_left]. apply IH; [| exact Hes].
  destruct (saveDisabled (page (Drive.step env cfg e w))) eqn:E; [reflexivity |].
  destruct (DriveFacts.drive_disabled_is_kept env cfg w e Hd E) as [[v ->] | [ev ->]];
    discriminate.
Qed.

Lemma oninput_enables {S} (w : World S) v :
  truthy (trim v) = true ->
  saveDisabled (page (run (modify_page (set_memoText v) ;; oninput) w)) = false.
Proof.
  intros H. unfold oninput. exec. destruct (trim v); [discriminate | reflexivity].
Qed.

(** C8.  After an online save whose remote call fails the save control is
    disabled while the editor still holds the unsaved, non-blank text.  A
    click on it does nothing, and no sequence of events other than editor
    input and dictation results enables it again; an input event on
    non-blank text and a dictation result with a final transcript do. *)
Theorem save_stays_disabled_after_failure :
  (forall (env : Env) (J : JSONParse) (w : World Relay.appState) q err,
     Relay.isOnline (state w) = true ->
     truthy (trim (memoText (page w))) = true ->
     stored_queue (page w) = Some q ->
     fetch_outcome env (1 + tick (page w)) = Some err ->
     let w' := run (Relay.saveBtn_onclick env) w in
     saveDisabled (page w') = true /\
     memoText (page w') = memoText (page w) /\
     Relay.step env Relay.SaveClick w' = w' /\
     (forall es, forallb (fun e => negb (Relay.writes_disabled e)) es = true ->
        saveDisabled (page (Relay.steps env es w')) = true) /\
     saveDisabled (page (Relay.step env (Relay.Input (memoText (page w'))) w')) = false /\
     (forall ev, truthy (final_transcript ev) = true ->
        saveDisabled (page (Relay.step env (Relay.RecognitionResult ev) w')) = false))
  /\
  (forall (env : Env) (J : JSONParse) (cfg : Drive.Config)
          (w w2 : World Drive.STATE) q err,
     Drive.isOnline (state w) = true ->
     Drive.isAuthenticated (state w) = true ->
     truthy (trim (memoText (page w))) = true ->
     stored_queue (page w) = Some q ->
     Drive.saveToDrive env cfg (trim (memoText (page w))) (Drive.saving w)
     = (Throw err, w2) ->
     let w' := run (Drive.saveBtn_onclick env cfg) w in
     saveDisabled (page w') = true /\
     memoText (page w') = memoText (page w) /\
     Drive.step env cfg Drive.SaveClick w' = w' /\
     (forall es, forallb (fun e => negb (Drive.writes_disabled e)) es = true ->
        saveDisabled (page (Drive.steps env cfg es w')) = true) /\
     saveDisabled (page (Drive.step env cfg (Drive.Input (memoText (page w'))) w'))
     = false /\
     (forall ev, truthy (final_transcript ev) = true ->
        saveDisabled (page (Drive.step env cfg (Drive.RecognitionResult ev) w'))
        = false)).
Proof.
  split.
  - intros env J w q err Hon Ht Hq Hf w'.
    destruct (RelayFacts.relay_failed_save env w q err Hon Ht Hq Hf)
      as (_ & _ & Hm & Hd & _).
    fold w' in Hm, Hd.
    split; [exact Hd |]. split; [exact Hm |]. split; [| split; [| split]].
    + cbn [Relay.step]. rewrite Hd. reflexivity.
    + intros es Hes. apply relay_steps_keep_disabled; assumption.
    + cbn [Relay.step]. apply oninput_enables. rewrite Hm. exact Ht.
    + intros ev Hev. cbn [Relay.step]. rewrite (onresult_appends w' ev Hev).
      reflexivity.
  - intros env J cfg w w2 q err Hon Hau Ht Hq Hfail w'.
    destruct (DriveFacts.drive_failed_save env cfg w w2 q err Hon Hau Ht Hq Hfail)
      as (_ & _ & Hm & Hd & _).
    fold w' in Hm, Hd.
    split; [exact Hd |]. split; [exact Hm |]. split; [| split; [| split]].
    + cbn [Drive.step]. rewrite Hd. reflexivity.
    + intros es Hes. apply drive_steps_keep_disabled; assumption.
    + cbn [Drive.step]. apply oninput_enables. rewrite Hm. exact Ht.
    + intros ev Hev. cbn [Drive.step]. rewrite (onresult_appends w' ev Hev).
      reflexivity.
Qed.

Lemma save_stays_disabled_after_failure_witness :
  (let w' := run (Relay.saveBtn_onclick Sample.down)
               (Sample.relay true (lit " bread ") Sample.empty_slot) in
   saveDisabled (page w') = true /\
   saveDisabled
     (page (Relay.steps Sample.down
              [Relay.SaveClick; Relay.Offline; Relay.TimerFired 0; Relay.Online;
               Relay.SaveClick] w')) = true)
  /\
  (let w' := run (Drive.saveBtn_onclick Sample.down Sample.cfg)
               (Sample.drive true true (lit " bread ") Sample.empty_slot) in
   saveDisabled (page w') = true /\
   saveDisabled
     (page (Drive.steps Sample.down Sample.cfg
              [Drive.SaveClick; Drive.Offline; Drive.Online; Drive.SaveClick] w'))
   = true).
Proof.
  split.
  - destruct (proj1 save_stays_disabled_after_failure Sample.down reader_parse
                (Sample.relay true (lit " bread ") Sample.empty_slot) []
                Sample.refused eq_refl eq_refl eq_refl eq_refl)
      as (H1 & _ & _ & H4 & _).
    cbv zeta. split; [exact H1 |]. apply H4. reflexivity.
  - destruct (proj2 save_stays_disabled_after_failure Sample.down reader_parse
                Sample.cfg (Sample.drive true true (lit " bread ") Sample.empty_slot)
                (snd (Drive.saveToDrive Sample.down Sample.cfg (lit "bread")
                        (Drive.saving
                           (Sample.drive true true (lit " bread ") Sample.empty_slot))))
                [] Sample.forbidden eq_refl eq_refl eq_refl eq_refl eq_refl)
      as (H1 & _ & _ & H4 & _).
    cbv zeta. split; [exact H1 |]. apply H4. reflexivity.
Defined.

(** C9.  In the drive sync the text handed to the adapter, in one call, is
    the queued notes in queue order, each as a line feed, the line
    [(Synced from offline)], a line feed, the note's text and a line feed:
    every queued text once, none left out.  When the calls succeed the
    trace of the sync holds exactly one upload, whose content is the old
    document (if any) followed by that text under its time heading. *)
Theorem drive_sync_combined_body :
  forall (env : Env) (J : JSONParse) (cfg : Drive.Config) (w : World Drive.STATE) q,
    Drive.isOnline (state w) = true ->
    Drive.isAuthenticated (state w) = true ->
    stored_queue (page w) = Some q ->
    q <> [] ->
    let wrap item := nl ++ lit "(Synced from offline)" ++ nl ++ text item ++ nl in
    let combined := concat (map wrap q) in
    let name := Drive.fileName_of (clock env (tick (page w))) in
    fold_left Drive.combine_step q [] = combined /\
    Drive.syncPendingData env cfg w
    = try_catch
        (Drive.saveToDrive env cfg combined ;;
         removeItem pending_memos ;;
         updateStatus (lit "Synced!") (lit "online") ;;
         setTimeout (CbStatus (lit "ONLINE") (lit "online")) 2000)
        (fun err =>
           console (lit "error") (lit "Sync failed") (Some err) ;;
           updateStatus (lit "Sync Failed") (lit "offline"))
        (Drive.syncing w) /\
    (files_list_outcome env (1 + tick (page w)) = inr [] ->
     request_outcome env (3 + tick (page w)) = None ->
     let time := toLocaleTimeString_ja (clock env (2 + tick (page w))) in
     trace (page (run (Drive.syncPendingData env cfg) w))
     = trace (page w)
       ++ [Drive.list_call name (Drive.FOLDER_ID cfg);
           Drive.create_call name (Drive.FOLDER_ID cfg)
             (trim ([] ++ Drive.newEntry_of time combined));
           ERemoveItem pending_memos;
           ESetTimeout (CbStatus (lit "ONLINE") (lit "online")) 2000]) /\
    (forall f fs existing,
       files_list_outcome env (1 + tick (page w)) = inr (f :: fs) ->
       files_get_outcome env (2 + tick (page w)) = inr existing ->
       truthy (file_id f) = true ->
       request_outcome env (4 + tick (page w)) = None ->
       let time := toLocaleTimeString_ja (clock env (3 + tick (page w))) in
       trace (page (run (Drive.syncPendingData env cfg) w))
       = trace (page w)
         ++ [Drive.list_call name (Drive.FOLDER_ID cfg); Drive.get_call (file_id f);
             Drive.update_call name (file_id f)
               (trim (existing ++ Drive.newEntry_of time combined));
             ERemoveItem pending_memos;
             ESetTimeout (CbStatus (lit "ONLINE") (lit "online")) 2000]).
Proof.
  intros env J cfg w q Hon Hau Hq Hne wrap combined name.
  split; [| split; [| split]].
  - rewrite DriveFacts.combinedText_fold. reflexivity.
  - exact (DriveFacts.drive_sync_submits env cfg w q Hon Hau Hq Hne).
  - intros Hl Hr.
    exact (DriveFacts.drive_sync_trace_fresh env cfg w q Hon Hau Hq Hne Hl Hr).
  - intros f fs existing Hl Hg Hid Hr.
    exact (DriveFacts.drive_sync_trace_existing env cfg w q f fs existing
             Hon Hau Hq Hne Hl Hg Hid Hr).
Qed.

Lemma drive_sync_combined_body_witness :
  fold_left Drive.combine_step [Sample.milk; Sample.eggs] []
  = nl ++ lit "(Synced from offline)" ++ nl ++ lit "milk" ++ nl
    ++ nl ++ lit "(Synced from offline)" ++ nl ++ lit "eggs" ++ nl
  /\
  trace (page (run (Drive.syncPendingData Sample.calm Sample.cfg)
                 (Sample.drive true true [] Sample.two_queued)))
  = [Drive.list_call (lit "2026-02-20.md") (lit "folder");
     Drive.create_call (lit "2026-02-20.md") (lit "folder")
       (lit "## 22:54" ++ nl ++ nl ++ lit "(Synced from offline)" ++ nl ++ lit "milk"
        ++ nl ++ nl ++ lit "(Synced from offline)" ++ nl ++ lit "eggs");
     ERemoveItem pending_memos;
     ESetTimeout (CbStatus (lit "ONLINE") (lit "online")) 2000].
Proof.
  destruct (drive_sync_combined_body Sample.calm reader_parse Sample.cfg
              (Sample.drive true true [] Sample.two_queued)
              [Sample.milk; Sample.eggs] eq_refl eq_refl eq_refl
              ltac:(discriminate)) as (H1 & _ & H3 & _).
  split.
  - rewrite H1. reflexivity.
  - rewrite (H3 eq_refl eq_refl). reflexivity.
Defined.

(** C10.  A batch in which no result from [resultIndex] on is final leaves
    the page as it was: editor text, save control and everything else. *)
Theorem interim_batch_changes_nothing :
  forall ev : SpeechRecognitionEvent,
    Forall (fun r => isFinal r = false) (drop (resultIndex ev) (results ev)) ->
    (forall (env : Env) (J : JSONParse) (w : World Relay.appState),
       Relay.step env (Relay.RecognitionResult ev) w = w)
    /\
    (forall (env : Env) (J : JSONParse) (cfg : Drive.Config) (w : World Drive.STATE),
       Drive.step env cfg (Drive.RecognitionResult ev) w = w).
Proof.
  intros ev H.
  assert (final_transcript ev = []) as E.
  { unfold final_transcript. rewrite final_transcript_fold. cbn [app].
    induction H as [| r l Hr _ IH]; [reflexivity |].
    cbn [List.filter]. rewrite Hr. exact IH. }
  split; intros; cbn [Relay.step Drive.step]; unfold onresult; rewrite E; reflexivity.
Qed.

Lemma interim_batch_changes_nothing_witness :
  Relay.step Sample.calm (Relay.RecognitionResult Sample.interim_only)
    (Sample.relay true (lit "note") Sample.empty_slot)
  = Sample.relay true (lit "note") Sample.empty_slot
  /\
  Drive.step Sample.calm Sample.cfg (Drive.RecognitionResult Sample.interim_only)
    (Sample.drive true true (lit "note") Sample.empty_slot)
  = Sample.drive true true (lit "note") Sample.empty_slot.
Proof.
  assert (Forall (fun r => isFinal r = false)
            (drop (resultIndex Sample.interim_only) (results Sample.interim_only)))
    as H by (repeat constructor).
  split.
  - apply (proj1 (interim_batch_changes_nothing Sample.interim_only H)
             Sample.calm reader_parse).
  - apply (proj2 (interim_batch_changes_nothing Sample.interim_only H)
             Sample.calm reader_parse Sample.cfg).
Defined.

(** * Further properties of the handlers *)

(** ** Trimming *)


Lemma trimStart_nil_iff s : trimStart s = [] <-> all_ws s = true.
Proof.
  unfold all_ws. induction s as [| c s IH]; cbn [trimStart forallb].
  - split; reflexivity.
  - destruct (is_ws c); cbn [andb]; [exact IH |]. split; discriminate.
Qed.

Lemma all_ws_trimStart s : all_ws (trimStart s) = all_ws s.
Proof.
  unfold all_ws. induction s as [| c s IH]; [reflexivity |].
  cbn [trimStart]. destruct (is_ws c) eqn:E.
  - cbn [forallb]. rewrite E. exact IH.
  - reflexivity.
Qed.

Lemma all_ws_rev s : all_ws (rev s) = all_ws s.
Proof.
  unfold all_ws. induction s as [| c s IH]; [reflexivity |].
  cbn [rev forallb]. rewrite forallb_app, IH. cbn [forallb].
  rewrite andb_true_r. apply andb_comm.
Qed.

Lemma trim_nil_iff s : trim s = [] <-> all_ws s = true.
Proof.
  unfold trim, trimEnd. split.
  - intros H. apply (f_equal (@rev N)) in H. rewrite rev_involutive in H.
    cbn [rev] in H. apply trimStart_nil_iff in H.
    rewrite all_ws_rev, all_ws_trimStart in H. exact H.
  - intros H. apply trimStart_nil_iff in H. rewrite H. reflexivity.
Qed.

Lemma truthy_trim s : truthy (trim s) = negb (all_ws s).
Proof.
  destruct (all_ws s) eqn:E.
  - apply trim_nil_iff in E. rewrite E. reflexivity.
  - destruct (trim s) eqn:T; [| reflexivity].
    apply trim_nil_iff in T. congruence.
Qed.

Lemma trimStart_head s c r : trimStart s = c :: r -> is_ws c = false.
Proof.
  induction s as [| d s IH]; cbn [trimStart]; [discriminate |].
  destruct (is_ws d) eqn:E; [exact IH |]. intros [= <- _]. exact E.
Qed.

Lemma trimStart_fixed c r : is_ws c = false -> trimStart (c :: r) = c :: r.
Proof. intros H. cbn [trimStart]. rewrite H. reflexivity. Qed.

Lemma trimStart_idem s : trimStart (trimStart s) = trimStart s.
Proof.
  destruct (trimStart s) as [| c r] eqn:E; [reflexivity |].
  apply trimStart_fixed, (trimStart_head s c r E).
Qed.

Lemma trimStart_app_solid l c k :
  is_ws c = false -> trimStart (l ++ c :: k) = trimStart l ++ c :: k.
Proof.
  intros H. induction l as [| d l IH]; cbn [app trimStart].
  - rewrite H. reflexivity.
  - destruct (is_ws d); [exact IH | reflexivity].
Qed.

Lemma trimEnd_cons_solid c r : is_ws c = false -> trimEnd (c :: r) = c :: trimEnd r.
Proof.
  intros H. unfold trimEnd. cbn [rev].
  rewrite (trimStart_app_solid (rev r) c [] H), rev_app_distr. reflexivity.
Qed.

Lemma trimEnd_idem s : trimEnd (trimEnd s) = trimEnd s.
Proof. unfold trimEnd. rewrite rev_involutive, trimStart_idem. reflexivity. Qed.

(** [s.trim().trim() === s.trim()] *)
Lemma trim_idem s : trim (trim s) = trim s.
Proof.
  unfold trim at 1.
  assert (trimStart (trim s) = trim s) as ->.
  { unfold trim. destruct (trimStart s) as [| c r] eqn:E; [reflexivity |].
    pose proof (trimStart_head s c r E) as Hc.
    rewrite (trimEnd_cons_solid c r Hc). apply trimStart_fixed, Hc. }
  unfold trim. apply trimEnd_idem.
Qed.

(** Two pages that agree on every field are equal. *)
Lemma page_ext (p q : Page) :
  statusText p = statusText q -> statusDot p = statusDot q ->
  dateDisplay p = dateDisplay q -> memoText p = memoText q ->
  micListening p = micListening q -> micHidden p = micHidden q ->
  saveDisabled p = saveDisabled q -> localStorage p = localStorage q ->
  timers p = timers q -> trace p = trace q -> tick p = tick q ->
  p = q.
Proof.
  destruct p, q; cbn; intros; subst; reflexivity.
Qed.

Ltac page_fields :=
  cbn; f_equal; apply page_ext; cbn; rewrite <- ?app_assoc; reflexivity.

(** ** The editor and the save control *)

Lemma trim_length_zero v : Nat.eqb (length (trim v)) 0 = all_ws v.
Proof.
  pose proof (truthy_trim v) as T. destruct (trim v); cbn in T |- *.
  - destruct (all_ws v); [reflexivity | discriminate].
  - destruct (all_ws v); [discriminate | reflexivity].
Qed.

Section SaveFacts.
Context (env : Env) {J : JSONParse}.

Lemma relay_save_blank (w : World Relay.appState) :
  all_ws (memoText (page w)) = true ->
  run (Relay.saveBtn_onclick env) w = w.
Proof.
  intros H. unfold Relay.saveBtn_onclick. exec. rewrite truthy_trim, H. reflexivity.
Qed.

Lemma drive_save_blank cfg (w : World Drive.STATE) :
  all_ws (memoText (page w)) = true ->
  run (Drive.saveBtn_onclick env cfg) w = w.
Proof.
  intros H. unfold Drive.saveBtn_onclick. exec. rewrite truthy_trim, H. reflexivity.
Qed.

Lemma relay_save_sent (w : World Relay.appState) :
  Relay.isOnline (state w) = true ->
  all_ws (memoText (page w)) = false ->
  fetch_outcome env (1 + tick (page w)) = None ->
  run (Relay.saveBtn_onclick env) w
  = mkWorld (state w)
      (mkPage Relay.s_saved (lit "status-dot " ++ lit "online")
         (dateDisplay (page w)) [] (micListening (page w)) (micHidden (page w))
         true (localStorage (page w))
         (timers (page w) ++ [(CbStatus (lit "ONLINE") (lit "online"), 2000)])
         (trace (page w)
          ++ [Relay.post_of (trim (memoText (page w))) (clock env (tick (page w)));
              ESetTimeout (CbStatus (lit "ONLINE") (lit "online")) 2000])
         (2 + tick (page w))).
Proof.
  intros Hon Hv Hf.
  unfold Relay.saveBtn_onclick, Relay.updateAppStatusMessage. exec.
  rewrite truthy_trim, Hv. cbn. rewrite Hon.
  rewrite RelayFacts.sendMemoToSheet_run. cbn. cbn in Hf. rewrite Hf.
  page_fields.
Qed.

Lemma drive_save_sent cfg (w w2 : World Drive.STATE) :
  Drive.isOnline (state w) = true ->
  Drive.isAuthenticated (state w) = true ->
  all_ws (memoText (page w)) = false ->
  Drive.saveToDrive env cfg (trim (memoText (page w))) (Drive.saving w)
  = (Normal tt, w2) ->
  run (Drive.saveBtn_onclick env cfg) w
  = mkWorld (state w)
      (mkPage (lit "Saved!") (lit "status-dot " ++ lit "online")
         (dateDisplay (page w)) [] (micListening (page w)) (micHidden (page w))
         true (localStorage (page w))
         (timers (page w) ++ [(CbStatus (lit "ONLINE") (lit "online"), 2000)])
         (trace (page w2)
          ++ [ESetTimeout (CbStatus (lit "ONLINE") (lit "online")) 2000])
         (tick (page w2))).
Proof.
  intros Hon Hau Hv Hs.
  pose proof (DriveFacts.saveToDrive_frame env cfg (trim (memoText (page w)))
                (Drive.saving w) (Drive.saving w) (conj eq_refl eq_refl)) as [Fs Fp].
  rewrite Hs in Fs, Fp. cbn in Fs, Fp. unfold Drive.saving in Hs. cbn in Hs.
  unfold Drive.saveBtn_onclick. exec.
  rewrite truthy_trim, Hv. cbn. rewrite Hon, Hau. cbn. rewrite Hs. cbn.
  rewrite Fs, Fp. page_fields.
Qed.

End SaveFacts.

(** X1.  The [input] listener: after the user changes the editor content to
    [v] the save control is disabled exactly when [v] is made of white
    space only (the empty text included); the editor holds [v] and nothing
    else on the page or in the state changes.  Both variants. *)
Theorem input_disables_on_blank :
  forall (v : jsstring),
    (forall (env : Env) (J : JSONParse) (w : World Relay.appState),
       Relay.step env (Relay.Input v) w
       = mkWorld (state w) (set_saveDisabled (all_ws v) (set_memoText v (page w))))
    /\
    (forall (env : Env) (J : JSONParse) (cfg : Drive.Config) (w : World Drive.STATE),
       Drive.step env cfg (Drive.Input v) w
       = mkWorld (state w) (set_saveDisabled (all_ws v) (set_memoText v (page w)))).
Proof.
  intros v.
  split; intros; cbn [Relay.step Drive.step]; unfold oninput; exec;
    rewrite trim_length_zero; reflexivity.
Qed.

(** X2.  A save while the editor holds only white space is abandoned at
    once: the handler returns with the world exactly as it was (no status
    change, the save control not disabled, nothing queued, no call).  Both
    variants. *)
Theorem blank_save_is_abandoned :
  (forall (env : Env) (J : JSONParse) (w : World Relay.appState),
     all_ws (memoText (page w)) = true ->
     run (Relay.saveBtn_onclick env) w = w)
  /\
  (forall (env : Env) (J : JSONParse) (cfg : Drive.Config) (w : World Drive.STATE),
     all_ws (memoText (page w)) = true ->
     run (Drive.saveBtn_onclick env cfg) w = w).
Proof.
  split; intros; [apply relay_save_blank | apply drive_save_blank]; assumption.
Qed.

Lemma blank_save_is_abandoned_witness :
  run (Relay.saveBtn_onclick Sample.calm)
    (Sample.relay true (lit "  " ++ [0x3000; 0xA]) Sample.two_queued)
  = Sample.relay true (lit "  " ++ [0x3000; 0xA]) Sample.two_queued
  /\
  run (Drive.saveBtn_onclick Sample.calm Sample.cfg)
    (Sample.drive true true [] Sample.empty_slot)
  = Sample.drive true true [] Sample.empty_slot.
Proof.
  split.
  - apply (proj1 blank_save_is_abandoned Sample.calm reader_parse). reflexivity.
  - apply (proj2 blank_save_is_abandoned Sample.calm reader_parse). reflexivity.
Defined.

(** X3.  A save whose remote call succeeds: the editor is emptied, the
    status shows the saved message and a 2000 ms timer is set to put it
    back to ONLINE, the save control stays disabled, and device storage is
    not touched (the queue slot is not even read).  Relay variant: the only
    call is the POST of the trimmed text.  Drive variant: the calls are
    those of [saveToDrive]. *)
Theorem successful_save_clears_editor :
  (forall (env : Env) (J : JSONParse) (w : World Relay.appState),
     Relay.isOnline (state w) = true ->
     all_ws (memoText (page w)) = false ->
     fetch_outcome env (1 + tick (page w)) = None ->
     run (Relay.saveBtn_onclick env) w
     = mkWorld (state w)
         (mkPage Relay.s_saved (lit "status-dot " ++ lit "online")
            (dateDisplay (page w)) [] (micListening (page w)) (micHidden (page w))
            true (localStorage (page w))
            (timers (page w) ++ [(CbStatus (lit "ONLINE") (lit "online"), 2000)])
            (trace (page w)
             ++ [Relay.post_of (trim (memoText (page w))) (clock env (tick (page w)));
                 ESetTimeout (CbStatus (lit "ONLINE") (lit "online")) 2000])
            (2 + tick (page w))))
  /\
  (forall (env : Env) (J : JSONParse) (cfg : Drive.Config) (w w2 : World Drive.STATE),
     Drive.isOnline (state w) = true ->
     Drive.isAuthenticated (state w) = true ->
     all_ws (memoText (page w)) = false ->
     Drive.saveToDrive env cfg (trim (memoText (page w))) (Drive.saving w)
     = (Normal tt, w2) ->
     run (Drive.saveBtn_onclick env cfg) w
     = mkWorld (state w)
         (mkPage (lit "Saved!") (lit "status-dot " ++ lit "online")
            (dateDisplay (page w)) [] (micListening (page w)) (micHidden (page w))
            true (localStorage (page w))
            (timers (page w) ++ [(CbStatus (lit "ONLINE") (lit "online"), 2000)])
            (trace (page w2)
             ++ [ESetTimeout (CbStatus (lit "ONLINE") (lit "online")) 2000])
            (tick (page w2)))).
Proof.
  split; intros; [apply relay_save_sent | apply drive_save_sent]; assumption.
Qed.

Lemma successful_save_clears_editor_witness :
  (let w' := run (Relay.saveBtn_onclick Sample.calm)
               (Sample.relay true (lit " bread ") Sample.two_queued) in
   memoText (page w') = [] /\
   localStorage (page w') !! pending_memos = Sample.two_queued)
  /\
  (let w' := run (Drive.saveBtn_onclick Sample.calm Sample.cfg)
               (Sample.drive true true (lit " bread ") Sample.two_queued) in
   memoText (page w') = [] /\
   localStorage (page w') !! pending_memos = Sample.two_queued).
Proof.
  split.
  - cbv zeta.
    rewrite (proj1 successful_save_clears_editor Sample.calm reader_parse
               (Sample.relay true (lit " bread ") Sample.two_queued)
               eq_refl eq_refl eq_refl).
    split; reflexivity.
  - cbv zeta.
    rewrite (proj2 successful_save_clears_editor Sample.calm reader_parse Sample.cfg
               (Sample.drive true true (lit " bread ") Sample.two_queued)
               (snd (Drive.saveToDrive Sample.calm Sample.cfg (lit "bread")
                       (Drive.saving
                          (Sample.drive true true (lit " bread ") Sample.two_queued))))
               eq_refl eq_refl eq_refl eq_refl).
    split; reflexivity.
Defined.

(** ** The relay's replay of the queue *)

Section ReplayFacts.
Context (env : Env) {J : JSONParse}.
Import Relay.

Lemma logged_nil p : logged [] 0 p = p.
Proof. apply page_ext; cbn; try reflexivity. apply app_nil_r. Qed.

(** Every call succeeds: the loop posts the whole queue, in order. *)
Lemma replay_run_ok q : forall (w : World appState),
  (forall i, (i < length q)%nat ->
     fetch_outcome env (Datatypes.S (tick (page w) + 2 * i)) = None) ->
  replay env q w
  = (Normal tt,
     mkWorld (state w) (logged (replay_posts env (tick (page w)) q) (2 * length q) (page w))).
Proof.
  induction q as [| m q IH]; intros w H.
  - unfold replay. cbn. rewrite logged_nil. reflexivity.
  - unfold replay. cbn [for_of]. unfold bind.
    rewrite RelayFacts.sendMemoToSheet_run.
    pose proof (H 0%nat ltac:(cbn; lia)) as H0.
    rewrite Nat.mul_0_r, Nat.add_0_r in H0. rewrite H0.
    fold (replay env q). rewrite IH.
    + f_equal. f_equal. apply page_ext; cbn; try reflexivity.
      * rewrite <- app_assoc. reflexivity.
      * lia.
    + intros i Hi. cbn [page tick next_tick emit].
      specialize (H (Datatypes.S i) ltac:(cbn; lia)).
      replace (Datatypes.S (Datatypes.S (tick (page w))) + 2 * i)%nat
        with (tick (page w) + 2 * Datatypes.S i)%nat by lia.
      exact H.
Qed.

(** The call for the note at index [i] is the first to fault: the loop
    has posted the notes up to that one and throws. *)
Lemma replay_run_fault q : forall (w : World appState) i e,
  (i < length q)%nat ->
  (forall j, (j < i)%nat ->
     fetch_outcome env (Datatypes.S (tick (page w) + 2 * j)) = None) ->
  fetch_outcome env (Datatypes.S (tick (page w) + 2 * i)) = Some e ->
  replay env q w
  = (Throw e,
     mkWorld (state w)
       (logged (replay_posts env (tick (page w)) (take (Datatypes.S i) q))
          (2 * Datatypes.S i) (page w))).
Proof.
  induction q as [| m q IH]; intros w i e Hi Hok Hf; [cbn in Hi; lia |].
  unfold replay. cbn [for_of]. unfold bind.
  rewrite RelayFacts.sendMemoToSheet_run.
  destruct i as [| i].
  - rewrite Nat.mul_0_r, Nat.add_0_r in Hf. rewrite Hf. reflexivity.
  - pose proof (Hok 0%nat ltac:(lia)) as H0.
    rewrite Nat.mul_0_r, Nat.add_0_r in H0. rewrite H0.
    fold (replay env q). rewrite (IH _ i e).
    + f_equal. f_equal. apply page_ext; cbn; try reflexivity.
      * rewrite <- app_assoc. reflexivity.
      * lia.
    + cbn in Hi. lia.
    + intros j Hj. cbn [page tick next_tick emit].
      specialize (Hok (Datatypes.S j) ltac:(lia)).
      replace (Datatypes.S (Datatypes.S (tick (page w))) + 2 * j)%nat
        with (tick (page w) + 2 * Datatypes.S j)%nat by lia.
      exact Hok.
    + cbn [page tick next_tick emit].
      replace (Datatypes.S (Datatypes.S (tick (page w))) + 2 * i)%nat
        with (tick (page w) + 2 * Datatypes.S i)%nat by lia.
      exact Hf.
Qed.

(** The sync up to its loop. *)
Lemma relay_sync_enters (w : World appState) q :
  isOnline (state w) = true ->
  stored_queue (page w) = Some q ->
  q <> [] ->
  syncOfflineMemosToSheet env w
  = try_catch
      (replay env q ;;
       removeItem pending_memos ;;
       updateAppStatusMessage s_synced (lit "online") ;;
       setTimeout (CbStatus (lit "ONLINE") (lit "online")) 2000)
      (fun error =>
         console (lit "error") s_sync_failed_log (Some error) ;;
         updateAppStatusMessage s_sync_failed (lit "offline"))
      (mkWorld (state w)
         (set_status s_syncing (lit "status-dot " ++ lit "syncing") (page w))).
Proof.
  intros Hon Hq Hne.
  unfold syncOfflineMemosToSheet. unfold bind at 1, get_state at 1.
  rewrite Hon. cbn [negb].
  unfold bind at 1. rewrite (read_pending_run w q Hq).
  destruct q as [| m q']; [congruence |]. cbn [length Nat.eqb].
  unfold bind at 1, updateAppStatusMessage at 1, updateStatus at 1, modify_page at 1.
  reflexivity.
Qed.

Lemma relay_sync_run_ok (w : World appState) q :
  isOnline (state w) = true ->
  stored_queue (page w) = Some q ->
  q <> [] ->
  (forall i, (i < length q)%nat ->
     fetch_outcome env (Datatypes.S (tick (page w) + 2 * i)) = None) ->
  run (syncOfflineMemosToSheet env) w
  = mkWorld (state w)
      (mkPage s_synced (lit "status-dot " ++ lit "online")
         (dateDisplay (page w)) (memoText (page w)) (micListening (page w))
         (micHidden (page w)) (saveDisabled (page w))
         (delete pending_memos (localStorage (page w)))
         (timers (page w) ++ [(CbStatus (lit "ONLINE") (lit "online"), 2000)])
         (trace (page w)
          ++ replay_posts env (tick (page w)) q
          ++ [ERemoveItem pending_memos;
              ESetTimeout (CbStatus (lit "ONLINE") (lit "online")) 2000])
         (2 * length q + tick (page w))).
Proof.
  intros Hon Hq Hne Hok.
  unfold run, detach. unfold try_catch at 1.
  rewrite (relay_sync_enters w q Hon Hq Hne).
  unfold try_catch at 1, bind at 1. rewrite replay_run_ok by exact Hok.
  unfold updateAppStatusMessage. exec. unfold logged.
  f_equal. apply page_ext; cbn; try reflexivity.
  rewrite <- !app_assoc. reflexivity.
Qed.

Lemma relay_sync_run_fault (w : World appState) q i e :
  isOnline (state w) = true ->
  stored_queue (page w) = Some q ->
  (i < length q)%nat ->
  (forall j, (j < i)%nat ->
     fetch_outcome env (Datatypes.S (tick (page w) + 2 * j)) = None) ->
  fetch_outcome env (Datatypes.S (tick (page w) + 2 * i)) = Some e ->
  run (syncOfflineMemosToSheet env) w
  = mkWorld (state w)
      (mkPage s_sync_failed (lit "status-dot " ++ lit "offline")
         (dateDisplay (page w)) (memoText (page w)) (micListening (page w))
         (micHidden (page w)) (saveDisabled (page w))
         (localStorage (page w)) (timers (page w))
         (trace (page w)
          ++ replay_posts env (tick (page w)) (take (Datatypes.S i) q)
          ++ [EConsole (lit "error") s_sync_failed_log (Some e)])
         (2 * Datatypes.S i + tick (page w))).
Proof.
  intros Hon Hq Hi Hok Hf.
  assert (q <> []) as Hne by (destruct q; [cbn in Hi; lia | discriminate]).
  unfold run, detach. unfold try_catch at 1.
  rewrite (relay_sync_enters w q Hon Hq Hne).
  unfold try_catch at 1, bind at 1.
  rewrite (replay_run_fault q
             (mkWorld (state w)
                (set_status s_syncing (lit "status-dot " ++ lit "syncing") (page w)))
             i e Hi Hok Hf).
  unfold updateAppStatusMessage. exec. unfold logged.
  f_equal. apply page_ext; cbn; try reflexivity.
  rewrite <- !app_assoc. reflexivity.
Qed.

Lemma network_calls_replay_posts q : forall t,
  network_calls (replay_posts env t q) = replay_posts env t q.
Proof.
  unfold network_calls.
  induction q as [| m q IH]; intros t; [reflexivity |].
  cbn [replay_posts]. rewrite filter_cons_True by reflexivity. rewrite IH. reflexivity.
Qed.

End ReplayFacts.

(** X4.  Relay variant: a sync whose calls all succeed posts every queued
    note on its own, in queue order, each text behind the offline marker
    and each after a fresh reading of the clock; only then is the slot
    removed, the status set to the synced message and the 2000 ms timer
    started.  Nothing else on the page changes. *)
Theorem relay_sync_posts_each_note :
  forall (env : Env) (J : JSONParse) (w : World Relay.appState) (q : list PendingMemo),
    Relay.isOnline (state w) = true ->
    stored_queue (page w) = Some q ->
    q <> [] ->
    (forall i, (i < length q)%nat ->
       fetch_outcome env (Datatypes.S (tick (page w) + 2 * i)) = None) ->
    run (Relay.syncOfflineMemosToSheet env) w
    = mkWorld (state w)
        (mkPage Relay.s_synced (lit "status-dot " ++ lit "online")
           (dateDisplay (page w)) (memoText (page w)) (micListening (page w))
           (micHidden (page w)) (saveDisabled (page w))
           (delete pending_memos (localStorage (page w)))
           (timers (page w) ++ [(CbStatus (lit "ONLINE") (lit "online"), 2000)])
           (trace (page w)
            ++ replay_posts env (tick (page w)) q
            ++ [ERemoveItem pending_memos;
                ESetTimeout (CbStatus (lit "ONLINE") (lit "online")) 2000])
           (2 * length q + tick (page w))).
Proof. intros. apply relay_sync_run_ok; assumption. Qed.

Lemma relay_sync_posts_each_note_witness :
  trace (page (run (Relay.syncOfflineMemosToSheet Sample.calm)
                 (Sample.relay true [] Sample.two_queued)))
  = [Relay.post_of (Relay.s_offline_marker ++ lit "milk") date_2026_02_20;
     Relay.post_of (Relay.s_offline_marker ++ lit "eggs") date_2026_02_20;
     ERemoveItem pending_memos;
     ESetTimeout (CbStatus (lit "ONLINE") (lit "online")) 2000].
Proof.
  rewrite (relay_sync_posts_each_note Sample.calm reader_parse
             (Sample.relay true [] Sample.two_queued) [Sample.milk; Sample.eggs]
             eq_refl eq_refl ltac:(discriminate) ltac:(intros; reflexivity)).
  reflexivity.
Defined.

(** X5.  Relay variant: when the call for the note at index [i] is the
    first to fault, the sync has posted the notes up to and including that
    one and none after it; the slot and the timers are left as they were,
    the fault is logged and the status shows the failed-sync message. *)
Theorem relay_sync_stops_at_first_fault :
  forall (env : Env) (J : JSONParse) (w : World Relay.appState) (q : list PendingMemo)
         (i : nat) (e : JsError),
    Relay.isOnline (state w) = true ->
    stored_queue (page w) = Some q ->
    (i < length q)%nat ->
    (forall j, (j < i)%nat ->
       fetch_outcome env (Datatypes.S (tick (page w) + 2 * j)) = None) ->
    fetch_outcome env (Datatypes.S (tick (page w) + 2 * i)) = Some e ->
    run (Relay.syncOfflineMemosToSheet env) w
    = mkWorld (state w)
        (mkPage Relay.s_sync_failed (lit "status-dot " ++ lit "offline")
           (dateDisplay (page w)) (memoText (page w)) (micListening (page w))
           (micHidden (page w)) (saveDisabled (page w))
           (localStorage (page w)) (timers (page w))
           (trace (page w)
            ++ replay_posts env (tick (page w)) (take (Datatypes.S i) q)
            ++ [EConsole (lit "error") Relay.s_sync_failed_log (Some e)])
           (2 * Datatypes.S i + tick (page w))).
Proof. intros. apply relay_sync_run_fault; assumption. Qed.

Lemma relay_sync_stops_at_first_fault_witness :
  trace (page (run (Relay.syncOfflineMemosToSheet Outage.flaky)
                 (Sample.relay true [] Sample.two_queued)))
  = [Relay.post_of (Relay.s_offline_marker ++ lit "milk") date_2026_02_20;
     Relay.post_of (Relay.s_offline_marker ++ lit "eggs") date_2026_02_20;
     EConsole (lit "error") Relay.s_sync_failed_log (Some Sample.refused)].
Proof.
  rewrite (relay_sync_stops_at_first_fault Outage.flaky reader_parse
             (Sample.relay true [] Sample.two_queued) [Sample.milk; Sample.eggs]
             1%nat Sample.refused eq_refl eq_refl ltac:(cbn; lia)
             ltac:(intros j Hj; assert (j = 0%nat) as -> by lia; reflexivity)
             eq_refl).
  reflexivity.
Defined.

(** X6.  Relay variant: a sync that faults after its first call and is
    then tried again (the queue was left in place) posts the whole queue
    from its start, so the notes that went out before the fault go out a
    second time. *)
Theorem relay_retry_posts_again :
  forall (env : Env) (J : JSONParse) (w : World Relay.appState) (q : list PendingMemo)
         (i : nat) (e : JsError),
    Relay.isOnline (state w) = true ->
    stored_queue (page w) = Some q ->
    (i < length q)%nat ->
    (forall j, (j < i)%nat ->
       fetch_outcome env (Datatypes.S (tick (page w) + 2 * j)) = None) ->
    fetch_outcome env (Datatypes.S (tick (page w) + 2 * i)) = Some e ->
    (forall j, (j < length q)%nat ->
       fetch_outcome env (Datatypes.S (2 * Datatypes.S i + tick (page w) + 2 * j)) = None) ->
    let again := run (Relay.syncOfflineMemosToSheet env)
                   (run (Relay.syncOfflineMemosToSheet env) w) in
    network_calls (trace (page again))
    = network_calls (trace (page w))
      ++ replay_posts env (tick (page w)) (take (Datatypes.S i) q)
      ++ replay_posts env (2 * Datatypes.S i + tick (page w)) q
    /\ localStorage (page again) = delete pending_memos (localStorage (page w)).
Proof.
  intros env J w q i e Hon Hq Hi Hok Hf Hok2 again.
  assert (q <> []) as Hne by (destruct q; [cbn in Hi; lia | discriminate]).
  subst again.
  rewrite (relay_sync_run_fault env w q i e Hon Hq Hi Hok Hf).
  rewrite relay_sync_run_ok with (q := q); cbn; try assumption.
  split; [| reflexivity].
  unfold network_calls. rewrite !filter_app.
  fold (network_calls (replay_posts env (tick (page w)) (take (Datatypes.S i) q))).
  fold (network_calls (replay_posts env (2 * Datatypes.S i + tick (page w)) q)).
  rewrite !network_calls_replay_posts.
  cbn. rewrite !app_nil_r. rewrite <- app_assoc. reflexivity.
Qed.

Lemma relay_retry_posts_again_witness :
  network_calls (trace (page
    (run (Relay.syncOfflineMemosToSheet Outage.flaky)
       (run (Relay.syncOfflineMemosToSheet Outage.flaky)
          (Sample.relay true [] Sample.two_queued)))))
  = [Relay.post_of (Relay.s_offline_marker ++ lit "milk") date_2026_02_20;
     Relay.post_of (Relay.s_offline_marker ++ lit "eggs") date_2026_02_20;
     Relay.post_of (Relay.s_offline_marker ++ lit "milk") date_2026_02_20;
     Relay.post_of (Relay.s_offline_marker ++ lit "eggs") date_2026_02_20].
Proof.
  refine (eq_trans
    (proj1 (relay_retry_posts_again Outage.flaky reader_parse
              (Sample.relay true [] Sample.two_queued) [Sample.milk; Sample.eggs]
              1%nat Sample.refused eq_refl eq_refl ltac:(cbn; lia)
              ltac:(intros j Hj; assert (j = 0%nat) as -> by lia; reflexivity)
              eq_refl
              ltac:(intros j Hj; cbn in Hj;
                    destruct j as [| [| j]]; [reflexivity | reflexivity | lia])))
    _).
  reflexivity.
Defined.

(** ** What the handlers do to device storage *)

Ltac relay_open :=
  unfold Relay.script, Relay.onload, Relay.onstart, Relay.onend,
    Relay.micBtn_onclick, Relay.ononline, Relay.onoffline, Relay.saveBtn_onclick,
    Relay.handleSaveFailure, Relay.saveTextLocally, saveToLocal, onresult, oninput,
    fire_status, detach, Relay.syncOfflineMemosToSheet,
    Relay.initializeDateDisplay, Relay.updateOnlineStatusDisplay,
    Relay.checkOfflineUnsavedMemos, Relay.set_isListening, Relay.set_isOnline,
    Relay.updateAppStatusMessage, Relay.sendMemoToSheet, read_pending,
    getItem, parse, console, alert, setTimeout, removeItem, setItem, updateStatus;
  keeps_structure; cbv zeta; keeps_structure;
  unfold new_Date, read_onLine, fetch, modify_page, put_state.

Ltac drive_open :=
  unfold Drive.script, Drive.onload, Drive.onstart, Drive.onend,
    Drive.micBtn_onclick, Drive.ononline, Drive.onoffline, Drive.saveBtn_onclick,
    saveToLocal, onresult, oninput, Drive.fire, detach, Drive.token_callback,
    Drive.handleAuthClick, Drive.initGapi, Drive.initGis, Drive.initGis_body,
    Drive.maybeEnableAuth,
    Drive.renderAuthButton, Drive.syncPendingData, Drive.saveToDrive,
    Drive.getFileName, Drive.initDateDisplay, Drive.checkOnlineStatus,
    Drive.loadOfflineData, Drive.modify_state, read_pending, getItem, parse,
    console, alert, setTimeout, removeItem, setItem, updateStatus;
  keeps_structure; cbv zeta; keeps_structure;
  unfold new_Date, read_onLine, Drive.files_list, Drive.files_get,
    Drive.gapi_request, Drive.gapi_getToken, modify_page, put_state.

Ltac open_leaf :=
  cbn;
  repeat match goal with
  | |- context [match ?x with _ => _ end] => destruct x
  end;
  cbn.

Section Storage.
Context (env : Env) {J : JSONParse}.

Lemma stored_queue_same (p p' : Page) :
  localStorage p' = localStorage p -> stored_queue p' = stored_queue p.
Proof. unfold stored_queue. intros ->. reflexivity. Qed.

(** *** Keys other than the queue slot *)

Ltac other_key_leaf Hk :=
  let w := fresh "w" in
  let H := fresh "H" in
  intros w H; open_leaf;
  first
    [ exact H
    | rewrite lookup_insert_ne by (intros E; apply Hk; symmetry; exact E); exact H
    | rewrite lookup_delete_ne by (intros E; apply Hk; symmetry; exact E); exact H ].

Lemma relay_step_other_key k (w : World Relay.appState) e :
  k <> pending_memos ->
  localStorage (page (Relay.step env e w)) !! k = localStorage (page w) !! k.
Proof.
  intros Hk. destruct e; cbn [Relay.step];
    try (destruct (saveDisabled (page w)));
    try (destruct (timers (page w) !! i) as [[cb ?] |]);
    try reflexivity;
    (apply (keeps_run (fun w' => localStorage (page w') !! k = localStorage (page w) !! k));
       [| intros ?; unfold modify_page; other_key_leaf Hk | reflexivity]).
  all: relay_open.
  all: other_key_leaf Hk.
Qed.

Lemma drive_step_other_key cfg k (w : World Drive.STATE) e :
  k <> pending_memos ->
  localStorage (page (Drive.step env cfg e w)) !! k = localStorage (page w) !! k.
Proof.
  intros Hk. destruct e; cbn [Drive.step];
    try (destruct (saveDisabled (page w)));
    try (destruct (Drive.authButton (state w)));
    try (destruct (Drive.tokenClient (state w)) as [[|] |]);
    try (destruct (timers (page w) !! i) as [[cb ?] |]);
    try reflexivity;
    (apply (keeps_run (fun w' => localStorage (page w') !! k = localStorage (page w) !! k));
       [| intros ?; unfold modify_page; other_key_leaf Hk | reflexivity]).
  all: drive_open.
  all: other_key_leaf Hk.
Qed.

(** *** The queue slot: kept, removed, or one note longer *)


Ltac kept_leaf :=
  let w := fresh "w" in
  let H := fresh "H" in
  intros w H; unfold kept_or_removed in *; open_leaf;
  first
    [ exact H
    | destruct H as [H | H]; rewrite H; right;
      [reflexivity | apply delete_id, lookup_delete_eq] ].

Lemma relay_step_kept_or_removed (w : World Relay.appState) e :
  e <> Relay.SaveClick ->
  kept_or_removed (localStorage (page w)) (Relay.step env e w).
Proof.
  intros Hs. destruct e; cbn [Relay.step];
    try congruence;
    try (destruct (timers (page w) !! i) as [[cb ?] |]);
    try (left; reflexivity);
    (apply (keeps_run (kept_or_removed (localStorage (page w))));
       [| intros ?; unfold modify_page; kept_leaf | left; reflexivity]).
  all: relay_open.
  all: kept_leaf.
Qed.

Lemma drive_step_kept_or_removed cfg (w : World Drive.STATE) e :
  e <> Drive.SaveClick ->
  kept_or_removed (localStorage (page w)) (Drive.step env cfg e w).
Proof.
  intros Hs. destruct e; cbn [Drive.step];
    try congruence;
    try (destruct (Drive.authButton (state w)));
    try (destruct (Drive.tokenClient (state w)) as [[|] |]);
    try (destruct (timers (page w) !! i) as [[cb ?] |]);
    try (left; reflexivity);
    (apply (keeps_run (kept_or_removed (localStorage (page w))));
       [| intros ?; unfold modify_page; kept_leaf | left; reflexivity]).
  all: drive_open.
  all: kept_leaf.
Qed.

Lemma truthy_trim_solid v : all_ws v = false -> truthy (trim v) = true.
Proof. intros H. rewrite truthy_trim, H. reflexivity. Qed.

Ltac same_leaf :=
  let w := fresh "w" in
  let H := fresh "H" in
  intros w H; open_leaf; exact H.

(** An event that neither syncs nor saves leaves storage alone. *)
Lemma relay_step_storage_same (w : World Relay.appState) e :
  relay_syncs e = false ->
  e <> Relay.SaveClick ->
  localStorage (page (Relay.step env e w)) = localStorage (page w).
Proof.
  intros Hy Hs. destruct e; cbn [Relay.step];
    try congruence;
    try discriminate Hy;
    try (destruct (timers (page w) !! i) as [[cb ?] |]);
    try reflexivity;
    (apply (keeps_run (fun w' => localStorage (page w') = localStorage (page w)));
       [| intros ?; unfold modify_page; same_leaf | reflexivity]).
  all: relay_open.
  all: same_leaf.
Qed.

Lemma drive_step_storage_same cfg (w : World Drive.STATE) e :
  drive_syncs e = false ->
  e <> Drive.SaveClick ->
  localStorage (page (Drive.step env cfg e w)) = localStorage (page w).
Proof.
  intros Hy Hs. destruct e; cbn [Drive.step];
    try congruence;
    try discriminate Hy;
    try (destruct (Drive.authButton (state w)));
    try (destruct (timers (page w) !! i) as [[cb ?] |]);
    try reflexivity;
    (apply (keeps_run (fun w' => localStorage (page w') = localStorage (page w)));
       [| intros ?; unfold modify_page; same_leaf | reflexivity]).
  all: drive_open.
  all: same_leaf.
Qed.

Lemma relay_save_queue (w : World Relay.appState) q :
  stored_queue (page w) = Some q ->
  let w' := Relay.step env Relay.SaveClick w in
  localStorage (page w') = localStorage (page w) \/
  exists ts, all_ws (memoText (page w)) = false /\
             localStorage (page w')
             = <[pending_memos :=
                   JSON.stringify (q ++ [mkMemo (trim (memoText (page w))) ts])]>
                 (localStorage (page w)).
Proof.
  intros Hq w'. subst w'. cbn [Relay.step].
  destruct (saveDisabled (page w)); [left; reflexivity |].
  destruct (all_ws (memoText (page w))) eqn:Hv.
  { rewrite relay_save_blank by exact Hv. left; reflexivity. }
  pose proof (truthy_trim_solid _ Hv) as Ht.
  destruct (Relay.isOnline (state w)) eqn:Hon.
  - destruct (fetch_outcome env (1 + tick (page w))) as [err |] eqn:Hf.
    + right. eexists. split; [reflexivity |].
      exact (proj1 (proj2 (RelayFacts.relay_failed_save env w q err Hon Ht Hq Hf))).
    + left. rewrite relay_save_sent by assumption. reflexivity.
  - right. eexists. split; [reflexivity |].
    exact (proj1 (proj2 (RelayFacts.relay_offline_save env w q Hon Ht Hq))).
Qed.

Lemma drive_save_queue cfg (w : World Drive.STATE) q :
  stored_queue (page w) = Some q ->
  let w' := Drive.step env cfg Drive.SaveClick w in
  localStorage (page w') = localStorage (page w) \/
  exists ts, all_ws (memoText (page w)) = false /\
             localStorage (page w')
             = <[pending_memos :=
                   JSON.stringify (q ++ [mkMemo (trim (memoText (page w))) ts])]>
                 (localStorage (page w)).
Proof.
  intros Hq w'. subst w'. cbn [Drive.step].
  destruct (saveDisabled (page w)); [left; reflexivity |].
  destruct (all_ws (memoText (page w))) eqn:Hv.
  { rewrite drive_save_blank by exact Hv. left; reflexivity. }
  pose proof (truthy_trim_solid _ Hv) as Ht.
  destruct (Drive.isOnline (state w) && Drive.isAuthenticated (state w)) eqn:Hoa.
  - apply andb_true_iff in Hoa as [Hon Hau].
    destruct (Drive.saveToDrive env cfg (trim (memoText (page w))) (Drive.saving w))
      as [[[] | err] w2] eqn:Hs.
    + left. rewrite (drive_save_sent env cfg w w2) by assumption. reflexivity.
    + right. eexists. split; [reflexivity |].
      exact (proj1 (proj2 (DriveFacts.drive_failed_save env cfg w w2 q err
                             Hon Hau Ht Hq Hs))).
  - right. eexists. split; [reflexivity |].
    exact (proj1 (proj2 (DriveFacts.drive_offline_save env cfg w q Hoa Ht Hq))).
Qed.

(** One step, at the level of storage and as the queue reads after it. *)
Lemma relay_step_queue (w : World Relay.appState) e q :
  stored_queue (page w) = Some q ->
  let w' := Relay.step env e w in
  (localStorage (page w') = localStorage (page w) /\
   stored_queue (page w') = Some q) \/
  (relay_syncs e = true /\
   localStorage (page w') = delete pending_memos (localStorage (page w)) /\
   stored_queue (page w') = Some []) \/
  (e = Relay.SaveClick /\
   exists ts,
     let memo := mkMemo (trim (memoText (page w))) ts in
     all_ws (memoText (page w)) = false /\
     localStorage (page w')
     = <[pending_memos := JSON.stringify (q ++ [memo])]> (localStorage (page w)) /\
     stored_queue (page w') = Some (q ++ [memo])).
Proof.
  intros Hq w'.
  assert ({e = Relay.SaveClick} + {e <> Relay.SaveClick}) as [-> | Hne]
    by (destruct e; first [left; reflexivity | right; discriminate]).
  all: subst w'.
  - destruct (relay_save_queue w q Hq) as [H | [ts [Hv H]]].
    + left. split; [exact H |]. rewrite (stored_queue_same _ _ H). exact Hq.
    + right; right. split; [reflexivity |]. exists ts. cbv zeta.
      split; [exact Hv |]. split; [exact H |].
      eapply stored_queue_insert. exact H.
  - destruct (relay_syncs e) eqn:Hy.
    + destruct (relay_step_kept_or_removed w e Hne) as [H | H].
      * left. split; [exact H |]. rewrite (stored_queue_same _ _ H). exact Hq.
      * right; left. split; [reflexivity |]. split; [exact H |].
        eapply stored_queue_delete. exact H.
    + pose proof (relay_step_storage_same w e Hy Hne) as H.
      left. split; [exact H |]. rewrite (stored_queue_same _ _ H). exact Hq.
Qed.

Lemma drive_step_queue cfg (w : World Drive.STATE) e q :
  stored_queue (page w) = Some q ->
  let w' := Drive.step env cfg e w in
  (localStorage (page w') = localStorage (page w) /\
   stored_queue (page w') = Some q) \/
  (drive_syncs e = true /\
   localStorage (page w') = delete pending_memos (localStorage (page w)) /\
   stored_queue (page w') = Some []) \/
  (e = Drive.SaveClick /\
   exists ts,
     let memo := mkMemo (trim (memoText (page w))) ts in
     all_ws (memoText (page w)) = false /\
     localStorage (page w')
     = <[pending_memos := JSON.stringify (q ++ [memo])]> (localStorage (page w)) /\
     stored_queue (page w') = Some (q ++ [memo])).
Proof.
  intros Hq w'.
  assert ({e = Drive.SaveClick} + {e <> Drive.SaveClick}) as [-> | Hne]
    by (destruct e; first [left; reflexivity | right; discriminate]).
  all: subst w'.
  - destruct (drive_save_queue cfg w q Hq) as [H | [ts [Hv H]]].
    + left. split; [exact H |]. rewrite (stored_queue_same _ _ H). exact Hq.
    + right; right. split; [reflexivity |]. exists ts. cbv zeta.
      split; [exact Hv |]. split; [exact H |].
      eapply stored_queue_insert. exact H.
  - destruct (drive_syncs e) eqn:Hy.
    + destruct (drive_step_kept_or_removed cfg w e Hne) as [H | H].
      * left. split; [exact H |]. rewrite (stored_queue_same _ _ H). exact Hq.
      * right; left. split; [reflexivity |]. split; [exact H |].
        eapply stored_queue_delete. exact H.
    + pose proof (drive_step_storage_same cfg w e Hy Hne) as H.
      left. split; [exact H |]. rewrite (stored_queue_same _ _ H). exact Hq.
Qed.

(** *** Queued texts *)

Lemma units_eqb_refl a : units_eqb a a = true.
Proof. induction a as [| x a IH]; [reflexivity |]. cbn. rewrite N.eqb_refl. exact IH. Qed.

Lemma tidy_trimmed v ts : all_ws v = false -> tidy (mkMemo (trim v) ts) = true.
Proof.
  intros Hv. unfold tidy. cbn [text].
  rewrite trim_idem, units_eqb_refl, andb_true_r.
  pose proof (truthy_trim (trim v)) as T. rewrite trim_idem, truthy_trim, Hv in T.
  cbn in T. destruct (all_ws (trim v)); [discriminate | reflexivity].
Qed.


Lemma relay_step_tidy (w : World Relay.appState) e :
  tidy_queue w -> tidy_queue (Relay.step env e w).
Proof.
  intros [q [Hq Ht]].
  destruct (relay_step_queue w e q Hq)
    as [[_ H] | [[_ [_ H]] | [_ [ts [Hv [_ H]]]]]].
  - exists q. split; assumption.
  - exists []. split; [assumption | reflexivity].
  - eexists. split; [exact H |].
    rewrite forallb_app, Ht. cbn. rewrite tidy_trimmed by exact Hv. reflexivity.
Qed.

Lemma drive_step_tidy cfg (w : World Drive.STATE) e :
  tidy_queue w -> tidy_queue (Drive.step env cfg e w).
Proof.
  intros [q [Hq Ht]].
  destruct (drive_step_queue cfg w e q Hq)
    as [[_ H] | [[_ [_ H]] | [_ [ts [Hv [_ H]]]]]].
  - exists q. split; assumption.
  - exists []. split; [assumption | reflexivity].
  - eexists. split; [exact H |].
    rewrite forallb_app, Ht. cbn. rewrite tidy_trimmed by exact Hv. reflexivity.
Qed.

End Storage.

(** X7.  Of device storage the page only ever writes the slot
    [pending_memos]: whatever happens in a session, the value under any
    other key is the one it had at the start.  Both variants. *)
Theorem only_queue_slot_is_written :
  forall (k : jsstring),
    k <> pending_memos ->
    (forall (env : Env) (J : JSONParse) (es : list Relay.Event)
            (w : World Relay.appState),
       localStorage (page (Relay.steps env es w)) !! k = localStorage (page w) !! k)
    /\
    (forall (env : Env) (J : JSONParse) (cfg : Drive.Config) (es : list Drive.Event)
            (w : World Drive.STATE),
       localStorage (page (Drive.steps env cfg es w)) !! k = localStorage (page w) !! k).
Proof.
  intros k Hk. split.
  - intros env J es. induction es as [| e es IH]; intros w; [reflexivity |].
    unfold Relay.steps. cbn [fold_left]. fold (Relay.steps env es (Relay.step env e w)).
    rewrite IH. apply relay_step_other_key, Hk.
  - intros env J cfg es. induction es as [| e es IH]; intros w; [reflexivity |].
    unfold Drive.steps. cbn [fold_left].
    fold (Drive.steps env cfg es (Drive.step env cfg e w)).
    rewrite IH. apply drive_step_other_key, Hk.
Qed.

Lemma only_queue_slot_is_written_witness :
  localStorage (page (Relay.steps Sample.calm
                        [Relay.Offline; Relay.Input (lit "tea"); Relay.SaveClick;
                         Relay.Online]
                        (Sample.relay true [] Sample.two_queued))) !! lit "theme"
  = None
  /\
  localStorage (page (Drive.steps Sample.calm Sample.cfg
                        [Drive.Input (lit "tea"); Drive.SaveClick; Drive.Online]
                        (Sample.drive false true [] Sample.two_queued))) !! lit "theme"
  = None.
Proof.
  split.
  - rewrite (proj1 (only_queue_slot_is_written (lit "theme") ltac:(discriminate))
               Sample.calm reader_parse).
    reflexivity.
  - rewrite (proj2 (only_queue_slot_is_written (lit "theme") ltac:(discriminate))
               Sample.calm reader_parse).
    reflexivity.
Defined.

(** X8.  What one event can do to storage over a readable queue [q], and
    how the queue reads afterwards.  Either storage is left exactly as it
    was; or the event is one whose handler runs the sync (relay: load and
    [online]; drive: [online] and the token callback) and the slot has been
    removed, nothing else; or the event is a click on the save control with
    non-blank editor text and the slot has been overwritten with [q]
    followed by exactly one note, whose text is the trimmed editor content.
    So only a sync empties the queue, only a save extends it, and no
    event reorders, rewrites or drops part of it.  Both variants. *)
Theorem queue_kept_emptied_or_extended :
  (forall (env : Env) (J : JSONParse) (w : World Relay.appState) (e : Relay.Event)
          (q : list PendingMemo),
     stored_queue (page w) = Some q ->
     let w' := Relay.step env e w in
     (localStorage (page w') = localStorage (page w) /\
      stored_queue (page w') = Some q) \/
     (relay_syncs e = true /\
      localStorage (page w') = delete pending_memos (localStorage (page w)) /\
      stored_queue (page w') = Some []) \/
     (e = Relay.SaveClick /\
      exists ts,
        let memo := mkMemo (trim (memoText (page w))) ts in
        all_ws (memoText (page w)) = false /\
        localStorage (page w')
        = <[pending_memos := JSON.stringify (q ++ [memo])]> (localStorage (page w)) /\
        stored_queue (page w') = Some (q ++ [memo])))
  /\
  (forall (env : Env) (J : JSONParse) (cfg : Drive.Config) (w : World Drive.STATE)
          (e : Drive.Event) (q : list PendingMemo),
     stored_queue (page w) = Some q ->
     let w' := Drive.step env cfg e w in
     (localStorage (page w') = localStorage (page w) /\
      stored_queue (page w') = Some q) \/
     (drive_syncs e = true /\
      localStorage (page w') = delete pending_memos (localStorage (page w)) /\
      stored_queue (page w') = Some []) \/
     (e = Drive.SaveClick /\
      exists ts,
        let memo := mkMemo (trim (memoText (page w))) ts in
        all_ws (memoText (page w)) = false /\
        localStorage (page w')
        = <[pending_memos := JSON.stringify (q ++ [memo])]> (localStorage (page w)) /\
        stored_queue (page w') = Some (q ++ [memo]))).
Proof.
  split; intros; [apply relay_step_queue | apply drive_step_queue]; assumption.
Qed.

Lemma queue_kept_emptied_or_extended_witness :
  (localStorage (page (Relay.step Sample.calm Relay.Offline
                         (Sample.relay true (lit " tea ") Sample.two_queued)))
   = localStorage (page (Sample.relay true (lit " tea ") Sample.two_queued)))
  /\
  (stored_queue (page (Drive.step Sample.calm Sample.cfg Drive.Online
                         (Sample.drive false true [] Sample.two_queued)))
   = Some []).
Proof.
  split.
  - destruct (proj1 queue_kept_emptied_or_extended Sample.calm reader_parse
                (Sample.relay true (lit " tea ") Sample.two_queued) Relay.Offline
                [Sample.milk; Sample.eggs] eq_refl)
      as [[H _] | [[H _] | [H _]]]; [exact H | discriminate H | discriminate H].
  - destruct (proj2 queue_kept_emptied_or_extended Sample.calm reader_parse Sample.cfg
                (Sample.drive false true [] Sample.two_queued) Drive.Online
                [Sample.milk; Sample.eggs] eq_refl)
      as [[_ H] | [[_ [_ H]] | [H _]]]; [| exact H | discriminate H].
    exfalso. revert H. vm_compute. discriminate.
Defined.

(** X9.  Blank notes are never queued and queued texts carry no
    surrounding white space: if the slot reads as a queue of such notes at
    the start of a session, it does so at every later point.  Both
    variants. *)
Theorem queued_notes_stay_tidy :
  (forall (env : Env) (J : JSONParse) (es : list Relay.Event)
          (w : World Relay.appState),
     tidy_queue w -> tidy_queue (Relay.steps env es w))
  /\
  (forall (env : Env) (J : JSONParse) (cfg : Drive.Config) (es : list Drive.Event)
          (w : World Drive.STATE),
     tidy_queue w -> tidy_queue (Drive.steps env cfg es w)).
Proof.
  split.
  - intros env J es. induction es as [| e es IH]; intros w H; [exact H |].
    unfold Relay.steps. cbn [fold_left]. apply IH, relay_step_tidy, H.
  - intros env J cfg es. induction es as [| e es IH]; intros w H; [exact H |].
    unfold Drive.steps. cbn [fold_left]. apply IH, drive_step_tidy, H.
Qed.

Lemma queued_notes_stay_tidy_witness :
  tidy_queue (Relay.steps Sample.calm
                [Relay.Input (lit "  tea  "); Relay.SaveClick;
                 Relay.Input (lit "   "); Relay.SaveClick]
                (Sample.relay false [] Sample.two_queued))
  /\
  tidy_queue (Drive.steps Sample.down Sample.cfg
                [Drive.Input ([0xA] ++ lit "tea "); Drive.SaveClick]
                (Sample.drive true true [] Sample.empty_slot)).
Proof.
  split.
  - apply (proj1 queued_notes_stay_tidy Sample.calm reader_parse).
    exists [Sample.milk; Sample.eggs]. split; reflexivity.
  - apply (proj2 queued_notes_stay_tidy Sample.down reader_parse).
    exists []. split; reflexivity.
Defined.

(** ** Signing in (drive variant) *)

Section AuthFacts.
Context (env : Env) {J : JSONParse} (cfg : Drive.Config).
Import Drive.

Ltac state_leaf :=
  let w := fresh "w" in
  let H := fresh "H" in
  intros w H; open_leaf; exact H.

(** The sync, the save and the load handler leave [STATE] alone. *)
Lemma drive_sync_state s : keeps (fun w => state w = s) (syncPendingData env cfg).
Proof. drive_open. all: state_leaf. Qed.

Lemma drive_save_state s : keeps (fun w => state w = s) (saveBtn_onclick env cfg).
Proof. drive_open. all: state_leaf. Qed.

Lemma drive_onload_state s : keeps (fun w => state w = s) (onload env).
Proof. drive_open. all: state_leaf. Qed.

Lemma run_state (m : M STATE unit) (w : World STATE) :
  (forall s, keeps (fun w => state w = s) m) -> state (run m w) = state w.
Proof.
  intros H. apply (keeps_run (fun w' => state w' = state w)); [apply H | | reflexivity].
  intros e w' Hw'. exact Hw'.
Qed.

Lemma gated_same_state (w w' : World STATE) :
  state w' = state w -> auth_gated w -> auth_gated w'.
Proof. unfold auth_gated. intros ->. trivial. Qed.

Lemma ready_gated (w : World STATE) : auth_ready (state w) = true -> auth_gated w.
Proof. intros H _. exact H. Qed.

Lemma idle_gated (w : World STATE) : auth_started (state w) = false -> auth_gated w.
Proof. unfold auth_gated. intros ->. discriminate. Qed.

(** The token callback and the [online] listener up to their sync. *)
Lemma token_callback_run resp (w : World STATE) :
  token_callback env cfg resp w
  = if truthy (resp_error resp) then (Throw (resp_thrown resp), w)
    else syncPendingData env cfg
           (mkWorld (with_authButton false (with_isAuthenticated true (state w)))
              (set_status (lit "ONLINE (AUTHED)") (lit "status-dot " ++ lit "online")
                 (page w))).
Proof.
  unfold token_callback. destruct (truthy (resp_error resp)); reflexivity.
Qed.

Lemma ononline_run (w : World STATE) :
  ononline env cfg w
  = detach (syncPendingData env cfg)
      (mkWorld (with_isOnline true (state w))
         (set_status (lit "ONLINE") (lit "status-dot " ++ lit "online") (page w))).
Proof. reflexivity. Qed.

Lemma sync_keeps_state (w : World STATE) :
  state (snd (syncPendingData env cfg w)) = state w.
Proof. exact (drive_sync_state (state w) w eq_refl). Qed.

Lemma drive_online_state (w : World STATE) :
  state (run (ononline env cfg) w) = with_isOnline true (state w).
Proof.
  unfold run, detach at 1, try_catch at 1. rewrite ononline_run.
  match goal with
  | |- context [detach _ ?w1] =>
      assert (state (snd (detach (syncPendingData env cfg) w1)) = state w1) as Fs
        by (apply (keeps_try_catch (fun w' => state w' = state w1));
              [apply drive_sync_state | intros e w' Hw'; exact Hw' | reflexivity]);
      destruct (detach (syncPendingData env cfg) w1) as [[[] | err] w2]
  end; cbn in Fs |- *; exact Fs.
Qed.

Lemma drive_token_state resp (w : World STATE) :
  truthy (resp_error resp) = false ->
  state (run (token_callback env cfg resp) w)
  = with_authButton false (with_isAuthenticated true (state w)).
Proof.
  intros Hr. unfold run, detach, try_catch. rewrite token_callback_run, Hr.
  match goal with
  | |- context [syncPendingData env cfg ?w1] =>
      pose proof (sync_keeps_state w1) as Fs;
      destruct (syncPendingData env cfg w1) as [[[] | err] w2]
  end; cbn in Fs |- *; exact Fs.
Qed.

Lemma initGis_gated (w : World STATE) :
  auth_gated w -> auth_gated (run (initGis env cfg) w).
Proof.
  unfold auth_gated, auth_started, auth_ready.
  destruct w as [[l o a t g i b] p].
  unfold initGis, initGis_body, maybeEnableAuth, renderAuthButton, modify_state.
  exec.
  destruct (window_google env (tick p)); cbn; [| trivial].
  destruct g; cbn.
  - destruct (getToken env _); cbn; reflexivity.
  - intros H H2. apply H. destruct b, a; cbn in *; try reflexivity; discriminate.
Qed.

Lemma drive_step_gated (w : World STATE) e :
  auth_gated w -> auth_gated (step env cfg e w).
Proof.
  intros H. destruct e; cbn [step].
  - (* Script *)
    apply idle_gated. unfold script, initGis, initGis_body, maybeEnableAuth,
      renderAuthButton,
      modify_state. exec.
    destruct (window_google env _); cbn;
      destruct speechSupported; reflexivity.
  - apply (gated_same_state w); [| exact H]. apply run_state, drive_onload_state.
  - (* GapiLoaded *)
    revert H. unfold auth_gated, auth_started, auth_ready.
    destruct w as [[l o a t g i b] p].
    unfold initGapi, maybeEnableAuth, renderAuthButton, modify_state. exec.
    destruct (client_init_outcome env (tick p)); cbn; [trivial |].
    destruct i; cbn.
    + destruct (getToken env _); cbn; reflexivity.
    + rewrite !andb_false_r. trivial.
  - (* AuthClick *)
    destruct (authButton (state w)) eqn:Hb; [| exact H].
    apply ready_gated.
    assert (auth_ready (state w) = true) as R
      by (apply H; unfold auth_started; rewrite Hb; reflexivity).
    revert R. unfold auth_ready. destruct w as [[l o a t g i b] p].
    unfold handleAuthClick, modify_state. exec.
    destruct t; cbn; [| trivial]. destruct (getToken env _); cbn; trivial.
  - (* TokenCallback *)
    destruct (tokenClient (state w)) as [[|] |] eqn:Ht; try exact H.
    apply ready_gated.
    assert (auth_ready (state w) = true) as R
      by (apply H; unfold auth_started; rewrite Ht; apply orb_true_r).
    destruct (truthy (resp_error resp)) eqn:Hr.
    + unfold run, detach, try_catch. rewrite token_callback_run, Hr. exact R.
    + rewrite (drive_token_state resp w Hr). exact R.
  - revert H. unfold auth_gated, auth_started, auth_ready.
    destruct w as [[l o a t g i b] p]. trivial.
  - revert H. unfold auth_gated, auth_started, auth_ready.
    destruct w as [[l o a t g i b] p].
    unfold onend, modify_state. exec. destruct o; trivial.
  - apply (gated_same_state w); [| exact H].
    unfold onresult. exec. destruct (truthy (final_transcript ev)); reflexivity.
  - apply (gated_same_state w); [| exact H].
    unfold micBtn_onclick. exec. destruct (isListening (state w)); reflexivity.
  - exact H.
  - destruct (saveDisabled (page w)); [exact H |].
    apply (gated_same_state w); [| exact H]. apply run_state, drive_save_state.
  - (* Online *)
    revert H. unfold auth_gated, auth_started, auth_ready.
    rewrite drive_online_state. trivial.
  - revert H. unfold auth_gated, auth_started, auth_ready.
    destruct w as [[l o a t g i b] p]. trivial.
  - (* TimerFired *)
    destruct (timers (page w) !! i) as [[[m k |] d] |]; [| | exact H].
    + apply (gated_same_state w); [reflexivity | exact H].
    + unfold run, detach, try_catch at 1, bind at 1, modify_page at 1.
      apply initGis_gated.
      apply (gated_same_state w); [reflexivity | exact H].
Qed.

End AuthFacts.

(** X10.  Drive variant: in a session that starts with the evaluation of
    the script, nothing of the sign-in happens before both client libraries
    are initialised: whenever the sign-in button is shown, the token
    callback is installed or the user counts as authenticated, both
    [gapiInited] and [gisInited] are set, in whichever order the two
    initialisations came. *)
Theorem sign_in_waits_for_both_libraries :
  forall (env : Env) (J : JSONParse) (cfg : Drive.Config) (speechSupported : bool)
         (es : list Drive.Event) (w : World Drive.STATE),
    auth_gated (Drive.steps env cfg (Drive.Script speechSupported :: es) w).
Proof.
  intros env J cfg b es w. unfold Drive.steps. cbn [fold_left].
  assert (forall w0 : World Drive.STATE, auth_gated w0 ->
            auth_gated (fold_left (fun w e => Drive.step env cfg e w) es w0)) as Hs.
  { induction es as [| e es IH]; intros w0 H0; [exact H0 |].
    cbn [fold_left]. apply IH, drive_step_gated, H0. }
  apply Hs.
  (* the script starts from a fresh [STATE] *)
  unfold auth_gated, auth_started, auth_ready. cbn [Drive.step].
  unfold Drive.script, Drive.initGis, Drive.initGis_body, Drive.maybeEnableAuth,
    Drive.renderAuthButton,
    Drive.modify_state. exec.
  destruct (window_google env _); cbn;
    destruct b; cbn; discriminate.
Qed.

Lemma sign_in_waits_for_both_libraries_witness :
  let w' := Drive.steps Outage.signed_out Sample.cfg
              [Drive.Script true; Drive.GapiLoaded]
              (Sample.drive true false [] Sample.empty_slot) in
  auth_started (state w') = true /\ auth_ready (state w') = true.
Proof.
  cbv zeta. split; [reflexivity |].
  exact (sign_in_waits_for_both_libraries Outage.signed_out reader_parse Sample.cfg
           true [Drive.GapiLoaded] (Sample.drive true false [] Sample.empty_slot)
           eq_refl).
Defined.

(** X11.  Drive variant, the token callback.  A response that carries an
    error is thrown back at the platform and nothing else happens: the user
    is not marked authenticated, the sign-in button stays, the status is
    not touched and no sync is tried.  A response without one marks the
    user authenticated, removes the button, shows ONLINE (AUTHED) and runs
    the sync from there, which leaves [STATE] as it is. *)
Theorem token_response_decides_sign_in :
  forall (env : Env) (J : JSONParse) (cfg : Drive.Config) (w : World Drive.STATE)
         (resp : Drive.TokenResponse),
    Drive.tokenClient (state w) = Some true ->
    let w' := Drive.step env cfg (Drive.TokenCallback resp) w in
    if truthy (Drive.resp_error resp) then
      w' = mkWorld (state w) (emit (EUnhandled (Drive.resp_thrown resp)) (page w))
    else
      w' = run (Drive.syncPendingData env cfg)
             (mkWorld (Drive.with_authButton false
                         (Drive.with_isAuthenticated true (state w)))
                (set_status (lit "ONLINE (AUTHED)") (lit "status-dot " ++ lit "online")
                   (page w)))
      /\ Drive.isAuthenticated (state w') = true
      /\ Drive.authButton (state w') = false.
Proof.
  intros env J cfg w resp Ht w'. subst w'. cbn [Drive.step]. rewrite Ht.
  destruct (truthy (Drive.resp_error resp)) eqn:Hr.
  - unfold run, detach, try_catch. rewrite token_callback_run, Hr. reflexivity.
  - split.
    + unfold run, detach, try_catch. rewrite token_callback_run, Hr. reflexivity.
    + rewrite (drive_token_state env cfg resp w Hr). split; reflexivity.
Qed.

Lemma token_response_decides_sign_in_witness :
  (let w := Sample.drive true false [] Sample.two_queued in
   Drive.step Sample.calm Sample.cfg
     (Drive.TokenCallback (Drive.mkResp (lit "access_denied") Sample.forbidden)) w
   = mkWorld (state w) (emit (EUnhandled Sample.forbidden) (page w)))
  /\
  (let w := Sample.drive true false [] Sample.two_queued in
   let w' := Drive.step Sample.calm Sample.cfg
               (Drive.TokenCallback (Drive.mkResp [] Sample.forbidden)) w in
   Drive.isAuthenticated (state w') = true /\
   localStorage (page w') !! pending_memos = None).
Proof.
  split.
  - exact (token_response_decides_sign_in Sample.calm reader_parse Sample.cfg
             (Sample.drive true false [] Sample.two_queued)
             (Drive.mkResp (lit "access_denied") Sample.forbidden) eq_refl).
  - cbv zeta.
    destruct (token_response_decides_sign_in Sample.calm reader_parse Sample.cfg
                (Sample.drive true false [] Sample.two_queued)
                (Drive.mkResp [] Sample.forbidden) eq_refl) as [E [Ha _]].
    split; [exact Ha |]. rewrite E. reflexivity.
Defined.

(** ** The adapter [saveToDrive] *)

Section AdapterFacts.
Context (env : Env) {J : JSONParse} (cfg : Drive.Config).
Import Drive.

Lemma saveToDrive_list_fails content (w : World STATE) e :
  files_list_outcome env (1 + tick (page w)) = inl e ->
  saveToDrive env cfg content w
  = (Throw e,
     mkWorld (state w)
       (logged [list_call (fileName_of (clock env (tick (page w)))) (FOLDER_ID cfg);
                EConsole (lit "error") (lit "Search failed") (Some e)]
          2 (page w))).
Proof.
  intros Hl. cbn [Nat.add] in Hl.
  unfold saveToDrive, getFileName, bind, try_catch, new_Date, files_list, files_get,
    gapi_request, ret, console, throw, modify_page.
  cbn -[fileName_of newEntry_of]. rewrite Hl. cbn -[fileName_of newEntry_of].
  f_equal. f_equal. apply page_ext; cbn -[fileName_of]; try reflexivity.
  rewrite <- !app_assoc. reflexivity.
Qed.

Lemma saveToDrive_get_fails content (w : World STATE) f fs e :
  files_list_outcome env (1 + tick (page w)) = inr (f :: fs) ->
  files_get_outcome env (2 + tick (page w)) = inl e ->
  saveToDrive env cfg content w
  = (Throw e,
     mkWorld (state w)
       (logged [list_call (fileName_of (clock env (tick (page w)))) (FOLDER_ID cfg);
                get_call (file_id f);
                EConsole (lit "error") (lit "Search failed") (Some e)]
          3 (page w))).
Proof.
  intros Hl Hg. cbn [Nat.add] in Hl, Hg.
  unfold saveToDrive, getFileName, bind, try_catch, new_Date, files_list, files_get,
    gapi_request, ret, console, throw, modify_page.
  cbn -[fileName_of newEntry_of]. rewrite Hl. cbn -[fileName_of newEntry_of].
  rewrite Hg. cbn -[fileName_of newEntry_of].
  f_equal. f_equal. apply page_ext; cbn -[fileName_of]; try reflexivity.
  rewrite <- !app_assoc. reflexivity.
Qed.

(** The calls of one [saveToDrive], whatever the outcomes: first calls
    that are no upload, then at most one upload. *)
Lemma saveToDrive_calls content (w : World STATE) :
  exists pre up,
    trace (page (snd (saveToDrive env cfg content w))) = trace (page w) ++ pre ++ up /\
    forallb (fun e => negb (is_upload e)) pre = true /\
    forallb is_upload up = true /\
    (length up <= 1)%nat /\
    (fst (saveToDrive env cfg content w) = Normal tt -> length up = 1%nat).
Proof.
  unfold saveToDrive, getFileName, bind, try_catch, new_Date, files_list, files_get,
    gapi_request, ret, console, throw, modify_page.
  cbn -[fileName_of newEntry_of].
  destruct (files_list_outcome env _) as [e | [| f fs]]; cbn -[fileName_of newEntry_of].
  - eexists [_; _], []. rewrite <- !app_assoc. cbn -[fileName_of].
    repeat split; try reflexivity; [lia | discriminate].
  - destruct (request_outcome env _); cbn -[fileName_of newEntry_of];
      eexists [_], [_]; rewrite <- !app_assoc; cbn -[fileName_of newEntry_of];
      repeat split; try reflexivity; lia.
  - destruct (files_get_outcome env _) as [e | body]; cbn -[fileName_of newEntry_of].
    + eexists [_; _; _], []. rewrite <- !app_assoc. cbn -[fileName_of].
      repeat split; try reflexivity; [lia | discriminate].
    + destruct (truthy (file_id f)); cbn -[fileName_of newEntry_of];
        destruct (request_outcome env _); cbn -[fileName_of newEntry_of];
        eexists [_; _], [_]; rewrite <- !app_assoc; cbn -[fileName_of newEntry_of];
        repeat split; try reflexivity; lia.
Qed.

End AdapterFacts.

(** X12.  [saveToDrive] when its search phase fails, at the listing or at
    the download of the day's document: the failure is logged as
    [Search failed] and thrown on unchanged, and no upload is made, so the
    day's document is neither created nor overwritten. *)
Theorem search_failure_stops_the_save :
  forall (env : Env) (J : JSONParse) (cfg : Drive.Config) (content : jsstring)
         (w : World Drive.STATE) (e : JsError),
    let name := Drive.fileName_of (clock env (tick (page w))) in
    (files_list_outcome env (1 + tick (page w)) = inl e ->
     Drive.saveToDrive env cfg content w
     = (Throw e,
        mkWorld (state w)
          (logged [Drive.list_call name (Drive.FOLDER_ID cfg);
                   EConsole (lit "error") (lit "Search failed") (Some e)]
             2 (page w))))
    /\
    (forall f fs,
       files_list_outcome env (1 + tick (page w)) = inr (f :: fs) ->
       files_get_outcome env (2 + tick (page w)) = inl e ->
       Drive.saveToDrive env cfg content w
       = (Throw e,
          mkWorld (state w)
            (logged [Drive.list_call name (Drive.FOLDER_ID cfg);
                     Drive.get_call (file_id f);
                     EConsole (lit "error") (lit "Search failed") (Some e)]
               3 (page w)))).
Proof.
  intros. split; intros.
  - apply saveToDrive_list_fails; assumption.
  - apply saveToDrive_get_fails with (fs := fs); assumption.
Qed.

Lemma search_failure_stops_the_save_witness :
  fst (Drive.saveToDrive Sample.down Sample.cfg (lit "tea")
         (Sample.drive true true [] Sample.empty_slot))
  = Throw Sample.forbidden.
Proof.
  rewrite (proj1 (search_failure_stops_the_save Sample.down reader_parse Sample.cfg
                    (lit "tea") (Sample.drive true true [] Sample.empty_slot)
                    Sample.forbidden) eq_refl).
  reflexivity.
Defined.

(** X13.  [saveToDrive] makes at most one upload per call, and always as
    its last call: whatever the outcomes of the remote calls, what it adds
    to the trace is a run of calls that upload nothing followed by no or
    one upload, and it is one whenever the function returns normally. *)
Theorem upload_is_single_and_last :
  forall (env : Env) (J : JSONParse) (cfg : Drive.Config) (content : jsstring)
         (w : World Drive.STATE),
  exists pre up,
    trace (page (snd (Drive.saveToDrive env cfg content w)))
    = trace (page w) ++ pre ++ up /\
    forallb (fun e => negb (is_upload e)) pre = true /\
    forallb is_upload up = true /\
    (length up <= 1)%nat /\
    (fst (Drive.saveToDrive env cfg content w) = Normal tt -> length up = 1%nat).
Proof. intros. apply saveToDrive_calls. Qed.

Lemma upload_is_single_and_last_witness :
  exists pre up,
    trace (page (snd (Drive.saveToDrive Sample.found Sample.cfg (lit "tea")
                        (Sample.drive true true [] Sample.empty_slot))))
    = trace (page (Sample.drive true true [] Sample.empty_slot)) ++ pre ++ up /\
    forallb (fun e => negb (is_upload e)) pre = true /\
    forallb is_upload up = true /\
    (length up <= 1)%nat /\
    (fst (Drive.saveToDrive Sample.found Sample.cfg (lit "tea")
            (Sample.drive true true [] Sample.empty_slot)) = Normal tt ->
     length up = 1%nat).
Proof.
  exact (upload_is_single_and_last Sample.found reader_parse Sample.cfg (lit "tea")
           (Sample.drive true true [] Sample.empty_slot)).
Defined.

(** ** Remote calls and connectivity *)

Section KeepsMore.
Context {S : Type} (P : World S -> Prop).

(** Reading the state inside an invariant proof, without losing what the
    invariant says about it. *)
Lemma keeps_get_state_bind {B} (k : S -> M S B) :
  (forall w, P w -> P (snd (k (state w) w))) -> keeps P (bind get_state k).
Proof. intros H w Hw. exact (H w Hw). Qed.

End KeepsMore.

(** As [keeps_structure], for an invariant that fixes the state: a
    [get_state] is replaced by the state in hand and [guards] rewrites
    the tests on it. *)
Ltac guard_structure guards :=
  repeat first
    [ apply keeps_ret
    | apply keeps_throw
    | apply keeps_get_page
    | apply keeps_get_state_bind;
      let w := fresh "w" in
      let Hs := fresh "Hs" in
      let Hc := fresh "Hc" in
      let HK := fresh "HK" in
      intros w [Hs Hc]; rewrite Hs; cbv beta; guards;
      cbv iota beta delta [negb orb andb];
      match goal with
      | |- ?P0 (snd (?m w)) =>
          enough (keeps P0 m) as HK by (apply HK; split; assumption);
          clear w Hs Hc
      end
    | apply keeps_bind; [| intros ?]
    | apply keeps_try_catch; [| intros ?]
    | apply keeps_for_of; intros ?
    | match goal with
      | |- keeps _ (if ?b then _ else _) => destruct b
      | |- keeps _ (match ?x with _ => _ end) => destruct x
      end ].

Ltac calls_leaf :=
  let w := fresh "w" in
  let H := fresh "H" in
  intros w H; open_leaf;
  first
    [ exact H
    | unfold network_calls, drive_calls in *; rewrite filter_app, H; apply app_nil_r ].

Ltac quiet_leaf :=
  let w := fresh "w" in
  let Hs := fresh "Hs" in
  let Hc := fresh "Hc" in
  unfold relay_quiet, drive_quiet;
  intros w [Hs Hc]; open_leaf;
  (split; [exact Hs |]);
  first
    [ exact Hc
    | unfold network_calls, drive_calls in *; rewrite filter_app, Hc; apply app_nil_r ].

Section Quiet.
Context (env : Env) {J : JSONParse}.

(** *** Relay *)

Lemma relay_sync_state s : keeps (fun w => state w = s) (Relay.syncOfflineMemosToSheet env).
Proof.
  relay_open.
  all: let w := fresh "w" in let H := fresh "H" in intros w H; open_leaf; exact H.
Qed.

Lemma relay_online_state (w : World Relay.appState) :
  state (run (Relay.ononline env) w) = Relay.mkState (Relay.isListening (state w)) true.
Proof.
  unfold run, detach at 1, try_catch at 1.
  change (Relay.ononline env w)
    with (detach (Relay.syncOfflineMemosToSheet env)
            (mkWorld (Relay.mkState (Relay.isListening (state w)) true)
               (set_status (lit "ONLINE") (lit "status-dot " ++ lit "online") (page w)))).
  match goal with
  | |- context [detach _ ?w1] =>
      assert (state (snd (detach (Relay.syncOfflineMemosToSheet env) w1)) = state w1) as Fs
        by (apply (keeps_try_catch (fun w' => state w' = state w1));
              [apply relay_sync_state | intros e w' Hw'; exact Hw' | reflexivity]);
      destruct (detach (Relay.syncOfflineMemosToSheet env) w1) as [[[] | err] w2]
  end; cbn in Fs |- *; exact Fs.
Qed.

Ltac relay_unfold :=
  unfold Relay.script, Relay.onload, Relay.onstart, Relay.onend,
    Relay.micBtn_onclick, Relay.ononline, Relay.onoffline, Relay.saveBtn_onclick,
    Relay.handleSaveFailure, Relay.saveTextLocally, saveToLocal, onresult, oninput,
    fire_status, detach, Relay.syncOfflineMemosToSheet,
    Relay.initializeDateDisplay, Relay.updateOnlineStatusDisplay,
    Relay.checkOfflineUnsavedMemos, Relay.set_isListening, Relay.set_isOnline,
    Relay.updateAppStatusMessage, Relay.sendMemoToSheet, read_pending,
    getItem, parse, console, alert, setTimeout, removeItem, setItem, updateStatus.

Ltac relay_no_call w :=
  apply (keeps_run (fun w' => network_calls (trace (page w'))
                             = network_calls (trace (page w))));
    [| intros ?; unfold modify_page; calls_leaf | reflexivity];
  relay_open; calls_leaf.

(** A handler that starts while the page counts as offline: the guards
    are tested on the state in hand. *)
Ltac relay_guarded w Hoff :=
  apply (keeps_run (relay_quiet (state w) (network_calls (trace (page w)))));
    [| intros ?; unfold modify_page; quiet_leaf | split; reflexivity];
  relay_unfold;
  guard_structure ltac:(rewrite ?Hoff);
  cbv zeta; guard_structure ltac:(rewrite ?Hoff);
  unfold new_Date, read_onLine, fetch, modify_page, put_state;
  quiet_leaf.

Lemma relay_offline_start_quiet (w : World Relay.appState) e :
  Relay.isOnline (state w) = false ->
  e <> Relay.Online ->
  network_calls (trace (page (Relay.step env e w))) = network_calls (trace (page w)).
Proof.
  intros Hoff Hne. destruct e; cbn [Relay.step]; try congruence.
  - relay_no_call w.
  - (* PageLoad *) relay_guarded w Hoff.
  - relay_no_call w.
  - relay_no_call w.
  - relay_no_call w.
  - relay_no_call w.
  - relay_no_call w.
  - (* SaveClick *)
    destruct (saveDisabled (page w)); [reflexivity |]. relay_guarded w Hoff.
  - relay_no_call w.
  - destruct (timers (page w) !! i) as [[cb ?] |]; [| reflexivity]. relay_no_call w.
Qed.

(** *** Drive *)

Ltac drive_unfold :=
  unfold Drive.script, Drive.onload, Drive.onstart, Drive.onend,
    Drive.micBtn_onclick, Drive.ononline, Drive.onoffline, Drive.saveBtn_onclick,
    saveToLocal, onresult, oninput, Drive.fire, detach, Drive.token_callback,
    Drive.handleAuthClick, Drive.initGapi, Drive.initGis, Drive.initGis_body,
    Drive.maybeEnableAuth,
    Drive.renderAuthButton, Drive.syncPendingData, Drive.saveToDrive,
    Drive.getFileName, Drive.initDateDisplay, Drive.checkOnlineStatus,
    Drive.loadOfflineData, Drive.modify_state, read_pending, getItem, parse,
    console, alert, setTimeout, removeItem, setItem, updateStatus.

Ltac drive_no_call w :=
  apply (keeps_run (fun w' => drive_calls (trace (page w'))
                             = drive_calls (trace (page w))));
    [| intros ?; unfold modify_page; calls_leaf | reflexivity];
  drive_open; calls_leaf.

Ltac drive_guarded w guards :=
  apply (keeps_run (drive_quiet (state w) (drive_calls (trace (page w)))));
    [| intros ?; unfold modify_page; quiet_leaf | split; reflexivity];
  drive_unfold;
  guard_structure guards;
  cbv zeta; guard_structure guards;
  unfold new_Date, read_onLine, Drive.files_list, Drive.files_get,
    Drive.gapi_request, Drive.gapi_getToken, modify_page, put_state;
  quiet_leaf.

Lemma drive_offline_start_quiet cfg (w : World Drive.STATE) e :
  Drive.isOnline (state w) = false ->
  e <> Drive.Online ->
  drive_calls (trace (page (Drive.step env cfg e w))) = drive_calls (trace (page w)).
Proof.
  intros Hoff Hne. destruct e; cbn [Drive.step]; try congruence.
  - drive_no_call w.
  - drive_no_call w.
  - drive_no_call w.
  - destruct (Drive.authButton (state w)); [| reflexivity]. drive_no_call w.
  - (* TokenCallback: the sync meets its guard *)
    destruct (Drive.tokenClient (state w)) as [[|] |]; try reflexivity.
    unfold run, detach, try_catch. rewrite token_callback_run.
    destruct (truthy (Drive.resp_error resp)).
    + cbn. unfold drive_calls. rewrite filter_app. apply app_nil_r.
    + rewrite DriveFacts.drive_sync_noop by (left; exact Hoff). reflexivity.
  - drive_no_call w.
  - drive_no_call w.
  - drive_no_call w.
  - drive_no_call w.
  - drive_no_call w.
  - (* SaveClick *)
    destruct (saveDisabled (page w)); [reflexivity |].
    drive_guarded w ltac:(rewrite ?Hoff).
  - drive_no_call w.
  - destruct (timers (page w) !! i) as [[cb ?] |]; [| reflexivity]. drive_no_call w.
Qed.

Lemma drive_signed_out_start_quiet cfg (w : World Drive.STATE) e :
  Drive.isAuthenticated (state w) = false ->
  (forall resp, e <> Drive.TokenCallback resp) ->
  drive_calls (trace (page (Drive.step env cfg e w))) = drive_calls (trace (page w)).
Proof.
  intros Ha Hne. destruct e; cbn [Drive.step];
    try (exfalso; eapply Hne; reflexivity).
  - drive_no_call w.
  - drive_no_call w.
  - drive_no_call w.
  - destruct (Drive.authButton (state w)); [| reflexivity]. drive_no_call w.
  - drive_no_call w.
  - drive_no_call w.
  - drive_no_call w.
  - drive_no_call w.
  - drive_no_call w.
  - (* SaveClick *)
    destruct (saveDisabled (page w)); [reflexivity |].
    drive_guarded w ltac:(rewrite ?Ha, ?andb_false_r).
  - (* Online: the sync meets its guard *)
    unfold run, detach at 1, try_catch at 1. rewrite ononline_run.
    unfold detach, try_catch.
    rewrite DriveFacts.drive_sync_noop by (right; left; exact Ha). reflexivity.
  - drive_no_call w.
  - destruct (timers (page w) !! i) as [[cb ?] |]; [| reflexivity]. drive_no_call w.
Qed.

End Quiet.

(** X14.  A handler that starts without a viable path makes no remote
    call.  Relay variant: when [appState.isOnline] is unset as a handler
    starts, the handler of any event but [online] (which sets the flag
    itself) issues no outbound call.  Drive variant: when [STATE.isOnline]
    is unset, the handler of any event but [online] issues no call to the
    Drive files API, and when [STATE.isAuthenticated] is unset, neither
    does the handler of any event but the token callback (which sets that
    flag itself).  In each of these cases the test of the flag comes
    before the handler's first [await] and the branch taken has none, so
    the handler is over within the turn it started in. *)
Theorem handler_started_offline_makes_no_call :
  (forall (env : Env) (J : JSONParse) (w : World Relay.appState) (e : Relay.Event),
     Relay.isOnline (state w) = false ->
     e <> Relay.Online ->
     network_calls (trace (page (Relay.step env e w)))
     = network_calls (trace (page w)))
  /\
  (forall (env : Env) (J : JSONParse) (cfg : Drive.Config) (w : World Drive.STATE)
          (e : Drive.Event),
     (Drive.isOnline (state w) = false ->
      e <> Drive.Online ->
      drive_calls (trace (page (Drive.step env cfg e w)))
      = drive_calls (trace (page w)))
     /\
     (Drive.isAuthenticated (state w) = false ->
      (forall resp, e <> Drive.TokenCallback resp) ->
      drive_calls (trace (page (Drive.step env cfg e w)))
      = drive_calls (trace (page w)))).
Proof.
  split; [| split]; intros.
  - apply relay_offline_start_quiet; assumption.
  - apply drive_offline_start_quiet; assumption.
  - apply drive_signed_out_start_quiet; assumption.
Qed.

Lemma handler_started_offline_makes_no_call_witness :
  network_calls (trace (page (Relay.step Sample.calm Relay.SaveClick
                                (Sample.relay false (lit "tea") Sample.two_queued))))
  = []
  /\
  drive_calls (trace (page (Drive.step Sample.calm Sample.cfg
                              (Drive.TokenCallback (Drive.mkResp [] Sample.forbidden))
                              (Sample.drive false false [] Sample.two_queued))))
  = []
  /\
  drive_calls (trace (page (Drive.step Sample.calm Sample.cfg Drive.Online
                              (Sample.drive false false [] Sample.two_queued))))
  = [].
Proof.
  split; [| split].
  - exact (proj1 handler_started_offline_makes_no_call Sample.calm reader_parse
             (Sample.relay false (lit "tea") Sample.two_queued) Relay.SaveClick
             eq_refl ltac:(discriminate)).
  - exact (proj1 (proj2 handler_started_offline_makes_no_call Sample.calm reader_parse
                    Sample.cfg (Sample.drive false false [] Sample.two_queued)
                    (Drive.TokenCallback (Drive.mkResp [] Sample.forbidden)))
             eq_refl ltac:(discriminate)).
  - exact (proj2 (proj2 handler_started_offline_makes_no_call Sample.calm reader_parse
                    Sample.cfg (Sample.drive false false [] Sample.two_queued)
                    Drive.Online)
             eq_refl ltac:(intros resp; discriminate)).
Defined.

(** ** An unreadable queue slot *)

Section Unreadable.
Context (env : Env) {J : JSONParse}.

Lemma read_pending_throws {S : Type} (w : World S) :
  stored_queue (page w) = None ->
  read_pending w = (Throw (JSON_parse_error (slot_text (page w))), w).
Proof.
  unfold stored_queue, read_pending, getItem, parse, bind, get_page, ret, slot_text.
  intros ->. reflexivity.
Qed.

Lemma saveToLocal_throws {S : Type} (w : World S) t :
  stored_queue (page w) = None ->
  saveToLocal env t w = (Throw (JSON_parse_error (slot_text (page w))), w).
Proof.
  intros Hq. unfold saveToLocal, bind at 1. rewrite (read_pending_throws w Hq).
  reflexivity.
Qed.

Lemma relay_load_unreadable (w : World Relay.appState) :
  stored_queue (page w) = None ->
  Relay.step env Relay.PageLoad w
  = mkWorld (state w)
      (mkPage (connectivity_label (navigator_onLine env (1 + tick (page w))))
         (connectivity_dot (navigator_onLine env (1 + tick (page w))))
         (toLocaleDateString_ja (clock env (tick (page w))))
         (memoText (page w)) (micListening (page w)) (micHidden (page w))
         (saveDisabled (page w)) (localStorage (page w)) (timers (page w))
         (trace (page w) ++ [EUnhandled (JSON_parse_error (slot_text (page w)))])
         (2 + tick (page w))).
Proof.
  intros Hq. cbn [Relay.step].
  unfold run, detach, try_catch, Relay.onload.
  unfold bind at 1, Relay.initializeDateDisplay, bind at 1, new_Date, modify_page.
  unfold bind at 1, Relay.updateOnlineStatusDisplay, bind at 1, read_onLine.
  cbn [page tick next_tick set_dateDisplay state].
  destruct (navigator_onLine env (Datatypes.S (tick (page w)))) eqn:Hn;
    unfold Relay.updateAppStatusMessage, updateStatus, modify_page;
    unfold bind at 1, Relay.checkOfflineUnsavedMemos, bind at 1;
    (rewrite read_pending_throws by exact Hq);
    cbn; rewrite Hn; reflexivity.
Qed.

Lemma drive_load_unreadable cfg (w : World Drive.STATE) :
  stored_queue (page w) = None ->
  Drive.step env cfg Drive.PageLoad w
  = mkWorld (state w)
      (mkPage (connectivity_label (navigator_onLine env (1 + tick (page w))))
         (connectivity_dot (navigator_onLine env (1 + tick (page w))))
         (toLocaleDateString_ja (clock env (tick (page w))))
         (memoText (page w)) (micListening (page w)) (micHidden (page w))
         (saveDisabled (page w)) (localStorage (page w)) (timers (page w))
         (trace (page w) ++ [EUnhandled (JSON_parse_error (slot_text (page w)))])
         (2 + tick (page w))).
Proof.
  intros Hq. cbn [Drive.step].
  unfold run, detach, try_catch, Drive.onload.
  unfold bind at 1, Drive.initDateDisplay, bind at 1, new_Date, modify_page.
  unfold bind at 1, Drive.checkOnlineStatus, bind at 1, read_onLine.
  cbn [page tick next_tick set_dateDisplay state].
  destruct (navigator_onLine env (Datatypes.S (tick (page w)))) eqn:Hn;
    unfold updateStatus, modify_page;
    unfold bind at 1, Drive.loadOfflineData, bind at 1;
    (rewrite read_pending_throws by exact Hq);
    cbn; rewrite Hn; reflexivity.
Qed.

Lemma relay_local_save_unreadable (w : World Relay.appState) :
  stored_queue (page w) = None ->
  Relay.isOnline (state w) = false ->
  all_ws (memoText (page w)) = false ->
  run (Relay.saveBtn_onclick env) w
  = mkWorld (state w)
      (emit (EUnhandled (JSON_parse_error (slot_text (page w))))
         (page (Relay.saving w))).
Proof.
  intros Hq Hoff Hv.
  unfold run, detach, try_catch, Relay.saveBtn_onclick.
  unfold bind at 1, get_page at 1. rewrite truthy_trim, Hv. cbn [negb].
  unfold bind at 1, Relay.updateAppStatusMessage, updateStatus, modify_page at 1.
  unfold bind at 1, modify_page at 1.
  unfold bind at 1, get_state at 1. cbn [state]. rewrite Hoff.
  unfold bind at 1, Relay.saveTextLocally.
  rewrite saveToLocal_throws by exact Hq. reflexivity.
Qed.

Lemma drive_local_save_unreadable cfg (w : World Drive.STATE) :
  stored_queue (page w) = None ->
  Drive.isOnline (state w) && Drive.isAuthenticated (state w) = false ->
  all_ws (memoText (page w)) = false ->
  run (Drive.saveBtn_onclick env cfg) w
  = mkWorld (state w)
      (emit (EUnhandled (JSON_parse_error (slot_text (page w))))
         (page (Drive.saving w))).
Proof.
  intros Hq Hoff Hv.
  unfold run, detach, try_catch, Drive.saveBtn_onclick.
  unfold bind at 1, get_page at 1. rewrite truthy_trim, Hv. cbn [negb].
  unfold bind at 1, updateStatus, modify_page at 1.
  unfold bind at 1, modify_page at 1.
  unfold bind at 1, get_state at 1. cbn [state]. rewrite Hoff.
  unfold bind at 1.
  rewrite saveToLocal_throws by exact Hq. reflexivity.
Qed.

End Unreadable.

(** X15.  The load handler when the slot holds something [JSON.parse]
    rejects: the date and the connectivity status are shown, then the peek
    at the queue throws and the handler ends there.  The relay variant
    therefore tries no sync, though it may be online, and the drive
    variant never asks for the Google client library ([gapi.load] is not
    reached), so that sign-in cannot start.  Storage is left as it is. *)
Theorem load_stops_at_unreadable_slot :
  (forall (env : Env) (J : JSONParse) (w : World Relay.appState),
     stored_queue (page w) = None ->
     Relay.step env Relay.PageLoad w
     = mkWorld (state w)
         (mkPage (connectivity_label (navigator_onLine env (1 + tick (page w))))
            (connectivity_dot (navigator_onLine env (1 + tick (page w))))
            (toLocaleDateString_ja (clock env (tick (page w))))
            (memoText (page w)) (micListening (page w)) (micHidden (page w))
            (saveDisabled (page w)) (localStorage (page w)) (timers (page w))
            (trace (page w) ++ [EUnhandled (JSON_parse_error (slot_text (page w)))])
            (2 + tick (page w))))
  /\
  (forall (env : Env) (J : JSONParse) (cfg : Drive.Config) (w : World Drive.STATE),
     stored_queue (page w) = None ->
     Drive.step env cfg Drive.PageLoad w
     = mkWorld (state w)
         (mkPage (connectivity_label (navigator_onLine env (1 + tick (page w))))
            (connectivity_dot (navigator_onLine env (1 + tick (page w))))
            (toLocaleDateString_ja (clock env (tick (page w))))
            (memoText (page w)) (micListening (page w)) (micHidden (page w))
            (saveDisabled (page w)) (localStorage (page w)) (timers (page w))
            (trace (page w) ++ [EUnhandled (JSON_parse_error (slot_text (page w)))])
            (2 + tick (page w)))).
Proof.
  split; intros; [apply relay_load_unreadable | apply drive_load_unreadable];
    assumption.
Qed.

Lemma load_stops_at_unreadable_slot_witness :
  trace (page (Relay.step Sample.calm Relay.PageLoad
                 (Sample.relay true [] (Some (lit "[{")))))
  = [EUnhandled (Reader.syntax_error (lit "[{"))]
  /\
  trace (page (Drive.step Sample.calm Sample.cfg Drive.PageLoad
                 (Sample.drive true true [] (Some (lit "oops")))))
  = [EUnhandled (Reader.syntax_error (lit "oops"))].
Proof.
  split.
  - rewrite (proj1 load_stops_at_unreadable_slot Sample.calm reader_parse
               (Sample.relay true [] (Some (lit "[{"))) eq_refl).
    reflexivity.
  - rewrite (proj2 load_stops_at_unreadable_slot Sample.calm reader_parse Sample.cfg
               (Sample.drive true true [] (Some (lit "oops"))) eq_refl).
    reflexivity.
Defined.

(** X16.  A save that turns to the device while the slot holds something
    [JSON.parse] rejects (relay: offline; drive: offline or not signed in):
    [saveToLocal] throws before it writes, and the handler ends there.  The
    note is not stored, the editor keeps its text, and the page is left
    with the saving status and a disabled save control; no timer is set
    and no notice is shown. *)
Theorem local_save_stops_at_unreadable_slot :
  (forall (env : Env) (J : JSONParse) (w : World Relay.appState),
     stored_queue (page w) = None ->
     Relay.isOnline (state w) = false ->
     all_ws (memoText (page w)) = false ->
     run (Relay.saveBtn_onclick env) w
     = mkWorld (state w)
         (emit (EUnhandled (JSON_parse_error (slot_text (page w))))
            (page (Relay.saving w))))
  /\
  (forall (env : Env) (J : JSONParse) (cfg : Drive.Config) (w : World Drive.STATE),
     stored_queue (page w) = None ->
     Drive.isOnline (state w) && Drive.isAuthenticated (state w) = false ->
     all_ws (memoText (page w)) = false ->
     run (Drive.saveBtn_onclick env cfg) w
     = mkWorld (state w)
         (emit (EUnhandled (JSON_parse_error (slot_text (page w))))
            (page (Drive.saving w)))).
Proof.
  split; intros;
    [apply relay_local_save_unreadable | apply drive_local_save_unreadable];
    assumption.
Qed.

Lemma local_save_stops_at_unreadable_slot_witness :
  (let w' := run (Relay.saveBtn_onclick Sample.calm)
               (Sample.relay false (lit "tea") (Some (lit "[{"))) in
   memoText (page w') = lit "tea" /\ saveDisabled (page w') = true /\
   localStorage (page w') !! pending_memos = Some (lit "[{"))
  /\
  (let w' := run (Drive.saveBtn_onclick Sample.calm Sample.cfg)
               (Sample.drive true false (lit "tea") (Some (lit "[{"))) in
   memoText (page w') = lit "tea" /\ saveDisabled (page w') = true /\
   localStorage (page w') !! pending_memos = Some (lit "[{")).
Proof.
  split; cbv zeta.
  - rewrite (proj1 local_save_stops_at_unreadable_slot Sample.calm reader_parse
               (Sample.relay false (lit "tea") (Some (lit "[{")))
               eq_refl eq_refl eq_refl).
    repeat split; reflexivity.
  - rewrite (proj2 local_save_stops_at_unreadable_slot Sample.calm reader_parse
               Sample.cfg (Sample.drive true false (lit "tea") (Some (lit "[{")))
               eq_refl eq_refl eq_refl).
    repeat split; reflexivity.
Defined.

(** ** The microphone control *)

Section KeepsState.
Context (env : Env) {J : JSONParse}.

Lemma keeps_modify_state (P : World Drive.STATE -> Prop) f :
  (forall w, P w -> P (mkWorld (f (state w)) (page w))) ->
  keeps P (Drive.modify_state f).
Proof. intros H w Hw. exact (H w Hw). Qed.

Lemma keeps_set_isOnline (P : World Relay.appState -> Prop) b :
  (forall w, P w -> P (mkWorld (Relay.mkState (Relay.isListening (state w)) b) (page w))) ->
  keeps P (Relay.set_isOnline b).
Proof. intros H w Hw. exact (H w Hw). Qed.

End KeepsState.

(** As [keeps_structure], for an invariant that reads the state: the
    writes to one field of the state are kept whole. *)
Ltac state_structure :=
  repeat first
    [ apply keeps_ret
    | apply keeps_throw
    | apply keeps_get_state
    | apply keeps_get_page
    | apply keeps_modify_state
    | apply keeps_set_isOnline
    | apply keeps_bind; [| intros ?]
    | apply keeps_try_catch; [| intros ?]
    | apply keeps_for_of; intros ?
    | match goal with
      | |- keeps _ (if ?b then _ else _) => destruct b
      | |- keeps _ (match ?x with _ => _ end) => destruct x
      end ].

Section Mic.
Context (env : Env) {J : JSONParse}.

Ltac mic_leaf :=
  let w := fresh "w" in
  let H := fresh "H" in
  unfold relay_mic_in_step, drive_mic_in_step;
  intros w H; open_leaf; exact H.

Lemma relay_step_mic (w : World Relay.appState) e :
  (forall b, e <> Relay.Script b) ->
  relay_mic_in_step w -> relay_mic_in_step (Relay.step env e w).
Proof.
  intros Hs H. destruct e; cbn [Relay.step];
    try (exfalso; eapply Hs; reflexivity);
    try (match goal with |- context [Relay.onstart] => idtac end;
         unfold relay_mic_in_step, Relay.onstart, Relay.set_isListening; exec;
         reflexivity);
    try (match goal with |- context [Relay.onend] => idtac end;
         unfold relay_mic_in_step, Relay.onend, Relay.set_isListening; exec;
         destruct (Relay.isOnline (state w)); reflexivity);
    try (destruct (saveDisabled (page w)));
    try (destruct (timers (page w) !! i) as [[cb ?] |]);
    try exact H;
    try reflexivity;
    (apply (keeps_run relay_mic_in_step);
       [| intros ?; unfold modify_page; mic_leaf | exact H]).
  all: unfold Relay.onload, Relay.micBtn_onclick, Relay.ononline, Relay.onoffline,
         Relay.saveBtn_onclick, Relay.handleSaveFailure, Relay.saveTextLocally,
         saveToLocal, onresult, oninput, fire_status, detach,
         Relay.syncOfflineMemosToSheet, Relay.initializeDateDisplay,
         Relay.updateOnlineStatusDisplay, Relay.checkOfflineUnsavedMemos,
         Relay.updateAppStatusMessage, Relay.sendMemoToSheet, read_pending,
         getItem, parse, console, alert, setTimeout, removeItem, setItem, updateStatus.
  all: state_structure; cbv zeta; state_structure.
  all: unfold new_Date, read_onLine, fetch, modify_page, put_state.
  all: mic_leaf.
Qed.

Lemma drive_step_mic cfg (w : World Drive.STATE) e :
  (forall b, e <> Drive.Script b) ->
  drive_mic_in_step w -> drive_mic_in_step (Drive.step env cfg e w).
Proof.
  intros Hs H. destruct e; cbn [Drive.step];
    try (exfalso; eapply Hs; reflexivity);
    try (match goal with |- context [Drive.onstart] => idtac end;
         unfold drive_mic_in_step, Drive.onstart, Drive.modify_state; exec;
         reflexivity);
    try (match goal with |- context [Drive.onend] => idtac end;
         unfold drive_mic_in_step, Drive.onend, Drive.modify_state; exec;
         destruct (Drive.isOnline (state w)); reflexivity);
    try (destruct (saveDisabled (page w)));
    try (destruct (Drive.authButton (state w)));
    try (destruct (Drive.tokenClient (state w)) as [[|] |]);
    try (destruct (timers (page w) !! i) as [[cb ?] |]);
    try exact H;
    try reflexivity;
    (apply (keeps_run drive_mic_in_step);
       [| intros ?; unfold modify_page; mic_leaf | exact H]).
  all: unfold Drive.onload, Drive.micBtn_onclick, Drive.ononline, Drive.onoffline,
         Drive.saveBtn_onclick, saveToLocal, onresult, oninput, Drive.fire, detach,
         Drive.token_callback, Drive.handleAuthClick, Drive.initGapi, Drive.initGis,
         Drive.initGis_body,
         Drive.maybeEnableAuth, Drive.renderAuthButton, Drive.syncPendingData,
         Drive.saveToDrive, Drive.getFileName, Drive.initDateDisplay,
         Drive.checkOnlineStatus, Drive.loadOfflineData, read_pending, getItem, parse,
         console, alert, setTimeout, removeItem, setItem, updateStatus.
  all: state_structure; cbv zeta; state_structure.
  all: unfold new_Date, read_onLine, Drive.files_list, Drive.files_get,
         Drive.gapi_request, Drive.gapi_getToken, modify_page, put_state.
  all: mic_leaf.
Qed.

End Mic.

(** X17.  The [listening] class of the microphone control and the flag
    [isListening] never part: if they agree before an event of the running
    page (any event but the evaluation of the script), they agree after
    it.  The two recognition callbacks set both; no other handler touches
    either.  Both variants. *)
Theorem mic_class_follows_flag :
  (forall (env : Env) (J : JSONParse) (w : World Relay.appState) (e : Relay.Event),
     (forall b, e <> Relay.Script b) ->
     relay_mic_in_step w -> relay_mic_in_step (Relay.step env e w))
  /\
  (forall (env : Env) (J : JSONParse) (cfg : Drive.Config) (w : World Drive.STATE)
          (e : Drive.Event),
     (forall b, e <> Drive.Script b) ->
     drive_mic_in_step w -> drive_mic_in_step (Drive.step env cfg e w)).
Proof.
  split; intros; [apply relay_step_mic | apply drive_step_mic]; assumption.
Qed.

Lemma mic_class_follows_flag_witness :
  relay_mic_in_step
    (Relay.step Sample.calm Relay.RecognitionStart
       (Sample.relay true [] Sample.empty_slot))
  /\
  drive_mic_in_step
    (Drive.step Sample.calm Sample.cfg Drive.Online
       (Sample.drive false true [] Sample.two_queued)).
Proof.
  split.
  - apply (proj1 mic_class_follows_flag Sample.calm reader_parse);
      [intros b; discriminate | reflexivity].
  - apply (proj2 mic_class_follows_flag Sample.calm reader_parse);
      [intros b; discriminate | reflexivity].
Defined.

(** X18.  What a click on the microphone control asks of the recogniser
    follows the last recognition callback: after [onstart] a click asks it
    to stop, after [onend] to start, and the click itself changes nothing
    on the page.  Both variants. *)
Theorem mic_click_toggles :
  (forall (env : Env) (J : JSONParse) (w : World Relay.appState),
     Relay.step env Relay.MicClick (Relay.step env Relay.RecognitionStart w)
     = mkWorld (state (Relay.step env Relay.RecognitionStart w))
         (emit ERecognitionStop (page (Relay.step env Relay.RecognitionStart w)))
     /\
     Relay.step env Relay.MicClick (Relay.step env Relay.RecognitionEnd w)
     = mkWorld (state (Relay.step env Relay.RecognitionEnd w))
         (emit ERecognitionStart (page (Relay.step env Relay.RecognitionEnd w))))
  /\
  (forall (env : Env) (J : JSONParse) (cfg : Drive.Config) (w : World Drive.STATE),
     Drive.step env cfg Drive.MicClick (Drive.step env cfg Drive.RecognitionStart w)
     = mkWorld (state (Drive.step env cfg Drive.RecognitionStart w))
         (emit ERecognitionStop (page (Drive.step env cfg Drive.RecognitionStart w)))
     /\
     Drive.step env cfg Drive.MicClick (Drive.step env cfg Drive.RecognitionEnd w)
     = mkWorld (state (Drive.step env cfg Drive.RecognitionEnd w))
         (emit ERecognitionStart (page (Drive.step env cfg Drive.RecognitionEnd w)))).
Proof.
  split; intros; split; cbn [Relay.step Drive.step];
    unfold Relay.micBtn_onclick, Relay.onstart, Relay.onend, Relay.set_isListening,
      Drive.micBtn_onclick, Drive.onstart, Drive.onend, Drive.modify_state;
    exec;
    try destruct (Relay.isOnline (state w));
    try destruct (Drive.isOnline (state w));
    reflexivity.
Qed.

(** ** The identity library (drive variant) *)

Section Identity.
Context (env : Env) {J : JSONParse} (cfg : Drive.Config).
Import Drive.

Lemma same_state_client (w w' : World STATE) :
  state w' = state w -> client_present w -> client_present w'.
Proof. unfold client_present. intros ->. trivial. Qed.

Lemma initGis_client (w : World STATE) :
  client_present w -> client_present (run (initGis env cfg) w).
Proof.
  unfold client_present. destruct w as [[l o a t g i b] p].
  unfold initGis, initGis_body, maybeEnableAuth, renderAuthButton, modify_state.
  exec.
  destruct (window_google env (tick p)); cbn; [| trivial].
  intros H. destruct g; cbn; [destruct (getToken env _); cbn |]; discriminate.
Qed.

Lemma drive_step_client (w : World STATE) e :
  client_present w -> client_present (step env cfg e w).
Proof.
  intros H. destruct e; cbn [step].
  - (* Script *)
    unfold client_present, script, initGis, initGis_body, maybeEnableAuth,
      renderAuthButton,
      modify_state. exec.
    destruct (window_google env _); cbn;
      destruct speechSupported; cbn; discriminate.
  - apply (same_state_client w); [| exact H]. apply run_state, drive_onload_state.
  - (* GapiLoaded *)
    revert H. unfold client_present. destruct w as [[l o a t g i b] p].
    unfold initGapi, maybeEnableAuth, renderAuthButton, modify_state. exec.
    destruct (client_init_outcome env (tick p)); cbn; [trivial |].
    destruct i; cbn; [destruct (getToken env _); cbn |]; trivial.
  - (* AuthClick *)
    destruct (authButton (state w)); [| exact H].
    revert H. unfold client_present. destruct w as [[l o a t g i b] p].
    unfold handleAuthClick, modify_state. exec.
    destruct t; cbn; [| trivial]. destruct (getToken env _); cbn; discriminate.
  - (* TokenCallback *)
    destruct (tokenClient (state w)) as [[|] |] eqn:Ht; try exact H.
    destruct (truthy (resp_error resp)) eqn:Hr.
    + unfold run, detach, try_catch. rewrite token_callback_run, Hr. exact H.
    + unfold client_present. rewrite (drive_token_state env cfg resp w Hr).
      cbn. rewrite Ht. discriminate.
  - exact H.
  - revert H. unfold client_present. destruct w as [[l o a t g i b] p].
    unfold onend, modify_state. exec. destruct o; trivial.
  - apply (same_state_client w); [| exact H].
    unfold onresult. exec. destruct (truthy (final_transcript ev)); reflexivity.
  - apply (same_state_client w); [| exact H].
    unfold micBtn_onclick. exec. destruct (isListening (state w)); reflexivity.
  - exact H.
  - destruct (saveDisabled (page w)); [exact H |].
    apply (same_state_client w); [| exact H]. apply run_state, drive_save_state.
  - unfold client_present. rewrite drive_online_state. exact H.
  - exact H.
  - (* TimerFired *)
    destruct (timers (page w) !! i) as [[[m k |] d] |]; [| | exact H].
    + apply (same_state_client w); [reflexivity | exact H].
    + unfold run, detach, try_catch at 1, bind at 1, modify_page at 1.
      apply initGis_client.
      apply (same_state_client w); [reflexivity | exact H].
Qed.

Lemma drive_session_gated_client es : forall w : World STATE,
  auth_gated w -> client_present w ->
  auth_gated (steps env cfg es w) /\ client_present (steps env cfg es w).
Proof.
  induction es as [| e es IH]; intros w Hg Hc; [split; assumption |].
  unfold steps. cbn [fold_left].
  apply IH; [apply drive_step_gated | apply drive_step_client]; assumption.
Qed.

Lemma script_gated_client b (w : World STATE) :
  auth_gated (step env cfg (Script b) w) /\ client_present (step env cfg (Script b) w).
Proof.
  unfold auth_gated, auth_started, auth_ready, client_present. cbn [step].
  unfold script, initGis, initGis_body, maybeEnableAuth, renderAuthButton,
    modify_state.
  exec.
  destruct (window_google env _); cbn;
    destruct b; cbn; split; discriminate.
Qed.

Lemma late_initGis_throws (w : World STATE) i d :
  timers (page w) !! i = Some (CbInitGis, d) ->
  window_google env (tick (page w)) = false ->
  step env cfg (TimerFired i) w
  = mkWorld (state w)
      (emit (EUnhandled (js_type_error "google is not defined"))
         (next_tick (set_timers (delete i (timers (page w))) (page w)))).
Proof.
  intros Ht Hg. cbn [step]. rewrite Ht. unfold fire, initGis, initGis_body. exec.
  rewrite Hg.
  reflexivity.
Qed.

End Identity.

(** X19.  Drive variant: in a session that starts with the evaluation of
    the script, whenever the sign-in button is shown the token client
    exists, so a click on the button never runs into the null client: it
    installs the callback and asks for a token. *)
Theorem sign_in_button_has_a_client :
  forall (env : Env) (J : JSONParse) (cfg : Drive.Config) (speechSupported : bool)
         (es : list Drive.Event) (w : World Drive.STATE),
    let w' := Drive.steps env cfg (Drive.Script speechSupported :: es) w in
    Drive.authButton (state w') = true ->
    Drive.tokenClient (state w') <> None /\
    Drive.tokenClient (state (Drive.step env cfg Drive.AuthClick w')) = Some true /\
    exists prompt,
      trace (page (Drive.step env cfg Drive.AuthClick w'))
      = trace (page w') ++ [ERequestAccessToken prompt].
Proof.
  intros env J cfg b es w w' Hb.
  assert (auth_gated w' /\ client_present w') as [Hg Hc].
  { subst w'. unfold Drive.steps. cbn [fold_left].
    destruct (script_gated_client env cfg b w) as [H1 H2].
    apply (drive_session_gated_client env cfg es); assumption. }
  assert (Drive.tokenClient (state w') <> None) as Hn.
  { apply Hc. specialize (Hg ltac:(unfold auth_started; rewrite Hb; reflexivity)).
    unfold auth_ready in Hg. apply andb_true_iff in Hg. apply Hg. }
  split; [exact Hn |].
  clearbody w'. cbn [Drive.step]. rewrite Hb.
  unfold Drive.handleAuthClick, Drive.modify_state. exec.
  destruct (Drive.tokenClient (state w')) as [c |]; [| congruence]. cbn.
  destruct (getToken env _); cbn; (split; [reflexivity | eexists; reflexivity]).
Qed.

Lemma sign_in_button_has_a_client_witness :
  let w' := Drive.steps Outage.signed_out Sample.cfg
              [Drive.Script true; Drive.GapiLoaded]
              (Sample.drive true false [] Sample.empty_slot) in
  Drive.authButton (state w') = true /\
  Drive.tokenClient (state (Drive.step Outage.signed_out Sample.cfg Drive.AuthClick w'))
  = Some true.
Proof.
  cbv zeta. split; [reflexivity |].
  exact (proj1 (proj2 (sign_in_button_has_a_client Outage.signed_out reader_parse
                         Sample.cfg true [Drive.GapiLoaded]
                         (Sample.drive true false [] Sample.empty_slot) eq_refl))).
Defined.

(** X20.  Drive variant: the deferred start of the identity library is
    tried once.  When its timer fires and the library is still not there,
    the call fails on the missing [google], nothing of [STATE] changes
    ([gisInited] stays unset) and the timer is gone without another one
    being set, so the sign-in button cannot appear in this page load. *)
Theorem late_identity_start_is_not_retried :
  forall (env : Env) (J : JSONParse) (cfg : Drive.Config) (w : World Drive.STATE)
         (i : nat) (d : N),
    timers (page w) !! i = Some (CbInitGis, d) ->
    window_google env (tick (page w)) = false ->
    Drive.step env cfg (Drive.TimerFired i) w
    = mkWorld (state w)
        (emit (EUnhandled (Drive.js_type_error "google is not defined"))
           (next_tick (set_timers (delete i (timers (page w))) (page w)))).
Proof. intros. apply late_initGis_throws with (d := d); assumption. Qed.

Lemma late_identity_start_is_not_retried_witness :
  let w := Drive.step Outage.no_identity Sample.cfg (Drive.Script true)
             (Sample.drive true false [] Sample.empty_slot) in
  let w' := Drive.step Outage.no_identity Sample.cfg (Drive.TimerFired 0) w in
  timers (page w) = [(CbInitGis, 1000)] /\
  timers (page w') = [] /\
  Drive.gisInited (state w') = false.
Proof.
  cbv zeta. split; [reflexivity |].
  rewrite (late_identity_start_is_not_retried Outage.no_identity reader_parse
             Sample.cfg
             (Drive.step Outage.no_identity Sample.cfg (Drive.Script true)
                (Sample.drive true false [] Sample.empty_slot))
             0%nat 1000 eq_refl eq_refl).
  split; reflexivity.
Defined.

(** ** Status timers *)

Section Timers.
Context (env : Env) {J : JSONParse}.

Lemma relay_status_timer_fires (w : World Relay.appState) i m k d :
  timers (page w) !! i = Some (CbStatus m k, d) ->
  Relay.step env (Relay.TimerFired i) w
  = mkWorld (state w)
      (set_status m (lit "status-dot " ++ k)
         (set_timers (delete i (timers (page w))) (page w))).
Proof. intros Ht. cbn [Relay.step]. rewrite Ht. reflexivity. Qed.

Lemma drive_status_timer_fires cfg (w : World Drive.STATE) i m k d :
  timers (page w) !! i = Some (CbStatus m k, d) ->
  Drive.step env cfg (Drive.TimerFired i) w
  = mkWorld (state w)
      (set_status m (lit "status-dot " ++ k)
         (set_timers (delete i (timers (page w))) (page w))).
Proof. intros Ht. cbn [Drive.step]. rewrite Ht. reflexivity. Qed.

Ltac timer_leaf :=
  let w := fresh "w" in
  let H := fresh "H" in
  intros w H; open_leaf;
  first [ exact H | apply lookup_app_l_Some; exact H ].

(** A pending timer stays where it is while the [online] listener runs. *)
Lemma relay_online_keeps_timer (w : World Relay.appState) i x :
  timers (page w) !! i = Some x ->
  timers (page (Relay.step env Relay.Online w)) !! i = Some x.
Proof.
  intros H. cbn [Relay.step].
  apply (keeps_run (fun w' => timers (page w') !! i = Some x));
    [| intros ?; unfold modify_page; timer_leaf | exact H].
  relay_open. all: timer_leaf.
Qed.

Lemma drive_online_keeps_timer cfg (w : World Drive.STATE) i x :
  timers (page w) !! i = Some x ->
  timers (page (Drive.step env cfg Drive.Online w)) !! i = Some x.
Proof.
  intros H. cbn [Drive.step].
  apply (keeps_run (fun w' => timers (page w') !! i = Some x));
    [| intros ?; unfold modify_page; timer_leaf | exact H].
  drive_open. all: timer_leaf.
Qed.

Lemma relay_stale_timer (w : World Relay.appState) q :
  Relay.isOnline (state w) = false ->
  saveDisabled (page w) = false ->
  all_ws (memoText (page w)) = false ->
  stored_queue (page w) = Some q ->
  timers (page w) = [] ->
  let w' := Relay.steps env [Relay.SaveClick; Relay.Online; Relay.TimerFired 0] w in
  Relay.isOnline (state w') = true /\
  statusText (page w') = lit "OFFLINE" /\
  statusDot (page w') = lit "status-dot " ++ lit "offline".
Proof.
  intros Hoff Hen Hv Hq Ht w'. subst w'. unfold Relay.steps. cbn [fold_left].
  set (w1 := Relay.step env Relay.SaveClick w).
  assert (state w1 = state w /\
          timers (page w1) !! 0%nat = Some (CbStatus (lit "OFFLINE") (lit "offline"), 2000))
    as [Es1 Et1].
  { subst w1. cbn [Relay.step]. rewrite Hen.
    unfold Relay.saveBtn_onclick, Relay.updateAppStatusMessage, Relay.saveTextLocally.
    exec. rewrite truthy_trim, Hv. cbn. rewrite Hoff.
    erewrite saveToLocal_run by (cbn; exact Hq). cbn. rewrite Ht. split; reflexivity. }
  set (w2 := Relay.step env Relay.Online w1).
  assert (Relay.isOnline (state w2) = true) as Es2
    by (subst w2; cbn [Relay.step]; rewrite relay_online_state; reflexivity).
  pose proof (relay_online_keeps_timer w1 0%nat _ Et1) as Et2. fold w2 in Et2.
  rewrite (relay_status_timer_fires w2 0%nat _ _ _ Et2).
  cbn. repeat split. exact Es2.
Qed.

Lemma drive_stale_timer cfg (w : World Drive.STATE) q :
  Drive.isOnline (state w) = false ->
  saveDisabled (page w) = false ->
  all_ws (memoText (page w)) = false ->
  stored_queue (page w) = Some q ->
  timers (page w) = [] ->
  let w' := Drive.steps env cfg [Drive.SaveClick; Drive.Online; Drive.TimerFired 0] w in
  Drive.isOnline (state w') = true /\
  statusText (page w') = lit "OFFLINE" /\
  statusDot (page w') = lit "status-dot " ++ lit "offline".
Proof.
  intros Hoff Hen Hv Hq Ht w'. subst w'. unfold Drive.steps. cbn [fold_left].
  set (w1 := Drive.step env cfg Drive.SaveClick w).
  assert (state w1 = state w /\
          timers (page w1) !! 0%nat = Some (CbStatus (lit "OFFLINE") (lit "offline"), 2000))
    as [Es1 Et1].
  { subst w1. cbn [Drive.step]. rewrite Hen.
    unfold Drive.saveBtn_onclick.
    exec. rewrite truthy_trim, Hv. cbn. rewrite Hoff. cbn.
    erewrite saveToLocal_run by (cbn; exact Hq). cbn. rewrite Ht. split; reflexivity. }
  set (w2 := Drive.step env cfg Drive.Online w1).
  assert (Drive.isOnline (state w2) = true) as Es2
    by (subst w2; cbn [Drive.step]; rewrite drive_online_state; reflexivity).
  pose proof (drive_online_keeps_timer cfg w1 0%nat _ Et1) as Et2. fold w2 in Et2.
  rewrite (drive_status_timer_fires cfg w2 0%nat _ _ _ Et2).
  cbn. repeat split. exact Es2.
Qed.

End Timers.

(** X21.  A status timer writes its label whatever has happened since it
    was set.  A note saved while offline sets the 2000 ms timer that is to
    put the status back to OFFLINE; if the connection returns before the
    timer fires, the timer still writes OFFLINE over whatever the sync has
    shown, so that the page is online and says OFFLINE.  Both variants. *)
Theorem offline_timer_outlives_reconnect :
  (forall (env : Env) (J : JSONParse) (w : World Relay.appState)
          (q : list PendingMemo),
     Relay.isOnline (state w) = false ->
     saveDisabled (page w) = false ->
     all_ws (memoText (page w)) = false ->
     stored_queue (page w) = Some q ->
     timers (page w) = [] ->
     let w' := Relay.steps env [Relay.SaveClick; Relay.Online; Relay.TimerFired 0] w in
     Relay.isOnline (state w') = true /\
     statusText (page w') = lit "OFFLINE" /\
     statusDot (page w') = lit "status-dot " ++ lit "offline")
  /\
  (forall (env : Env) (J : JSONParse) (cfg : Drive.Config) (w : World Drive.STATE)
          (q : list PendingMemo),
     Drive.isOnline (state w) = false ->
     saveDisabled (page w) = false ->
     all_ws (memoText (page w)) = false ->
     stored_queue (page w) = Some q ->
     timers (page w) = [] ->
     let w' := Drive.steps env cfg
                 [Drive.SaveClick; Drive.Online; Drive.TimerFired 0] w in
     Drive.isOnline (state w') = true /\
     statusText (page w') = lit "OFFLINE" /\
     statusDot (page w') = lit "status-dot " ++ lit "offline").
Proof.
  split; intros.
  - apply relay_stale_timer with (q := q); assumption.
  - apply drive_stale_timer with (q := q); assumption.
Qed.

Lemma offline_timer_outlives_reconnect_witness :
  statusText (page (Relay.steps Sample.calm
                      [Relay.SaveClick; Relay.Online; Relay.TimerFired 0]
                      (Sample.relay false (lit "tea") Sample.empty_slot)))
  = lit "OFFLINE"
  /\
  statusText (page (Drive.steps Sample.calm Sample.cfg
                      [Drive.SaveClick; Drive.Online; Drive.TimerFired 0]
                      (Sample.drive false true (lit "tea") Sample.empty_slot)))
  = lit "OFFLINE".
Proof.
  split.
  - exact (proj1 (proj2 (proj1 offline_timer_outlives_reconnect Sample.calm reader_parse
                           (Sample.relay false (lit "tea") Sample.empty_slot) []
                           eq_refl eq_refl eq_refl eq_refl eq_refl))).
  - exact (proj1 (proj2 (proj2 offline_timer_outlives_reconnect Sample.calm reader_parse
                           Sample.cfg
                           (Sample.drive false true (lit "tea") Sample.empty_slot) []
                           eq_refl eq_refl eq_refl eq_refl eq_refl))).
Defined.

(** ** Start-up *)

Section Startup.
Context (env : Env) {J : JSONParse}.

Lemma detach_completes {S : Type} (m : M S unit) (w : World S) :
  fst (detach m w) = Normal tt.
Proof.
  unfold detach, try_catch. destruct (m w) as [[[] | e] w']; reflexivity.
Qed.

Lemma run_detach {S : Type} (m : M S unit) (w : World S) :
  run (detach m) w = run m w.
Proof.
  unfold run at 1. unfold detach at 1, try_catch at 1.
  pose proof (detach_completes m w) as H.
  destruct (detach m w) as [[[] | e] w'] eqn:E; [| discriminate].
  unfold run. rewrite E. reflexivity.
Qed.

Lemma relay_peek_run (w0 : World Relay.appState) q :
  stored_queue (page w0) = Some q ->
  Relay.checkOfflineUnsavedMemos w0
  = (Normal tt, mkWorld (state w0) (logged (relay_peek_log q) 0 (page w0))).
Proof.
  intros H0. unfold Relay.checkOfflineUnsavedMemos, bind at 1.
  rewrite (read_pending_run w0 q H0). unfold relay_peek_log.
  destruct (0 <? length q)%nat; unfold console, modify_page, ret; cbn.
  - reflexivity.
  - rewrite logged_nil. reflexivity.
Qed.

Lemma drive_peek_run (w0 : World Drive.STATE) q :
  stored_queue (page w0) = Some q ->
  Drive.loadOfflineData w0
  = (Normal tt, mkWorld (state w0) (logged (drive_peek_log q) 0 (page w0))).
Proof.
  intros H0. unfold Drive.loadOfflineData, bind at 1.
  rewrite (read_pending_run w0 q H0). unfold drive_peek_log.
  destruct (0 <? length q)%nat; unfold console, modify_page, ret; cbn.
  - reflexivity.
  - rewrite logged_nil. reflexivity.
Qed.

Lemma relay_onload_run (w : World Relay.appState) q :
  stored_queue (page w) = Some q ->
  Relay.onload env w
  = let w1 := mkWorld (state w) (loaded env (relay_peek_log q) (page w)) in
    if Relay.isOnline (state w) then detach (Relay.syncOfflineMemosToSheet env) w1
    else (Normal tt, w1).
Proof.
  intros Hq. cbv zeta. unfold Relay.onload.
  unfold bind at 1, Relay.initializeDateDisplay, bind at 1, new_Date, modify_page.
  unfold bind at 1, Relay.updateOnlineStatusDisplay, bind at 1, read_onLine.
  cbn [page tick next_tick set_dateDisplay state].
  destruct (navigator_onLine env (Datatypes.S (tick (page w)))) eqn:Hn;
    unfold Relay.updateAppStatusMessage, updateStatus, modify_page;
    unfold bind at 1;
    (rewrite (relay_peek_run _ q)
       by (rewrite <- Hq; apply stored_queue_same; reflexivity));
    unfold bind at 1, get_state at 1; cbn [state];
    unfold loaded, logged, connectivity_label, connectivity_dot; cbn; rewrite Hn;
    destruct (Relay.isOnline (state w)); reflexivity.
Qed.

Lemma relay_load_readable (w : World Relay.appState) q :
  stored_queue (page w) = Some q ->
  Relay.step env Relay.PageLoad w
  = let w1 := mkWorld (state w) (loaded env (relay_peek_log q) (page w)) in
    if Relay.isOnline (state w) then run (Relay.syncOfflineMemosToSheet env) w1
    else w1.
Proof.
  intros Hq. cbv zeta. cbn [Relay.step].
  destruct (Relay.isOnline (state w)) eqn:Hon.
  - rewrite <- (run_detach (Relay.syncOfflineMemosToSheet env)).
    unfold run. unfold detach at 1. unfold try_catch at 1.
    rewrite (relay_onload_run w q Hq). cbv zeta. rewrite Hon. reflexivity.
  - unfold run, detach, try_catch. rewrite (relay_onload_run w q Hq). cbv zeta.
    rewrite Hon. reflexivity.
Qed.

Lemma drive_load_readable cfg (w : World Drive.STATE) q :
  stored_queue (page w) = Some q ->
  Drive.step env cfg Drive.PageLoad w
  = mkWorld (state w) (loaded env (drive_peek_log q ++ [EGapiLoad]) (page w)).
Proof.
  intros Hq. cbn [Drive.step]. unfold run, detach, try_catch, Drive.onload.
  unfold bind at 1, Drive.initDateDisplay, bind at 1, new_Date, modify_page.
  unfold bind at 1, Drive.checkOnlineStatus, bind at 1, read_onLine.
  cbn [page tick next_tick set_dateDisplay state].
  destruct (navigator_onLine env (Datatypes.S (tick (page w)))) eqn:Hn;
    unfold updateStatus, modify_page;
    unfold bind at 1;
    (rewrite (drive_peek_run _ q)
       by (rewrite <- Hq; apply stored_queue_same; reflexivity));
    unfold loaded, logged, connectivity_label, connectivity_dot; cbn; rewrite Hn;
    unfold emit; cbn; rewrite <- app_assoc; reflexivity.
Qed.

End Startup.

(** X22.  The load handler over a readable queue.  It shows the date and
    the status of the connectivity flag as read at that moment, and logs
    the number of queued notes when there are any.  The relay variant then
    runs the sync exactly when [appState.isOnline], the flag captured when
    the script was evaluated, is set, whatever the status just shown says.
    The drive variant never syncs at load: it asks for the Google client
    library and ends. *)
Theorem load_reports_queue :
  (forall (env : Env) (J : JSONParse) (w : World Relay.appState)
          (q : list PendingMemo),
     stored_queue (page w) = Some q ->
     Relay.step env Relay.PageLoad w
     = let w1 := mkWorld (state w) (loaded env (relay_peek_log q) (page w)) in
       if Relay.isOnline (state w) then run (Relay.syncOfflineMemosToSheet env) w1
       else w1)
  /\
  (forall (env : Env) (J : JSONParse) (cfg : Drive.Config) (w : World Drive.STATE)
          (q : list PendingMemo),
     stored_queue (page w) = Some q ->
     Drive.step env cfg Drive.PageLoad w
     = mkWorld (state w) (loaded env (drive_peek_log q ++ [EGapiLoad]) (page w))).
Proof.
  split; intros; [apply relay_load_readable | apply drive_load_readable]; assumption.
Qed.

Lemma load_reports_queue_witness :
  trace (page (Relay.step Sample.calm Relay.PageLoad
                 (Sample.relay false [] Sample.two_queued)))
  = [EConsole (lit "log")
       (Relay.s_unsent_prefix ++ lit "2" ++ Relay.s_unsent_suffix) None]
  /\
  trace (page (Drive.step Sample.calm Sample.cfg Drive.PageLoad
                 (Sample.drive true true [] Sample.two_queued)))
  = [EConsole (lit "log") (lit "2 unsaved memos found.") None; EGapiLoad].
Proof.
  split.
  - rewrite (proj1 load_reports_queue Sample.calm reader_parse
               (Sample.relay false [] Sample.two_queued) [Sample.milk; Sample.eggs]
               eq_refl).
    reflexivity.
  - rewrite (proj2 load_reports_queue Sample.calm reader_parse Sample.cfg
               (Sample.drive true true [] Sample.two_queued) [Sample.milk; Sample.eggs]
               eq_refl).
    reflexivity.
Defined.

(** X23.  Evaluation of the script in a browser without a speech
    recogniser: the microphone control is hidden, the lack is logged and
    one blocking notice is shown; with a recogniser none of the three
    happens.  Either way the state starts from the connectivity flag with
    nothing listening (and, in the drive variant, nobody signed in and the
    client library not initialised).  In the drive variant the part on the
    identity library comes first: where [google] is defined the token
    client is created and [gisInited] set, with no sign-in offered yet
    since [gapiInited] is unset; where it is not, the start is deferred by
    one 1000 ms timer.  The part on the recogniser follows in both cases. *)
Theorem script_without_recogniser :
  (forall (env : Env) (J : JSONParse) (w : World Relay.appState)
          (speechSupported : bool),
     Relay.step env (Relay.Script speechSupported) w
     = mkWorld (Relay.mkState false (navigator_onLine env (tick (page w))))
         (if speechSupported then next_tick (page w)
          else emit (EAlert Relay.s_alert_unsupported)
                 (set_micHidden true
                    (emit (EConsole (lit "warn") Relay.s_warn_unsupported None)
                       (next_tick (page w))))))
  /\
  (forall (env : Env) (J : JSONParse) (cfg : Drive.Config) (w : World Drive.STATE)
          (speechSupported : bool),
     Drive.step env cfg (Drive.Script speechSupported) w
     = let found := window_google env (1 + tick (page w)) in
       let p0 := next_tick (next_tick (page w)) in
       let p := if found then
                  emit (EInitTokenClient (Drive.CLIENT_ID cfg) (Drive.SCOPES cfg)) p0
                else
                  emit (ESetTimeout CbInitGis 1000)
                    (set_timers (timers (page w) ++ [(CbInitGis, 1000)]) p0) in
       mkWorld (Drive.mkState false (navigator_onLine env (tick (page w))) false
                  (if found then Some false else None) false found false)
         (if speechSupported then p
          else emit (EAlert Drive.s_alert_unsupported)
                 (set_micHidden true
                    (emit (EConsole (lit "log") (lit "Web Speech API not supported")
                             None) p)))).
Proof.
  split.
  - intros env J w b. cbn [Relay.step]. unfold Relay.script. exec.
    destruct b; reflexivity.
  - intros env J cfg w b. cbv zeta. cbn [Drive.step].
    unfold Drive.script, Drive.initGis_body, Drive.maybeEnableAuth,
      Drive.modify_state.
    exec.
    destruct (window_google env (Datatypes.S (tick (page w)))); cbn;
      destruct b; reflexivity.
Qed.

Lemma script_without_recogniser_witness :
  (let w' := Drive.step Sample.calm Sample.cfg (Drive.Script false)
               (Sample.drive true true [] Sample.empty_slot) in
   micHidden (page w') = true /\ Drive.isAuthenticated (state w') = false /\
   Drive.gisInited (state w') = true /\ timers (page w') = [])
  /\
  (let w' := Drive.step Outage.no_identity Sample.cfg (Drive.Script false)
               (Sample.drive true true [] Sample.empty_slot) in
   micHidden (page w') = true /\ Drive.isAuthenticated (state w') = false /\
   Drive.gisInited (state w') = false /\ timers (page w') = [(CbInitGis, 1000)]).
Proof.
  split; cbv zeta.
  - rewrite (proj2 script_without_recogniser Sample.calm reader_parse Sample.cfg
               (Sample.drive true true [] Sample.empty_slot) false).
    repeat split; reflexivity.
  - rewrite (proj2 script_without_recogniser Outage.no_identity reader_parse Sample.cfg
               (Sample.drive true true [] Sample.empty_slot) false).
    repeat split; reflexivity.
Defined.

(** X24.  Drive variant, the end of [gapi.client.init].  When it rejects,
    the rejection goes unhandled and [STATE] is untouched, so sign-in stays
    off.  When it resolves, [gapiInited] is set and, only if the identity
    library is initialised too, the sign-in is offered: with a token
    already held the user is marked authenticated and the status says so,
    without any sync being run; with none the button is shown.  The queue
    slot is not read and not written either way. *)
Theorem client_init_offers_sign_in :
  forall (env : Env) (J : JSONParse) (cfg : Drive.Config) (w : World Drive.STATE),
    let p1 := next_tick (emit (EGapiClientInit (Drive.API_KEY cfg)
                                 (Drive.DISCOVERY_DOC cfg)) (page w)) in
    let s1 := Drive.with_gapiInited true (state w) in
    Drive.step env cfg Drive.GapiLoaded w
    = match client_init_outcome env (tick (page w)) with
      | Some e => mkWorld (state w) (emit (EUnhandled e) p1)
      | None =>
          if Drive.gisInited (state w) then
            if getToken env (1 + tick (page w)) then
              mkWorld (Drive.with_isAuthenticated true s1)
                (set_status (lit "ONLINE (AUTHED)") (lit "status-dot " ++ lit "online")
                   (next_tick p1))
            else mkWorld (Drive.with_authButton true s1) (next_tick p1)
          else mkWorld s1 p1
      end.
Proof.
  intros env J cfg w p1 s1. subst p1 s1. cbn [Drive.step].
  unfold Drive.initGapi, Drive.maybeEnableAuth, Drive.renderAuthButton,
    Drive.modify_state.
  exec.
  destruct (client_init_outcome env (tick (page w))); cbn; [reflexivity |].
  destruct (Drive.gisInited (state w)); cbn; [| reflexivity].
  destruct (getToken env _); reflexivity.
Qed.
